(** * The wdio spec reporter: a shallow embedding and its properties

    Two reporter classes are embedded here:
    - [LibReporter]: [src/lib/reporter.js] (tally bucket [unverified],
      option [instantReport], output through [console.log]);
    - [Part000]: [src/unnamed/part_000] (tally bucket [unvalidated], option
      [reportResultsInstantly], step/retry events, [cleanStack], output
      through [baseReporter.log]).
    The two files share most method bodies; every definition below takes the
    [variant] and branches exactly where the two files differ.

    Conventions of the embedding.
    - Strings are [string] (sequences of 8-bit characters).
    - Every number the reporter holds is a counter that starts at 0 and moves
      by one; counters are [Z].  Where a counter is read from a JS object
      that may lack the property the result is a [jsnum], which adds [NaN].
      The limits of IEEE doubles and of array lengths (2^53, 2^32 - 1) are
      out of reach of these counters and are not modelled.
    - A JS object used as a dictionary keyed by cid or uid is a [gmap]; an
      object that is iterated with [for ... in] is an association list in
      iteration order.
    - A method is a function in the monad [M]: it reads and writes the
      reporter object and either returns or throws; what was written before a
      throw stays written, as in JS. *)

From Stdlib Require Import ZArith Ascii String List Lia Bool.
From stdpp Require Import base option gmap strings list pretty.

Local Open Scope string_scope.
Local Open Scope Z_scope.

(** ** JavaScript strings *)

Module JS.

Definition LF : string := String (ascii_of_nat 10) "".
Definition dquote : string := String (ascii_of_nat 34) "".
Definition backslash : string := String (ascii_of_nat 92) "".

(** [s.startsWith(p)]; also [s.indexOf(p) === 0]. *)
Definition startsWith (p s : string) : bool := String.prefix p s.

(** [s.indexOf(p) > -1]. *)
Fixpoint includes (p s : string) : bool :=
  startsWith p s ||
  match s with
  | EmptyString => false
  | String _ s' => includes p s'
  end.

(** [s.split('\n')], the same list as [s.split(/\n/g)]. *)
Fixpoint split_lines (s : string) : list string :=
  match s with
  | EmptyString => [""]
  | String c s' =>
      if Ascii.eqb c (ascii_of_nat 10) then "" :: split_lines s'
      else match split_lines s' with
           | [] => [String c ""]
           | l :: ls => String c l :: ls
           end
  end.

(** [a.join(sep)] on an array of strings. *)
Definition join (sep : string) (a : list string) : string := String.concat sep a.

(** White space and line terminators that [trim] strips, among 8-bit
    characters below 128: TAB, LF, VT, FF, CR and SPACE. *)
Definition is_space (c : ascii) : bool :=
  let n := nat_of_ascii c in
  ((9 <=? n)%nat && (n <=? 13)%nat) || (n =? 32)%nat.

Fixpoint trimStart (s : string) : string :=
  match s with
  | EmptyString => EmptyString
  | String c s' => if is_space c then trimStart s' else s
  end.

Fixpoint trimEnd (s : string) : string :=
  match s with
  | EmptyString => EmptyString
  | String c s' =>
      match trimEnd s' with
      | EmptyString => if is_space c then EmptyString else String c EmptyString
      | t => String c t
      end
  end.

Definition trim (s : string) : string := trimEnd (trimStart s).

(** [s.replace(p, r)] with a string pattern: the first occurrence only. *)
Fixpoint replace (p r s : string) : string :=
  if startsWith p s then r +:+ String.substring (String.length p) (String.length s) s
  else match s with
       | EmptyString => EmptyString
       | String c s' => String c (replace p r s')
       end.

(** [Array(n).join(sep)] for a non-negative integer [n]: an array of [n]
    holes, each rendered as the empty string. *)
Fixpoint join_holes (n : nat) (sep : string) : string :=
  match n with
  | O => ""
  | S O => ""
  | S n' => sep +:+ join_holes n' sep
  end.

(** A number read from a property that may be missing or spoilt. *)
Inductive jsnum := JNum (z : Z) | JNaN.

(** [ToNumber] of a property that may be [undefined]. *)
Definition to_number (v : option jsnum) : jsnum :=
  match v with Some n => n | None => JNaN end.

Definition num_add (a : jsnum) (d : Z) : jsnum :=
  match a with JNum z => JNum (z + d) | JNaN => JNaN end.

Definition num_mul (a : jsnum) (d : Z) : jsnum :=
  match a with JNum z => JNum (z * d) | JNaN => JNaN end.

(** Number to string, as string concatenation does it. *)
Definition number_to_string (a : jsnum) : string :=
  match a with JNum z => pretty z | JNaN => "NaN" end.

(** The values of the language that reach a truthiness test or a template
    literal here: [undefined] or a string. *)
Definition truthy (v : option string) : bool :=
  match v with Some (String _ _) => true | _ => false end.

Definition or (a b : option string) : option string :=
  if truthy a then a else b.

Definition to_string (v : option string) : string :=
  match v with Some s => s | None => "undefined" end.

Inductive error := TypeError | RangeError | SyntaxError.

Inductive completion (A : Type) :=
  | Normal (a : A)
  | Throw (e : error).
#[global] Arguments Normal {A} a.
#[global] Arguments Throw {A} e.

(** [Array(v).join(sep)] for what the reporter passes as [v]: [undefined]
    makes the one-element array [[undefined]], a negative number or [NaN] is
    an invalid array length. *)
Definition Array_join (v : option jsnum) (sep : string) : completion string :=
  match v with
  | None => Normal ""
  | Some (JNum z) => if z <? 0 then Throw RangeError else Normal (join_holes (Z.to_nat z) sep)
  | Some JNaN => Throw RangeError
  end.

End JS.
Export JS (jsnum, JNum, JNaN, completion, Normal, Throw).

(** ** Data model *)

(** Which of the two reporter classes is meant. *)
Inductive variant := LibReporter | Part000.

(** The options the reporter reads from [this.config].  [instantReport] is
    the option of that name in [src/lib/reporter.js] and
    [reportResultsInstantly] in [src/unnamed/part_000]. *)
Record Config := {
  instantReport : bool;
  reportErrorsInstantly : bool;
  cleanStackTraces : bool;
  consoleLogLevel : option string;
}.

(** An error object: [message], [stack] and [matcherName]. *)
Record ErrorObj := {
  message : string;
  stack : option string;
  matcherName : option string;
}.

(** Event payloads, with the fields the handlers read. *)
Record Runner := { runner_cid : string; runner_specs : list string }.
Record Suite := { suite_cid : string; suite_uid : string; suite_title : string }.
Record Test := {
  test_cid : string;
  test_title : string;
  test_id : option string;
  test_errs : option (list ErrorObj);
  test_finishedTests : bool;
}.

(** [step.arg] is a JSON text that the handler parses and, when the parsed
    object has a key, prints with [util.inspect]; the payload carries the
    outcome of these two library calls. *)
Inductive StepArg :=
  | ArgMalformed
  | ArgNoKeys
  | ArgInspected (text : string).

Record Step := {
  step_cid : string;
  step_title : option string;
  step_description : option string;
  step_arg : StepArg;
  step_assertion : option ErrorObj;
}.

Inductive event :=
  | StartSpecs (runner : Runner)
  | RunnerStart (runner : Runner)
  | RunnerInit (runner : Runner)
  | SuiteStart (suite : Suite)
  | TestSetCurrentId (test : Test)
  | TestPending (test : Test)
  | TestPass (test : Test)
  | TestFail (test : Test)
  | TestBroken (test : Test)
  | TestUnverified (test : Test)
  | TestUnvalidated (test : Test)
  | ValidateFailure (assertion : option ErrorObj)
  | SuiteEnd (suite : Suite)
  | RunnerEnd (runner : Runner)
  | End
  | StepStart (step : Step)
  | RetryFailed (step : Step)
  | RetryBroken (step : Step)
  | RetryValidateFailure (assertion : option ErrorObj)
  | StepEnd (step : Step).

(** The result tally of one session.  The fifth bucket is the property
    [unverified] in [src/lib/reporter.js] and [unvalidated] in
    [src/unnamed/part_000]. *)
Record Tally := {
  passing : Z;
  pending : Z;
  failing : Z;
  broken : Z;
  unverified : Z;
}.

Definition zero_tally : Tally :=
  {| passing := 0; pending := 0; failing := 0; broken := 0; unverified := 0 |}.

Definition fifth_state (v : variant) : string :=
  match v with LibReporter => "unverified" | Part000 => "unvalidated" end.

(** The tally as [for (const state in states)] walks it: own string keys in
    creation order. *)
Definition tally_entries (v : variant) (t : Tally) : list (string * Z) :=
  [("passing", passing t); ("pending", pending t); ("failing", failing t);
   ("broken", broken t); (fifth_state v, unverified t)].

Definition tally_total (t : Tally) : Z :=
  passing t + pending t + failing t + broken t + unverified t.

(** *** The host's statistics, [this.baseReporter.stats] *)

Record Caps := {
  deviceName : option string;
  browserName : option string;
  browser : option string;
  version : option string;
  platformVersion : option string;
  browser_version : option string;
  os : option string;
  os_version : option string;
  platform : option string;
  platformName : option string;
  app : option string;
}.

(** A test of a suite; [ts_state] is [""] while the test has no outcome. *)
Record TestStats := { ts_title : string; ts_state : string }.

(** A suite with its tests in iteration order. *)
Record SuiteStats := { ss_title : string; ss_tests : list (string * TestStats) }.

(** [results.specs[specHash]]: the suites in iteration order, and
    [_duration]. *)
Record SpecStats := { spec_suites : list (string * SuiteStats); spec_duration : Z }.

(** [stats.runners[cid]]; [config_host] is [results.config.host]. *)
Record RunnerStats := {
  capabilities : Caps;
  sessionID : option string;
  rs_specs : gmap string SpecStats;
  config_host : option string;
}.

(** An entry of [stats.getFailures()].  [f_runner] holds the keys of
    [f.runner]; [f_flag] is [test.unverified] ([test.unvalidated] in
    [src/unnamed/part_000]). *)
Record Failure := {
  f_cid : option string;
  f_runner : list string;
  f_parent : option string;
  f_title : string;
  f_printTitle : option string;
  f_flag : bool;
  f_errs : option (list ErrorObj);
  f_err : option ErrorObj;
}.

Record Stats := {
  runners : gmap string RunnerStats;
  getFailures : list Failure;
  counts_pending : Z;
}.

(** What the reporter has written, oldest first. *)
Inductive output :=
  | ConsoleLog (text : string)
  | ReporterLog (text : string)
  | Epilogue
  | WriteCompleteOutput.

(** *** The reporter object

    The fields the constructor sets on [this], with [stats] standing for
    [this.baseReporter.stats] (owned by the host, read and in two places
    written by the reporter) and [console] for everything written so far. *)
Record reporter := {
  errorCount : Z;
  failureCount : Z;
  indents : gmap string jsnum;
  stepIndents : gmap string jsnum;
  suiteIndents : gmap string (gmap string jsnum);
  specs : gmap string (list string);
  results : gmap string Tally;
  startedSpecs : bool;
  retryCount : Z;
  currentTest : option Test;
  currentSuite : option Suite;
  stats : Stats;
  console : list output;
}.

Definition set_errorCount (x : Z) (r : reporter) : reporter :=
  {| errorCount := x; failureCount := failureCount r; indents := indents r;
     stepIndents := stepIndents r; suiteIndents := suiteIndents r; specs := specs r;
     results := results r; startedSpecs := startedSpecs r; retryCount := retryCount r;
     currentTest := currentTest r; currentSuite := currentSuite r; stats := stats r;
     console := console r |}.

Definition set_failureCount (x : Z) (r : reporter) : reporter :=
  {| errorCount := errorCount r; failureCount := x; indents := indents r;
     stepIndents := stepIndents r; suiteIndents := suiteIndents r; specs := specs r;
     results := results r; startedSpecs := startedSpecs r; retryCount := retryCount r;
     currentTest := currentTest r; currentSuite := currentSuite r; stats := stats r;
     console := console r |}.

Definition set_indents (x : gmap string jsnum) (r : reporter) : reporter :=
  {| errorCount := errorCount r; failureCount := failureCount r; indents := x;
     stepIndents := stepIndents r; suiteIndents := suiteIndents r; specs := specs r;
     results := results r; startedSpecs := startedSpecs r; retryCount := retryCount r;
     currentTest := currentTest r; currentSuite := currentSuite r; stats := stats r;
     console := console r |}.

Definition set_stepIndents (x : gmap string jsnum) (r : reporter) : reporter :=
  {| errorCount := errorCount r; failureCount := failureCount r; indents := indents r;
     stepIndents := x; suiteIndents := suiteIndents r; specs := specs r;
     results := results r; startedSpecs := startedSpecs r; retryCount := retryCount r;
     currentTest := currentTest r; currentSuite := currentSuite r; stats := stats r;
     console := console r |}.

Definition set_suiteIndents (x : gmap string (gmap string jsnum)) (r : reporter) : reporter :=
  {| errorCount := errorCount r; failureCount := failureCount r; indents := indents r;
     stepIndents := stepIndents r; suiteIndents := x; specs := specs r;
     results := results r; startedSpecs := startedSpecs r; retryCount := retryCount r;
     currentTest := currentTest r; currentSuite := currentSuite r; stats := stats r;
     console := console r |}.

Definition set_specs (x : gmap string (list string)) (r : reporter) : reporter :=
  {| errorCount := errorCount r; failureCount := failureCount r; indents := indents r;
     stepIndents := stepIndents r; suiteIndents := suiteIndents r; specs := x;
     results := results r; startedSpecs := startedSpecs r; retryCount := retryCount r;
     currentTest := currentTest r; currentSuite := currentSuite r; stats := stats r;
     console := console r |}.

Definition set_results (x : gmap string Tally) (r : reporter) : reporter :=
  {| errorCount := errorCount r; failureCount := failureCount r; indents := indents r;
     stepIndents := stepIndents r; suiteIndents := suiteIndents r; specs := specs r;
     results := x; startedSpecs := startedSpecs r; retryCount := retryCount r;
     currentTest := currentTest r; currentSuite := currentSuite r; stats := stats r;
     console := console r |}.

Definition set_startedSpecs (x : bool) (r : reporter) : reporter :=
  {| errorCount := errorCount r; failureCount := failureCount r; indents := indents r;
     stepIndents := stepIndents r; suiteIndents := suiteIndents r; specs := specs r;
     results := results r; startedSpecs := x; retryCount := retryCount r;
     currentTest := currentTest r; currentSuite := currentSuite r; stats := stats r;
     console := console r |}.

Definition set_retryCount (x : Z) (r : reporter) : reporter :=
  {| errorCount := errorCount r; failureCount := failureCount r; indents := indents r;
     stepIndents := stepIndents r; suiteIndents := suiteIndents r; specs := specs r;
     results := results r; startedSpecs := startedSpecs r; retryCount := x;
     currentTest := currentTest r; currentSuite := currentSuite r; stats := stats r;
     console := console r |}.

Definition set_currentTest (x : option Test) (r : reporter) : reporter :=
  {| errorCount := errorCount r; failureCount := failureCount r; indents := indents r;
     stepIndents := stepIndents r; suiteIndents := suiteIndents r; specs := specs r;
     results := results r; startedSpecs := startedSpecs r; retryCount := retryCount r;
     currentTest := x; currentSuite := currentSuite r; stats := stats r;
     console := console r |}.

Definition set_currentSuite (x : option Suite) (r : reporter) : reporter :=
  {| errorCount := errorCount r; failureCount := failureCount r; indents := indents r;
     stepIndents := stepIndents r; suiteIndents := suiteIndents r; specs := specs r;
     results := results r; startedSpecs := startedSpecs r; retryCount := retryCount r;
     currentTest := currentTest r; currentSuite := x; stats := stats r;
     console := console r |}.

Definition set_stats (x : Stats) (r : reporter) : reporter :=
  {| errorCount := errorCount r; failureCount := failureCount r; indents := indents r;
     stepIndents := stepIndents r; suiteIndents := suiteIndents r; specs := specs r;
     results := results r; startedSpecs := startedSpecs r; retryCount := retryCount r;
     currentTest := currentTest r; currentSuite := currentSuite r; stats := x;
     console := console r |}.

Definition set_console (x : list output) (r : reporter) : reporter :=
  {| errorCount := errorCount r; failureCount := failureCount r; indents := indents r;
     stepIndents := stepIndents r; suiteIndents := suiteIndents r; specs := specs r;
     results := results r; startedSpecs := startedSpecs r; retryCount := retryCount r;
     currentTest := currentTest r; currentSuite := currentSuite r; stats := stats r;
     console := x |}.

(** ** The method monad: state of [this] plus JS exceptions *)

Definition M (A : Type) : Type := reporter -> completion A * reporter.

Definition ret {A} (a : A) : M A := fun r => (Normal a, r).

Definition bind {A B} (m : M A) (k : A -> M B) : M B :=
  fun r =>
    match m r with
    | (Normal a, r') => k a r'
    | (Throw e, r') => (Throw e, r')
    end.

Definition throw {A} (e : JS.error) : M A := fun r => (Throw e, r).

Definition get : M reporter := fun r => (Normal r, r).

Definition modify (f : reporter -> reporter) : M unit := fun r => (Normal tt, f r).

Definition lift {A} (c : completion A) : M A := fun r => (c, r).

Notation "'let!' x ':=' c 'in' k" := (bind c (fun x => k))
  (at level 10, x name, c at level 100, k at level 200).
Notation "c ';>' k" := (bind c (fun _ => k))
  (at level 100, k at level 200, right associativity).

(** [if (b) { m }]. *)
Definition when (b : bool) (m : M unit) : M unit := if b then m else ret tt.

(** [a.forEach(body)]. *)
Fixpoint forEach {A} (a : list A) (body : A -> M unit) : M unit :=
  match a with
  | [] => ret tt
  | x :: a' => body x ;> forEach a' body
  end.

(** [console.log(text)], [this.baseReporter.log(text)]. *)
Definition console_log (text : string) : M unit :=
  modify (fun r => set_console (console r ++ [ConsoleLog text]) r).

Definition reporter_log (text : string) : M unit :=
  modify (fun r => set_console (console r ++ [ReporterLog text]) r).

(** The state after a method, and its completion. *)
Definition exec {A} (m : M A) (r : reporter) : reporter := snd (m r).
Definition eval {A} (m : M A) (r : reporter) : completion A := fst (m r).

(** ** The host: [this.baseReporter] and the duration humanizer

    [symbols_ok] is [baseReporter.symbols.ok], [color] is
    [baseReporter.color] (its first argument is [null] for a state
    [getColor] does not know), [getSpecHash] is [stats.getSpecHash] and
    [shortEnglishHumanizer d] is
    [this.shortEnglishHumanizer(d, DURATION_OPTIONS)]. *)
Record BaseReporter := {
  symbols_ok : string;
  color : option string -> string -> string;
  getSpecHash : Runner -> string;
  shortEnglishHumanizer : Z -> string;
}.

(** The place of a [suites] object inside [stats]:
    [stats.runners[ref_cid].specs[ref_hash].suites]. *)
Record SuitesRef := { ref_cid : string; ref_hash : string }.

Definition lookup_suites (ref : SuitesRef) (s : Stats) : option (list (string * SuiteStats)) :=
  match runners s !! ref_cid ref with
  | None => None
  | Some rs =>
      match rs_specs rs !! ref_hash ref with
      | None => None
      | Some sp => Some (spec_suites sp)
      end
  end.

(** Update of the value under key [k] of an object held as an association
    list. *)
Definition alist_alter {V} (f : V -> V) (k : string) (l : list (string * V)) : list (string * V) :=
  map (fun kv => if decide (fst kv = k) then (fst kv, f (snd kv)) else kv) l.

(** [suites[specUid].tests[testUid].state = state] on the object at [ref]. *)
Definition set_test_state (ref : SuitesRef) (specUid testUid state : string) (s : Stats) : Stats :=
  let on_test t := {| ts_title := ts_title t; ts_state := state |} in
  let on_suite ss := {| ss_title := ss_title ss; ss_tests := alist_alter on_test testUid (ss_tests ss) |} in
  let on_spec sp := {| spec_suites := alist_alter on_suite specUid (spec_suites sp);
                       spec_duration := spec_duration sp |} in
  let on_runner rs := {| capabilities := capabilities rs; sessionID := sessionID rs;
                         rs_specs := alter on_spec (ref_hash ref) (rs_specs rs);
                         config_host := config_host rs |} in
  {| runners := alter on_runner (ref_cid ref) (runners s);
     getFailures := getFailures s;
     counts_pending := counts_pending s |}.

Definition incr_counts_pending (s : Stats) : Stats :=
  {| runners := runners s; getFailures := getFailures s;
     counts_pending := counts_pending s + 1 |}.

Definition separator : string :=
  "------------------------------------------------------------------".

(** ** Regular expressions, for [STACKTRACE_FILTER] *)

Module Regex.

Inductive regex :=
  | Void
  | Eps
  | Chr (c : ascii)
  | WordChar
  | Seq (r1 r2 : regex)
  | Alt (r1 r2 : regex)
  | Star (r : regex).

(** [\w]: a letter, a digit or the underscore. *)
Definition is_word_char (c : ascii) : bool :=
  let n := nat_of_ascii c in
  ((48 <=? n)%nat && (n <=? 57)%nat) || ((65 <=? n)%nat && (n <=? 90)%nat)
  || ((97 <=? n)%nat && (n <=? 122)%nat) || (n =? 95)%nat.

Definition Plus (r : regex) : regex := Seq r (Star r).

(** The characters of [s] in a row, then [k]. *)
Fixpoint lit (s : string) (k : regex) : regex :=
  match s with
  | EmptyString => k
  | String c s' => Seq (Chr c) (lit s' k)
  end.

Fixpoint nullable (r : regex) : bool :=
  match r with
  | Void => false
  | Eps => true
  | Chr _ => false
  | WordChar => false
  | Seq r1 r2 => nullable r1 && nullable r2
  | Alt r1 r2 => nullable r1 || nullable r2
  | Star _ => true
  end.

(** The derivative of [r] by the character [c]. *)
Fixpoint deriv (c : ascii) (r : regex) : regex :=
  match r with
  | Void => Void
  | Eps => Void
  | Chr c' => if Ascii.eqb c c' then Eps else Void
  | WordChar => if is_word_char c then Eps else Void
  | Seq r1 r2 =>
      if nullable r1 then Alt (Seq (deriv c r1) r2) (deriv c r2)
      else Seq (deriv c r1) r2
  | Alt r1 r2 => Alt (deriv c r1) (deriv c r2)
  | Star r1 => Seq (deriv c r1) (Star r1)
  end.

(** Some prefix of [s] matches [r]. *)
Fixpoint matches_at_start (r : regex) (s : string) : bool :=
  nullable r ||
  match s with
  | EmptyString => false
  | String c s' => matches_at_start (deriv c r) s'
  end.

(** [s.match (r)] is not [null]: [r] matches somewhere in [s]. *)
Fixpoint search (r : regex) (s : string) : bool :=
  matches_at_start r s ||
  match s with
  | EmptyString => false
  | String _ s' => search r s'
  end.

End Regex.

(** [/(node_modules(\/|\\)(\w+)*|wdio-sync\/build|- - - - -)/g] *)
Definition STACKTRACE_FILTER : Regex.regex :=
  Regex.Alt
    (Regex.lit "node_modules"
       (Regex.Seq (Regex.Alt (Regex.Chr "/") (Regex.Chr (ascii_of_nat 92)))
          (Regex.Star (Regex.Plus Regex.WordChar))))
    (Regex.Alt (Regex.lit "wdio-sync/build" Regex.Eps) (Regex.lit "- - - - -" Regex.Eps)).

(** ** The methods of [SpecReporter] *)

Section Reporter.

Context (v : variant) (baseReporter : BaseReporter) (config : Config).

(** [this.results[cid].bucket++]; a [TypeError] when the session has no
    tally. *)
Definition bump_result (cid : string) (f : Tally -> Tally) : M unit :=
  let! r := get in
  match results r !! cid with
  | None => throw JS.TypeError
  | Some t => modify (fun r => set_results (<[cid := f t]> (results r)) r)
  end.

(** [bucket++] for each bucket of a tally. *)
Definition incr_passing (t : Tally) : Tally :=
  {| passing := passing t + 1; pending := pending t; failing := failing t;
     broken := broken t; unverified := unverified t |}.
Definition incr_pending (t : Tally) : Tally :=
  {| passing := passing t; pending := pending t + 1; failing := failing t;
     broken := broken t; unverified := unverified t |}.
Definition incr_failing (t : Tally) : Tally :=
  {| passing := passing t; pending := pending t; failing := failing t + 1;
     broken := broken t; unverified := unverified t |}.
Definition incr_broken (t : Tally) : Tally :=
  {| passing := passing t; pending := pending t; failing := failing t;
     broken := broken t + 1; unverified := unverified t |}.
Definition incr_unverified (t : Tally) : Tally :=
  {| passing := passing t; pending := pending t; failing := failing t;
     broken := broken t; unverified := unverified t + 1 |}.

(** [indent (cid, uid)] *)
Definition indent (cid uid : string) : M string :=
  let! r := get in
  match suiteIndents r !! cid with
  | None => throw JS.TypeError
  | Some depths =>
      let indents := depths !! uid in
      match indents with
      | Some (JNum 0) => ret ""
      | _ => lift (JS.Array_join indents "    ")
      end
  end.

(** [stepIndent (cid, inline = 0)], with [stepIndentOffset = 1] and
    [stepIndentWidth = 2]. *)
Definition stepIndent (cid : string) (inline : Z) : M string :=
  let! r := get in
  let indents :=
    match JS.num_mul (JS.to_number (stepIndents r !! cid)) 2 with
    | JNum z => JNum (1 + inline + z)
    | JNaN => JNaN
    end in
  match indents with
  | JNum 0 => ret ""
  | _ => lift (JS.Array_join (Some indents) " ")
  end.

(** [logStep (step)] *)
Definition logStep (step : Step) : bool :=
  match step_title step with
  | Some title =>
      JS.truthy (Some title) && negb (String.eqb title "Callback")
      && negb (JS.startsWith "validate: {" title)
  | None => false
  end.

(** [this.errorCount++; symbol = this.errorCount + ')'], the body of three
    cases of [getSymbol]. *)
Definition nextErrorSymbol : M string :=
  modify (fun r => set_errorCount (errorCount r + 1) r) ;>
  let! r := get in
  ret (pretty (errorCount r) +:+ ")").

(** [getSymbol (state)]: the [switch] with its cases ['pass'], ['pending'],
    ['fail'], ['broken'] and [default]. *)
Definition getSymbol (state : string) : M string :=
  if String.eqb state "pass" then ret (symbols_ok baseReporter)
  else if String.eqb state "pending" then ret "-"
  else if String.eqb state "fail" then nextErrorSymbol
  else if String.eqb state "broken" then nextErrorSymbol
  else nextErrorSymbol.

(** [getColor (state)]; [None] is [null]. *)
Definition getColor (state : string) : option string :=
  if String.eqb state "pass" || String.eqb state "passing" then Some "green"
  else if String.eqb state "pending" then Some "pending"
  else if String.eqb state "fail" || String.eqb state "failing" then Some "fail"
  else if String.eqb state (fifth_state v) then Some (fifth_state v)
  else if String.eqb state "broken" then Some "broken"
  else None.

(** [getBrowserCombo (caps, verbose = true)] *)
Definition getBrowserCombo (caps : Caps) (verbose : bool) : string :=
  let device := deviceName caps in
  let browser := JS.or (browserName caps) (browser caps) in
  let version := JS.or (JS.or (version caps) (platformVersion caps)) (browser_version caps) in
  let platform :=
    if JS.truthy (os caps)
    then Some (JS.to_string (os caps) +:+ " " +:+ JS.to_string (os_version caps))
    else JS.or (platform caps) (platformName caps) in
  if JS.truthy device then
    let program :=
      JS.or (Some (JS.replace "sauce-storage:" "" (JS.to_string (JS.or (app caps) (Some "")))))
            (browserName caps) in
    let executing :=
      if JS.truthy program then "executing " +:+ JS.to_string program else "" in
    if negb verbose then
      JS.to_string device +:+ " " +:+ JS.to_string platform +:+ " " +:+ JS.to_string version
    else
      JS.trim (JS.to_string device +:+ " on " +:+ JS.to_string platform +:+ " "
               +:+ JS.to_string version +:+ " " +:+ executing)
  else if negb verbose then
    JS.trim (JS.to_string browser +:+ " " +:+ JS.to_string (JS.or version (Some "")) +:+ " "
             +:+ JS.to_string (JS.or platform (Some "")))
  else
    JS.to_string browser
    +:+ (if JS.truthy version then " (v" +:+ JS.to_string version +:+ ")" else "")
    +:+ (if JS.truthy platform then " on " +:+ JS.to_string platform else "").

(** [getPhase ()] *)
Definition getPhase : M string :=
  let! r := get in
  if startedSpecs r then ret "[SPEC] " else ret "[TESTCASE] ".

(** The marker of the synthetic suite: the uid starts with ["before all"],
    quotes included. *)
Definition before_all_marker : string := JS.dquote +:+ "before all" +:+ JS.dquote.

Definition is_before_all (specUid : string) : bool :=
  JS.startsWith before_all_marker specUid.

(** The inner loop of [getResultList]: [for (const testUid in spec.tests)].
    [indentation] is the local [indent] of the method and [output] the text
    built so far. *)
Fixpoint renderTests (cid : string) (ref : SuitesRef) (specUid preface indentation : string)
    (tests : list (string * TestStats)) (output : string) : M string :=
  match tests with
  | [] => ret output
  | (testUid, test) :: rest =>
      let testTitle := ts_title test in
      let! state :=
        (if String.eqb (ts_state test) "" then
           bump_result cid incr_pending ;>
           modify (fun r => set_stats (set_test_state ref specUid testUid "pending" (stats r)) r) ;>
           match v with
           | LibReporter => ret "pending"
           | Part000 =>
               modify (fun r => set_stats (incr_counts_pending (stats r)) r) ;>
               ret "pending"
           end
         else ret (ts_state test)) in
      let! symbol := getSymbol state in
      renderTests cid ref specUid preface indentation rest
        (output +:+ preface +:+ "   " +:+ indentation
         +:+ color baseReporter (getColor state) symbol
         +:+ " " +:+ testTitle +:+ JS.LF)
  end.

(** The outer loop of [getResultList]: [for (const specUid in suites)]. *)
Fixpoint renderSuites (cid : string) (ref : SuitesRef) (preface : string)
    (suites : list (string * SuiteStats)) (output : string) : M string :=
  match suites with
  | [] => ret output
  | (specUid, spec) :: rest =>
      if is_before_all specUid then renderSuites cid ref preface rest output
      else
        let! indentation := indent cid specUid in
        let specTitle := ss_title spec in
        let output :=
          if negb (is_before_all specUid)
          then output +:+ preface +:+ " " +:+ indentation +:+ specTitle +:+ JS.LF
          else output in
        let! output := renderTests cid ref specUid preface indentation (ss_tests spec) output in
        renderSuites cid ref preface rest (output +:+ JS.trim preface +:+ JS.LF)
  end.

(** [getResultList (cid, suites, preface)].  [suites] is an object of the
    host that the method writes to: [ref] is where it lives in [stats] and
    [suites] is its content when the method is called. *)
Definition getResultList (cid : string) (ref : SuitesRef)
    (suites : list (string * SuiteStats)) (preface : string) : M string :=
  renderSuites cid ref preface suites "".

(** The loop of [getSummary]: [for (const state in states)]. *)
Fixpoint summaryLoop (states : list (string * Z)) (duration : Z) (preface : string)
    (output : string) (displayedDuration : bool) : string :=
  match states with
  | [] => output
  | (state, testCount) :: rest =>
      if testCount =? 0 then summaryLoop rest duration preface output displayedDuration
      else
        let testDuration :=
          if negb displayedDuration
          then " (" +:+ shortEnglishHumanizer baseReporter duration +:+ ")"
          else "" in
        let printedState :=
          match v with
          | LibReporter => state
          | Part000 => if String.eqb state "pending" then "skipped" else state
          end in
        summaryLoop rest duration preface
          (output +:+ preface +:+ " "
           +:+ color baseReporter (getColor state) (pretty testCount)
           +:+ " " +:+ color baseReporter (getColor state) printedState
           +:+ testDuration +:+ JS.LF)
          true
  end.

(** [getSummary (states, duration, preface)] *)
Definition getSummary (states : list (string * Z)) (duration : Z) (preface : string) : string :=
  summaryLoop states duration preface "" false.

(** [printErr] of [getFailureList]: the text one error adds.  The write
    [err.message = err.message.trim ()] of [src/unnamed/part_000] goes to an
    object of the host and is not kept here. *)
Definition printErr (test : Failure) (preface : string) (err : option ErrorObj) : completion string :=
  match err with
  | None => Throw JS.TypeError
  | Some err =>
      match v with
      | LibReporter =>
          let errMessageColor :=
            if f_flag test then "unverified"
            else match matcherName err with None => "bright yellow" | Some _ => "error message" end in
          let message :=
            JS.join JS.LF
              (map (fun l => preface +:+ " " +:+ color baseReporter (Some errMessageColor) l)
                   (JS.split_lines (message err))) in
          let text := message +:+ JS.LF in
          match stack err with
          | Some (String c s) =>
              Normal (text +:+
                JS.join JS.LF
                  (map (fun l => preface +:+ " " +:+ color baseReporter (Some "error stack") l)
                       (JS.split_lines (String c s))) +:+ JS.LF)
          | _ => Normal text
          end
      | Part000 =>
          let errMessageColor :=
            if f_flag test then "unvalidated"
            else match matcherName err with
                 | None => if JS.truthy (stack err) then "bright yellow" else "error message"
                 | Some _ => "error message"
                 end in
          let message :=
            JS.join JS.LF
              (map (fun l => color baseReporter (Some errMessageColor) l)
                   (JS.split_lines (JS.trim (message err)))) in
          let text := message +:+ JS.LF in
          match stack err with
          | Some (String c s) =>
              Normal (text +:+
                JS.join JS.LF
                  (map (fun l => color baseReporter (Some "error stack") l)
                       (JS.split_lines (String c s))) +:+ JS.LF +:+ JS.LF)
          | _ => Normal (text +:+ JS.LF)
          end
      end
  end.

(** [test.errs.forEach (printErr)] *)
Fixpoint printErrs (test : Failure) (preface : string) (errs : list ErrorObj)
    (output : string) : completion string :=
  match errs with
  | [] => Normal output
  | err :: rest =>
      match printErr test preface (Some err) with
      | Normal text => printErrs test preface rest (output +:+ text)
      | Throw e => Throw e
      end
  end.

(** The errors of one entry of the failure list:
    [if (test.errs && test.errs.length > 0) ... else printErr (test.err)]. *)
Definition printFailureErrs (test : Failure) (preface : string) : completion string :=
  match f_errs test with
  | Some (err :: errs) => printErrs test preface (err :: errs) ""
  | _ => printErr test preface (f_err test)
  end.

(** The loop of [getFailureList]: [failures.forEach ((test, i) => ...)]. *)
Fixpoint failureLoop (failures : list Failure) (i : Z) (preface : string)
    (output : string) : M string :=
  match failures with
  | [] => ret output
  | test :: rest =>
      let! header :=
        match v with
        | LibReporter =>
            let title :=
              match f_parent test with
              | Some parent => parent +:+ " " +:+ f_title test
              | None => f_title test
              end in
            ret (JS.trim preface +:+ JS.LF
                 +:+ preface +:+ " "
                 +:+ color baseReporter (Some "error title")
                       (pretty (i + 1) +:+ ") " +:+ title +:+ ":")
                 +:+ JS.LF)
        | Part000 =>
            modify (fun r => set_failureCount (failureCount r + 1) r) ;>
            let! r := get in
            match f_printTitle test with
            | None => throw JS.TypeError
            | Some title =>
                ret (JS.LF
                     +:+ color baseReporter (Some "error title")
                           (pretty (failureCount r) +:+ ") " +:+ JS.trim title +:+ ":")
                     +:+ JS.LF +:+ JS.LF)
            end
        end in
      let! errors := lift (printFailureErrs test preface) in
      failureLoop rest (i + 1) preface (output +:+ header +:+ errors)
  end.

(** [getFailureList (failures, preface)] *)
Definition getFailureList (failures : list Failure) (preface : string) : M string :=
  failureLoop failures 0 preface "".

(** [getJobLink (results, preface)] *)
Definition getJobLink (results : RunnerStats) (preface : string) : string :=
  if negb (JS.truthy (config_host results)) then ""
  else if JS.includes "saucelabs.com" (JS.to_string (config_host results)) then
    JS.trim preface +:+ JS.LF
    +:+ preface +:+ " Check out job at https://saucelabs.com/tests/"
    +:+ JS.to_string (sessionID results) +:+ JS.LF
  else "".

(** [`${this.specs[cid]}`]: an array of paths prints as its elements joined
    by commas, a missing entry as [undefined]. *)
Definition specs_to_string (o : option (list string)) : string :=
  match o with
  | Some paths => JS.join "," paths
  | None => "undefined"
  end.

(** The write primitive of each variant: [console.log] in
    [src/lib/reporter.js], [this.baseReporter.log] in
    [src/unnamed/part_000]. *)
Definition log (text : string) : M unit :=
  match v with
  | LibReporter => console_log text
  | Part000 => reporter_log text
  end.

(** [printRunnerInfo (runner)] *)
Definition printRunnerInfo (runner : Runner) : M unit :=
  let cid := runner_cid runner in
  let! r := get in
  match runners (stats r) !! cid with
  | None => throw JS.TypeError
  | Some results =>
      let combo := getBrowserCombo (capabilities results) true in
      let output := JS.LF +:+ separator +:+ JS.LF in
      let! output :=
        (if JS.truthy (sessionID results) then
           let! phase := getPhase in
           ret (output +:+ phase +:+ "Session ID: " +:+ JS.to_string (sessionID results) +:+ JS.LF)
         else ret output) in
      let! output :=
        (if startedSpecs r then
           let! phase := getPhase in
           ret (output +:+ phase +:+ "Spec File: " +:+ specs_to_string (specs r !! cid) +:+ JS.LF)
         else
           let! phase1 := getPhase in
           let! phase2 := getPhase in
           ret (output +:+ phase1 +:+ "Testcase File: " +:+ specs_to_string (specs r !! cid) +:+ JS.LF
                +:+ phase2 +:+ "Running: " +:+ combo)) in
      log output
  end.

(** [printSuiteTitle (suite)] *)
Definition printSuiteTitle (suite : Suite) : M unit :=
  let! phase1 := getPhase in
  let! phase2 := getPhase in
  let! indentation := indent (suite_cid suite) (suite_uid suite) in
  log (phase1 +:+ JS.LF +:+ phase2 +:+ indentation +:+ suite_title suite).

(** [printTestcaseTitle (test, retry)] of [src/unnamed/part_000]; [test] is
    [undefined] when no test is current, [retry] is [undefined] or a count. *)
Definition printTestcaseTitle (test : option Test) (retry : option Z) : M unit :=
  let retryStr :=
    match retry with
    | Some n => if n =? 0 then "" else " (Retry " +:+ pretty n +:+ ")"
    | None => ""
    end in
  match test with
  | None => throw JS.TypeError
  | Some test =>
      let output :=
        "TESTCASE: " +:+ JS.dquote +:+ JS.to_string (test_id test) +:+ JS.dquote
        +:+ "..." +:+ retryStr in
      let output :=
        if decide (consoleLogLevel config = Some "steps") then JS.LF +:+ output else output in
      console_log (color baseReporter (Some "log testcase") output)
  end.

(** [printTest (test)], for a test whose [state] the handler has just set. *)
Definition printTest (title state : string) : M unit :=
  let! phase := getPhase in
  let! r := get in
  match currentSuite r with
  | None => throw JS.TypeError
  | Some suite =>
      let! indentation := indent (suite_cid suite) (suite_uid suite) in
      let! symbol := getSymbol state in
      log (phase +:+ "   " +:+ indentation
           +:+ color baseReporter (getColor state) symbol
           +:+ " " +:+ title)
  end.

(** [printSuitesSummary ()]: the host's epilogue runs. *)
Definition printSuitesSummary : M unit :=
  modify (fun r => set_console (console r ++ [Epilogue]) r).

(** [cleanStack (error)] of [src/unnamed/part_000].  The method writes
    [error.stack] and returns [error]; the result is that object after the
    write. *)
Definition cleanStack (error : option ErrorObj) : completion ErrorObj :=
  match error with
  | None => Throw JS.TypeError
  | Some error =>
      match stack error with
      | None => Throw JS.TypeError
      | Some text =>
          let stack := JS.split_lines text in
          let stack :=
            List.filter
              (fun line => negb (Regex.search STACKTRACE_FILTER line)
                           && JS.startsWith "    at " line)
              stack in
          Normal {| message := message error;
                    stack := Some (JS.join JS.LF stack);
                    matcherName := matcherName error |}
      end
  end.

(** [instantReportError (err, errMessageColor)] of [src/unnamed/part_000] *)
Definition instantReportError (err : option ErrorObj) (errMessageColor : string) : M unit :=
  match err with
  | None => throw JS.TypeError
  | Some err =>
      let message :=
        JS.join JS.LF
          (map (fun l => color baseReporter (Some errMessageColor) l)
               (JS.split_lines (JS.trim (message err)))) in
      let output := JS.LF +:+ message +:+ JS.LF in
      let output :=
        match stack err with
        | Some (String c s) =>
            output +:+
            JS.join JS.LF
              (map (fun l => color baseReporter (Some "error stack") l)
                   (JS.split_lines (String c s))) +:+ JS.LF
        | _ => output
        end in
      reporter_log (output +:+ JS.LF)
  end.

(** [failures.filter ((f) => f.cid === cid || Object.keys (f.runner).indexOf (cid) > -1)] *)
Definition failures_of (cid : string) (failures : list Failure) : list Failure :=
  List.filter
    (fun f => bool_decide (f_cid f = Some cid) || bool_decide (cid ∈ f_runner f))
    failures.

(** [getSuiteResult (runner)] *)
Definition getSuiteResult (runner : Runner) : M string :=
  let cid := runner_cid runner in
  let! r := get in
  let runnerStats := runners (stats r) !! cid in
  let! preface := getPhase in
  let specHash := getSpecHash baseReporter runner in
  match runnerStats with
  | None => throw JS.TypeError
  | Some runnerStats =>
      let spec := rs_specs runnerStats !! specHash in
      let combo := getBrowserCombo (capabilities runnerStats) true in
      let failures := failures_of cid (getFailures (stats r)) in
      match spec with
      | None => throw JS.TypeError
      | Some spec =>
          match spec_suites spec with
          | [] => ret ""
          | _ :: _ =>
              let output := separator +:+ JS.LF in
              let output :=
                if JS.truthy (sessionID runnerStats)
                then output +:+ preface +:+ " Session ID: "
                     +:+ JS.to_string (sessionID runnerStats) +:+ JS.LF
                else output in
              let sp := match v with LibReporter => "" | Part000 => " " end in
              let! output :=
                (if startedSpecs r then
                   let! phase := getPhase in
                   ret (output +:+ phase +:+ sp +:+ "Spec File: "
                        +:+ specs_to_string (specs r !! cid) +:+ JS.LF)
                 else
                   let! phase1 := getPhase in
                   let! phase2 := getPhase in
                   ret (output +:+ phase1 +:+ sp +:+ "Testcase File: "
                        +:+ specs_to_string (specs r !! cid) +:+ JS.LF
                        +:+ phase2 +:+ sp +:+ "Running: " +:+ combo
                        +:+ match v with LibReporter => "" | Part000 => JS.LF end)) in
              let output := output +:+ preface +:+ JS.LF in
              let! resultList :=
                getResultList cid {| ref_cid := cid; ref_hash := specHash |}
                  (spec_suites spec) preface in
              let output := output +:+ resultList +:+ preface +:+ JS.LF in
              let! r' := get in
              let states :=
                match results r' !! cid with
                | Some tally => tally_entries v tally
                | None => []
                end in
              let output := output +:+ getSummary states (spec_duration spec) preface in
              let output :=
                match v with
                | LibReporter => output
                | Part000 => output +:+ separator +:+ JS.LF
                end in
              let! failureList := getFailureList failures preface in
              let output := output +:+ failureList in
              let output := output +:+ getJobLink runnerStats preface in
              match v with
              | LibReporter => ret (output +:+ preface +:+ JS.LF)
              | Part000 => ret output
              end
          end
      end
  end.

(** [printSuiteResult (runner)] *)
Definition printSuiteResult (runner : Runner) : M unit :=
  if negb (instantReport config) then
    let! text := getSuiteResult runner in
    log text
  else ret tt.

(** ** The event handlers registered by the constructor *)

(** [config.consoleLogLevel === 'testcases' || config.consoleLogLevel === 'steps'] *)
Definition logTestcases : bool :=
  bool_decide (consoleLogLevel config = Some "testcases")
  || bool_decide (consoleLogLevel config = Some "steps").

Definition logSteps : bool := bool_decide (consoleLogLevel config = Some "steps").

(** [this.stepIndents[cid] = 0] *)
Definition reset_stepIndents (cid : string) : M unit :=
  modify (fun r => set_stepIndents (<[cid := JNum 0]> (stepIndents r)) r).

(** ['startSpecs'] *)
Definition onStartSpecs (runner : Runner) : M unit :=
  let! r := get in
  if negb (startedSpecs r) then
    match v with LibReporter => printSuitesSummary | Part000 => ret tt end ;>
    modify (fun r => set_results (<[runner_cid runner := zero_tally]> (results r)) r) ;>
    match v with LibReporter => ret tt | Part000 => modify (set_failureCount 0) end ;>
    modify (set_errorCount 0) ;>
    modify (set_startedSpecs true)
  else ret tt.

(** ['runner:start'] *)
Definition onRunnerStart (runner : Runner) : M unit :=
  let cid := runner_cid runner in
  modify (fun r => set_suiteIndents (<[cid := ∅]> (suiteIndents r)) r) ;>
  modify (fun r => set_indents (<[cid := JNum 0]> (indents r)) r) ;>
  modify (fun r => set_specs (<[cid := runner_specs runner]> (specs r)) r) ;>
  modify (fun r => set_results (<[cid := zero_tally]> (results r)) r) ;>
  let! r := get in
  if startedSpecs r then
    if instantReport config then printRunnerInfo runner else ret tt
  else ret tt.

(** ['runner:init'] *)
Definition onRunnerInit (runner : Runner) : M unit :=
  if instantReport config then printRunnerInfo runner else ret tt.

(** ['suite:start'].  In
    [this.suiteIndents[suite.cid][suite.uid] = ++this.indents[suite.cid]]
    the increment runs first and the store, which throws when the session has
    no depth map, second: the order of Node. *)
Definition onSuiteStart (suite : Suite) : M unit :=
  let cid := suite_cid suite in
  let! r := get in
  let depth := JS.num_add (JS.to_number (indents r !! cid)) 1 in
  modify (fun r => set_indents (<[cid := depth]> (indents r)) r) ;>
  match suiteIndents r !! cid with
  | None => throw JS.TypeError
  | Some depths =>
      modify (fun r => set_suiteIndents (<[cid := <[suite_uid suite := depth]> depths]> (suiteIndents r)) r)
  end ;>
  if instantReport config then
    modify (set_currentSuite (Some suite)) ;>
    printSuiteTitle suite
  else ret tt.

(** ['test:setCurrentId'] of [src/unnamed/part_000] *)
Definition onTestSetCurrentId (test : Test) : M unit :=
  modify (set_retryCount 0) ;>
  modify (set_currentTest (Some test)) ;>
  let! r := get in
  if logTestcases && negb (startedSpecs r) then
    printTestcaseTitle (Some test) None ;>
    if logSteps then reset_stepIndents (test_cid test) else ret tt
  else ret tt.

(** The common body of ['test:pending'], ['test:pass'], ['test:fail'],
    ['test:broken'] and ['test:unverified'] (['test:unvalidated']): one
    bucket of the session's tally goes up, and in instant mode the test is
    printed under the state the handler gives it. *)
Definition onTestState (bucket : Tally -> Tally) (state : string) (test : Test) : M unit :=
  bump_result (test_cid test) bucket ;>
  modify (set_currentTest None) ;>
  if instantReport config then printTest (test_title test) state else ret tt.

(** ['test:broken']; the second [if] is in [src/unnamed/part_000] only. *)
Definition onTestBroken (test : Test) : M unit :=
  onTestState incr_broken "broken" test ;>
  match v with
  | LibReporter => ret tt
  | Part000 =>
      if reportErrorsInstantly config && negb (test_finishedTests test) then
        match test_errs test with
        | None => throw JS.TypeError
        | Some errs => instantReportError (last errs) "bright yellow"
        end
      else ret tt
  end.

(** ['validate:failure'] of [src/unnamed/part_000] *)
Definition onValidateFailure (assertion : option ErrorObj) : M unit :=
  if reportErrorsInstantly config then
    let! assertion :=
      (if cleanStackTraces config
       then let! cleaned := lift (cleanStack assertion) in ret (Some cleaned)
       else ret assertion) in
    instantReportError assertion "error message"
  else ret tt.

(** ['suite:end']; the [console.log ()] is in [src/unnamed/part_000] only. *)
Definition onSuiteEnd (suite : Suite) : M unit :=
  let cid := suite_cid suite in
  modify (fun r => set_indents (<[cid := JS.num_add (JS.to_number (indents r !! cid)) (-1)]> (indents r)) r) ;>
  match v with
  | LibReporter => ret tt
  | Part000 =>
      let! r := get in
      if logTestcases && negb (startedSpecs r) then console_log "" else ret tt
  end.

(** ['runner:end'] *)
Definition onRunnerEnd (runner : Runner) : M unit := printSuiteResult runner.

(** ['end'] *)
Definition onEnd : M unit :=
  let! r := get in
  if startedSpecs r then
    printSuitesSummary ;>
    match v with
    | LibReporter => ret tt
    | Part000 => modify (fun r => set_console (console r ++ [WriteCompleteOutput]) r)
    end
  else ret tt.

(** [a.map (f)] for an [f] that calls methods. *)
Fixpoint mapM {A B} (f : A -> M B) (a : list A) : M (list B) :=
  match a with
  | [] => ret []
  | x :: a' =>
      let! y := f x in
      let! ys := mapM f a' in
      ret (y :: ys)
  end.

(** ['step:start'] of [src/unnamed/part_000].  [ArgMalformed] is a
    [step.arg] on which [JSON.parse] or [Object.keys] throws. *)
Definition onStepStart (step : Step) : M unit :=
  let cid := step_cid step in
  let! r := get in
  if JS.truthy (step_title step) && negb (startedSpecs r) && logSteps then
    modify (fun r => set_stepIndents
                       (<[cid := JS.num_add (JS.to_number (stepIndents r !! cid)) 1]> (stepIndents r)) r) ;>
    if logStep step then
      let! indentation := stepIndent cid 0 in
      console_log (indentation +:+ "STEP: " +:+ JS.dquote
                   +:+ JS.to_string (step_description step) +:+ JS.dquote) ;>
      match step_arg step with
      | ArgMalformed => throw JS.SyntaxError
      | ArgNoKeys => ret tt
      | ArgInspected argStr =>
          let! argLines :=
            mapM (fun line => let! indentation := stepIndent cid 0 in ret (indentation +:+ line))
                 (JS.split_lines argStr) in
          forEach argLines (fun line => console_log (color baseReporter (Some "error stack") line))
      end
    else ret tt
  else ret tt.

(** The tail that ['retry:failed'] and ['retry:broken'] share. *)
Definition reprintTestcase (step : Step) : M unit :=
  let! r := get in
  if logTestcases && negb (startedSpecs r) then
    reset_stepIndents (step_cid step) ;>
    printTestcaseTitle (currentTest r) (Some (retryCount r))
  else ret tt.

(** ['retry:failed'] of [src/unnamed/part_000] *)
Definition onRetryFailed (step : Step) : M unit :=
  modify (fun r => set_retryCount (retryCount r + 1) r) ;>
  reprintTestcase step.

(** ['retry:broken'] of [src/unnamed/part_000] *)
Definition onRetryBroken (step : Step) : M unit :=
  modify (fun r => set_retryCount (retryCount r + 1) r) ;>
  (if reportErrorsInstantly config
   then instantReportError (step_assertion step) "bright yellow"
   else ret tt) ;>
  reprintTestcase step.

(** ['retry:validateFailure'] of [src/unnamed/part_000] *)
Definition onRetryValidateFailure (assertion : option ErrorObj) : M unit :=
  if reportErrorsInstantly config
  then instantReportError assertion "error message"
  else ret tt.

(** ['step:end'] of [src/unnamed/part_000] *)
Definition onStepEnd (step : Step) : M unit :=
  let cid := step_cid step in
  let! r := get in
  if negb (startedSpecs r) && logSteps then
    modify (fun r => set_stepIndents
                       (<[cid := JS.num_add (JS.to_number (stepIndents r !! cid)) (-1)]> (stepIndents r)) r)
  else ret tt.

(** [this.emit (event, payload)]: the listener of the event runs, if the
    class registers one. *)
Definition emit (e : event) : M unit :=
  match e, v with
  | StartSpecs runner, _ => onStartSpecs runner
  | RunnerStart runner, _ => onRunnerStart runner
  | RunnerInit runner, _ => onRunnerInit runner
  | SuiteStart suite, _ => onSuiteStart suite
  | TestPending test, _ => onTestState incr_pending "pending" test
  | TestPass test, _ => onTestState incr_passing "pass" test
  | TestFail test, _ => onTestState incr_failing "fail" test
  | TestBroken test, _ => onTestBroken test
  | TestUnverified test, LibReporter => onTestState incr_unverified "unverified" test
  | TestUnvalidated test, Part000 => onTestState incr_unverified "unvalidated" test
  | SuiteEnd suite, _ => onSuiteEnd suite
  | RunnerEnd runner, _ => onRunnerEnd runner
  | End, _ => onEnd
  | TestSetCurrentId test, Part000 => onTestSetCurrentId test
  | ValidateFailure assertion, Part000 => onValidateFailure assertion
  | StepStart step, Part000 => onStepStart step
  | RetryFailed step, Part000 => onRetryFailed step
  | RetryBroken step, Part000 => onRetryBroken step
  | RetryValidateFailure assertion, Part000 => onRetryValidateFailure assertion
  | StepEnd step, Part000 => onStepEnd step
  | _, _ => ret tt
  end.

(** What happens to a reporter during a run: the host emits an event on it,
    or the host updates its own statistics, [this.baseReporter.stats]. *)
Inductive action :=
  | Emit (e : event)
  | HostStats (s : Stats).

(** One action.  A listener that throws leaves the reporter as it was at the
    throw. *)
Definition step (a : action) (r : reporter) : reporter :=
  match a with
  | Emit e => exec (emit e) r
  | HostStats s => set_stats s r
  end.

(** A run of the reporter.  When the host stops at a throw, the reporter is
    left in the state after a prefix of the actions, which is again a run. *)
Fixpoint run (actions : list action) (r : reporter) : reporter :=
  match actions with
  | [] => r
  | a :: rest => run rest (step a r)
  end.

End Reporter.

(** The reporter the constructor builds, for a host with statistics [s]. *)
Definition init (s : Stats) : reporter :=
  {| errorCount := 0; failureCount := 0; indents := ∅; stepIndents := ∅;
     suiteIndents := ∅; specs := ∅; results := ∅; startedSpecs := false;
     retryCount := 0; currentTest := None; currentSuite := None; stats := s;
     console := [] |}.

(** ** A sample host and sample payloads, for examples *)

Module Sample.

(** A theme without colours, a host with one spec, durations in seconds. *)
Definition theme : BaseReporter :=
  {| symbols_ok := "ok";
     color := fun _ text => text;
     getSpecHash := fun _ => "spec1";
     shortEnglishHumanizer := fun d => pretty (d / 1000) +:+ "s" |}.

Definition buffered : Config :=
  {| instantReport := false; reportErrorsInstantly := false;
     cleanStackTraces := false; consoleLogLevel := None |}.

Definition instant : Config :=
  {| instantReport := true; reportErrorsInstantly := false;
     cleanStackTraces := false; consoleLogLevel := None |}.

Definition chrome : Caps :=
  {| deviceName := None; browserName := Some "chrome"; browser := None;
     version := None; platformVersion := None; browser_version := None;
     os := None; os_version := None; platform := None; platformName := None;
     app := None |}.

Definition runner : Runner := {| runner_cid := "0-0"; runner_specs := ["login.spec.js"] |}.

Definition login : Suite :=
  {| suite_cid := "0-0"; suite_uid := "Login1"; suite_title := "Login" |}.

Definition works : Test :=
  {| test_cid := "0-0"; test_title := "works"; test_id := None;
     test_errs := None; test_finishedTests := false |}.

(** The uid of a synthetic suite. *)
Definition hook_uid : string := before_all_marker +:+ " hook2".

(** Statistics of session ["0-0"] whose spec has the suites [suites]. *)
Definition stats_with (suites : list (string * SuiteStats)) : Stats :=
  {| runners :=
       {[ "0-0" := {| capabilities := chrome; sessionID := None;
                      rs_specs := {[ "spec1" := {| spec_suites := suites;
                                                   spec_duration := 1200 |} ]};
                      config_host := None |} ]};
     getFailures := [];
     counts_pending := 0 |}.

(** A displayed suite with one test that has no outcome yet. *)
Definition login_suites : list (string * SuiteStats) :=
  [("Login1", {| ss_title := "Login";
                 ss_tests := [("later3", {| ts_title := "later"; ts_state := "" |})] |})].

(** A synthetic suite with one test that has no outcome yet. *)
Definition hook_suites : list (string * SuiteStats) :=
  [(hook_uid, {| ss_title := "hook";
                 ss_tests := [("setup4", {| ts_title := "setup"; ts_state := "" |})] |})].

(** A suite nested in [login]. *)
Definition form : Suite :=
  {| suite_cid := "0-0"; suite_uid := "Form5"; suite_title := "Form" |}.

(** A stack with an error line, a frame of a test framework and a frame of
    the spec. *)
Definition tooling_frame : string :=
  "    at callFn (/app/node_modules/mocha/lib/runnable.js:372:21)".

Definition spec_frame : string := "    at login (/app/specs/login.spec.js:12:9)".

Definition boom : ErrorObj :=
  {| message := "boom";
     stack := Some (tooling_frame +:+ JS.LF +:+ spec_frame);
     matcherName := None |}.

End Sample.

(** * Vocabulary of the properties *)

(** ** Frames: what a method leaves alone *)

(** [preserves R m]: whatever [m] does to the reporter, and whether it
    returns or throws, the reporter after is [R]-related to the one before. *)
Definition preserves {A} (R : relation reporter) (m : M A) : Prop :=
  forall r, R r (snd (m r)).

(** [R] does not look at the fields that hold no per-session depth, tally
    or phase. *)
Record Ignores (R : relation reporter) : Prop := {
  ig_errorCount : forall x r, R r (set_errorCount x r);
  ig_failureCount : forall x r, R r (set_failureCount x r);
  ig_stepIndents : forall x r, R r (set_stepIndents x r);
  ig_specs : forall x r, R r (set_specs x r);
  ig_retryCount : forall x r, R r (set_retryCount x r);
  ig_currentTest : forall x r, R r (set_currentTest x r);
  ig_currentSuite : forall x r, R r (set_currentSuite x r);
  ig_stats : forall x r, R r (set_stats x r);
  ig_console : forall x r, R r (set_console x r);
}.

(** [R] tolerates a write to the tally, or to the depth data, of session
    [c]. *)
Definition tol_results (R : relation reporter) (c : string) : Prop :=
  forall t r, R r (set_results (<[c := t]> (results r)) r).

(** The same for the depth counter and the depth map of session [c], and
    for the phase flag. *)
Definition tol_depth (R : relation reporter) (c : string) : Prop :=
  (forall n r, R r (set_indents (<[c := n]> (indents r)) r)) /\
  (forall m r, R r (set_suiteIndents (<[c := m]> (suiteIndents r)) r)).

Definition tol_phase (R : relation reporter) : Prop :=
  forall x r, R r (set_startedSpecs x r).

(** The session whose tally, and whose depth data, the listener of an event
    may write, and whether it may write the phase flag. *)
Definition writes_results (e : event) : option string :=
  match e with
  | StartSpecs runner | RunnerStart runner | RunnerEnd runner => Some (runner_cid runner)
  | TestPending test | TestPass test | TestFail test | TestBroken test
  | TestUnverified test | TestUnvalidated test => Some (test_cid test)
  | _ => None
  end.

Definition writes_depth (e : event) : option string :=
  match e with
  | RunnerStart runner => Some (runner_cid runner)
  | SuiteStart suite | SuiteEnd suite => Some (suite_cid suite)
  | _ => None
  end.

Definition writes_phase (e : event) : bool :=
  match e with StartSpecs _ => true | _ => false end.

(** A relation that only compares one view of the reporter. *)
Definition same {X} (f : reporter -> X) : relation reporter :=
  fun r r' => f r' = f r.

(** ** The phase flag *)

Definition is_startSpecs (a : action) : bool :=
  match a with Emit (StartSpecs _) => true | _ => false end.

(** A [startSpecs] event is among the actions. *)
Definition emits_startSpecs (actions : list action) : bool := existsb is_startSpecs actions.

(** ** Suite nesting *)

(** The number of suites of session [cid] that are open after [actions],
    when [open] were open before; [None] when a [suite:end] of the session
    comes with no suite open, or when the session is started anew. *)
Fixpoint nesting (cid : string) (open : nat) (actions : list action) : option nat :=
  match actions with
  | [] => Some open
  | Emit (SuiteStart suite) :: rest =>
      if bool_decide (suite_cid suite = cid) then nesting cid (S open) rest
      else nesting cid open rest
  | Emit (SuiteEnd suite) :: rest =>
      if bool_decide (suite_cid suite = cid) then
        match open with
        | O => None
        | S open' => nesting cid open' rest
        end
      else nesting cid open rest
  | Emit (RunnerStart runner) :: rest =>
      if bool_decide (runner_cid runner = cid) then None
      else nesting cid open rest
  | _ :: rest => nesting cid open rest
  end.

(** The [suite:start] and [suite:end] events of session [cid] among
    [actions] are balanced: every start is matched by a later end, every end
    closes an open suite.  Actions of other sessions, and other events of
    this one, may come in between. *)
Definition balanced (cid : string) (actions : list action) : Prop :=
  nesting cid 0 actions = Some 0%nat.

(** The depth counter and the depth map of session [cid] are the same. *)
Definition same_depth (cid : string) : relation reporter :=
  same (fun r => (indents r !! cid, suiteIndents r !! cid)).

(** The writes of ['suite:start'], before anything is printed. *)
Definition suiteStart_writes (suite : Suite) (r : reporter) : reporter :=
  let cid := suite_cid suite in
  let depth := JS.num_add (JS.to_number (indents r !! cid)) 1 in
  let r1 := set_indents (<[cid := depth]> (indents r)) r in
  match suiteIndents r !! cid with
  | None => r1
  | Some depths =>
      set_suiteIndents (<[cid := <[suite_uid suite := depth]> depths]> (suiteIndents r1)) r1
  end.

(** ** Indentation and symbols *)

(** A string of [n] spaces. *)
Fixpoint spaces (n : nat) : string :=
  match n with
  | O => ""
  | S n' => String " " (spaces n')
  end.

(** A state whose symbol is a number: any state but ['pass'] and
    ['pending']. *)
Definition numbered (state : string) : bool :=
  negb (String.eqb state "pass" || String.eqb state "pending").

(** The symbols of a sequence of calls, by the words of the specification:
    the ok glyph for ['pass'], ["-"] for ['pending'], and for any other state
    the next number after [n], followed by [")"]. *)
Fixpoint expected_symbols (baseReporter : BaseReporter) (n : Z) (states : list string) : list string :=
  match states with
  | [] => []
  | state :: rest =>
      if String.eqb state "pass" then symbols_ok baseReporter :: expected_symbols baseReporter n rest
      else if String.eqb state "pending" then "-" :: expected_symbols baseReporter n rest
      else (pretty (n + 1) +:+ ")") :: expected_symbols baseReporter (n + 1) rest
  end.

(** The calls among [states] that take a number. *)
Definition count_numbered (states : list string) : Z :=
  Z.of_nat (length (List.filter numbered states)).

(** ** The summary block *)

(** The lines of a block, one after the other. *)
Definition text_of (lines : list string) : string := fold_right String.append "" lines.

(** A state with a count that is not zero. *)
Definition nonzero (entry : string * Z) : bool := negb (snd entry =? 0).

(** The suffix that carries the humanized duration. *)
Definition duration_suffix (baseReporter : BaseReporter) (duration : Z) : string :=
  " (" +:+ shortEnglishHumanizer baseReporter duration +:+ ")".

(** The label a state is displayed under. *)
Definition printed_label (v : variant) (state : string) : string :=
  match v with
  | LibReporter => state
  | Part000 => if String.eqb state "pending" then "skipped" else state
  end.

(** The line of one state, with what follows the label. *)
Definition summary_line (v : variant) (baseReporter : BaseReporter) (preface suffix : string)
    (entry : string * Z) : string :=
  preface +:+ " "
  +:+ color baseReporter (getColor v (fst entry)) (pretty (snd entry))
  +:+ " " +:+ color baseReporter (getColor v (fst entry)) (printed_label v (fst entry))
  +:+ suffix +:+ JS.LF.

(** The lines of the states [entries], all of them displayed; the first
    carries the duration unless it was [displayed] before. *)
Definition lines_after (v : variant) (baseReporter : BaseReporter) (duration : Z)
    (preface : string) (displayed : bool) (entries : list (string * Z)) : list string :=
  match entries with
  | [] => []
  | first :: others =>
      summary_line v baseReporter preface
        (if displayed then "" else duration_suffix baseReporter duration) first
      :: map (summary_line v baseReporter preface "") others
  end.

(** The summary block by the words of the specification: one line per state
    with a non-zero count, the duration on the first of these lines only. *)
Definition summary_lines (v : variant) (baseReporter : BaseReporter)
    (states : list (string * Z)) (duration : Z) (preface : string) : list string :=
  lines_after v baseReporter duration preface false (List.filter nonzero states).

(** ** The tally *)

(** A terminal test-state event of session [cid] that the class listens
    to. *)
Definition terminal (v : variant) (cid : string) (a : action) : bool :=
  match a with
  | Emit (TestPending test) | Emit (TestPass test) | Emit (TestFail test)
  | Emit (TestBroken test) => bool_decide (test_cid test = cid)
  | Emit (TestUnverified test) =>
      match v with LibReporter => bool_decide (test_cid test = cid) | Part000 => false end
  | Emit (TestUnvalidated test) =>
      match v with LibReporter => false | Part000 => bool_decide (test_cid test = cid) end
  | _ => false
  end.

(** The terminal test-state events of session [cid] among [actions]. *)
Definition count_terminal (v : variant) (cid : string) (actions : list action) : Z :=
  Z.of_nat (length (List.filter (terminal v cid) actions)).

(** The ['runner:start'] of session [cid]. *)
Definition is_runnerStart (cid : string) (a : action) : bool :=
  match a with
  | Emit (RunnerStart runner) => bool_decide (runner_cid runner = cid)
  | _ => false
  end.

(** The number of terminal test-state events of session [cid] since its last
    ['runner:start'], [count] being the number before [actions]. *)
Fixpoint terminal_since_start (v : variant) (cid : string) (count : Z)
    (actions : list action) : Z :=
  match actions with
  | [] => count
  | a :: rest =>
      if is_runnerStart cid a then terminal_since_start v cid 0 rest
      else terminal_since_start v cid (count + (if terminal v cid a then 1 else 0)) rest
  end.

(** An event that sets the tally of session [cid] anew (['runner:start'],
    ['startSpecs']) or, in buffered mode, makes the reporter render the
    session (['runner:end']). *)
Definition resets_tally (config : Config) (cid : string) (a : action) : bool :=
  match a with
  | Emit (RunnerStart runner) | Emit (StartSpecs runner) =>
      bool_decide (runner_cid runner = cid)
  | Emit (RunnerEnd runner) =>
      negb (instantReport config) && bool_decide (runner_cid runner = cid)
  | _ => false
  end.

(** The bucket that goes with a terminal test-state event. *)
Definition bucket_of (e : event) : Tally -> Tally :=
  match e with
  | TestPending _ => incr_pending
  | TestPass _ => incr_passing
  | TestFail _ => incr_failing
  | TestBroken _ => incr_broken
  | TestUnverified _ | TestUnvalidated _ => incr_unverified
  | _ => fun t => t
  end.

(** Exactly one bucket of [t'] is one above that of [t], the others are
    equal. *)
Definition one_bucket_up (t t' : Tally) : Prop :=
  t' = incr_passing t \/ t' = incr_pending t \/ t' = incr_failing t \/
  t' = incr_broken t \/ t' = incr_unverified t.

(** The tally of session [cid] is the same. *)
Definition same_tally (cid : string) : relation reporter :=
  same (fun r => results r !! cid).

(** ** The result list *)

(** A suite that is not a synthetic "before all" suite. *)
Definition displayed (suite : string * SuiteStats) : bool := negb (is_before_all (fst suite)).

(** A test without outcome: its state is the empty string. *)
Definition unset (test : string * TestStats) : bool := String.eqb (ts_state (snd test)) "".

(** The tests without outcome in [tests], and in the displayed suites among
    [suites]. *)
Definition count_unset (tests : list (string * TestStats)) : Z :=
  Z.of_nat (length (List.filter unset tests)).

Fixpoint displayed_unset (suites : list (string * SuiteStats)) : Z :=
  match suites with
  | [] => 0
  | suite :: rest =>
      (if displayed suite then count_unset (ss_tests (snd suite)) else 0)
      + displayed_unset rest
  end.

(** The tally [t] with [n] more pending tests. *)
Definition add_pending (n : Z) (t : Tally) : Tally :=
  {| passing := passing t; pending := pending t + n; failing := failing t;
     broken := broken t; unverified := unverified t |}.

(** ** The stack filter *)

(** [p] is at the start of [s]: what follows it. *)
Fixpoint strip (p s : string) : option string :=
  match p with
  | EmptyString => Some s
  | String a p' =>
      match s with
      | EmptyString => None
      | String c s' => if Ascii.eqb c a then strip p' s' else None
      end
  end.

(** A line on which [STACKTRACE_FILTER] matches, by its description: the
    line has [node_modules] followed by a slash or a backslash, or
    [wdio-sync/build], or the separator [- - - - -]. *)
Definition internal_tooling (line : string) : bool :=
  JS.includes "node_modules/" line
  || JS.includes ("node_modules" +:+ JS.backslash) line
  || JS.includes "wdio-sync/build" line
  || JS.includes "- - - - -" line.

(** A line that looks like a call frame. *)
Definition call_frame (line : string) : bool := JS.startsWith "    at " line.

(** A line that [cleanStack] is to keep. *)
Definition kept (line : string) : bool := call_frame line && negb (internal_tooling line).

(** A string without a line feed. *)
Fixpoint single_line (s : string) : bool :=
  match s with
  | EmptyString => true
  | String c s' => negb (Ascii.eqb c (ascii_of_nat 10)) && single_line s'
  end.

(** ** Footprints: the fields a method may write *)

(** [R] holds across any write through the setter [set]. *)
Definition allows {Y} (R : relation reporter) (set : Y -> reporter -> reporter) : Prop :=
  forall y r, R r (set y r).

(** [R] holds across [this.errorCount++] and across [++this.failureCount]. *)
Definition allows_next_errorCount (R : relation reporter) : Prop :=
  forall r, R r (set_errorCount (errorCount r + 1) r).

Definition allows_next_failureCount (R : relation reporter) : Prop :=
  forall r, R r (set_failureCount (failureCount r + 1) r).

(** [R] holds when one entry is added to the output. *)
Definition allows_output (R : relation reporter) : Prop :=
  forall x r, R r (set_console (console r ++ [x]) r).

(** [R] holds across a write to the spec files, or to the step depth, of
    session [c]. *)
Definition tol_specs (R : relation reporter) (c : string) : Prop :=
  forall x r, R r (set_specs (<[c := x]> (specs r)) r).

Definition tol_stepIndents (R : relation reporter) (c : string) : Prop :=
  forall x r, R r (set_stepIndents (<[c := x]> (stepIndents r)) r).

(** The session an event names, if it names one. *)
Definition event_cid (e : event) : option string :=
  match e with
  | StartSpecs runner | RunnerStart runner | RunnerInit runner | RunnerEnd runner =>
      Some (runner_cid runner)
  | SuiteStart suite | SuiteEnd suite => Some (suite_cid suite)
  | TestSetCurrentId test | TestPending test | TestPass test | TestFail test
  | TestBroken test | TestUnverified test | TestUnvalidated test => Some (test_cid test)
  | StepStart step | StepEnd step | RetryFailed step | RetryBroken step => Some (step_cid step)
  | ValidateFailure _ | RetryValidateFailure _ | End => None
  end.

(** What the reporter keeps for session [cid]. *)
Definition session_view (cid : string) (r : reporter) :=
  (results r !! cid, indents r !! cid, suiteIndents r !! cid, specs r !! cid,
   stepIndents r !! cid).

(** ** Output and host statistics *)

(** The listener of the event writes to the output even in buffered mode:
    ['runner:end'] prints the session, ['end'] and, in
    [src/lib/reporter.js], the first ['startSpecs'] run the epilogue. *)
Definition speaks (v : variant) (e : event) : bool :=
  match e with
  | RunnerEnd _ | End => true
  | StartSpecs _ => match v with LibReporter => true | Part000 => false end
  | _ => false
  end.

(** Buffered mode with the instant extras of [src/unnamed/part_000] off:
    no instant results, no instant errors, no testcase or step titles. *)
Definition buffered_quiet (v : variant) (config : Config) : bool :=
  negb (instantReport config)
  && match v with
     | LibReporter => true
     | Part000 => negb (reportErrorsInstantly config) && negb (logTestcases config)
     end.

Definition is_runnerEnd (e : event) : bool :=
  match e with RunnerEnd _ => true | _ => false end.

(** ** Sessions that were never started *)

(** An event that gives session [cid] a tally: its ['runner:start'], or a
    ['startSpecs'] that names it. *)
Definition starts_session (cid : string) (a : action) : bool :=
  match a with
  | Emit (RunnerStart runner) | Emit (StartSpecs runner) =>
      bool_decide (runner_cid runner = cid)
  | _ => false
  end.

(** The session has no tally before, hence none after. *)
Definition still_no_tally (cid : string) : relation reporter :=
  fun r r' => results r !! cid = None -> results r' !! cid = None.

(** ** The failure counters *)

(** Neither [errorCount] nor [failureCount] has gone down. *)
Definition counters_grow : relation reporter :=
  fun r r' => errorCount r <= errorCount r' /\ failureCount r <= failureCount r'.

(** ** Retries and steps of [src/unnamed/part_000] *)

(** The retry counter after [actions], by its description: the number of
    ['retry:failed'] and ['retry:broken'] events since the last
    ['test:setCurrentId']; [src/lib/reporter.js] listens to none of these. *)
Fixpoint retries_after (v : variant) (count : Z) (actions : list action) : Z :=
  match actions with
  | [] => count
  | Emit (TestSetCurrentId _) :: rest =>
      retries_after v (match v with LibReporter => count | Part000 => 0 end) rest
  | Emit (RetryFailed _) :: rest | Emit (RetryBroken _) :: rest =>
      retries_after v (match v with LibReporter => count | Part000 => count + 1 end) rest
  | _ :: rest => retries_after v count rest
  end.

(** ** The failure list *)




(** The entry that the write primitive of the class adds to the output. *)
Definition log_entry (v : variant) (text : string) : output :=
  match v with
  | LibReporter => ConsoleLog text
  | Part000 => ReporterLog text
  end.

(** ** Failure numbers used by the result list *)

(** The state a test is rendered under: ['pending'] when it has none. *)
Definition rendered_state (test : string * TestStats) : string :=
  if String.eqb (ts_state (snd test)) "" then "pending" else ts_state (snd test).

(** The tests of the displayed suites whose symbol is a number. *)
Fixpoint numbered_tests (suites : list (string * SuiteStats)) : Z :=
  match suites with
  | [] => 0
  | suite :: rest =>
      (if displayed suite
       then count_numbered (map rendered_state (ss_tests (snd suite)))
       else 0)
      + numbered_tests rest
  end.

(** ** The output *)

(** The output of [r'] is that of [r] with more entries after it. *)
Definition output_extends : relation reporter :=
  fun r r' => exists added, console r' = (console r ++ added)%list.

(** ** Instant mode *)


(** The prefix of the phase. *)
Definition phase_of (r : reporter) : string :=
  if startedSpecs r then "[SPEC] " else "[TESTCASE] ".

(** ** Further sample payloads *)

Module Scenario.

(** The log level ['steps'], everything else off. *)
Definition steps : Config :=
  {| instantReport := false; reportErrorsInstantly := false;
     cleanStackTraces := false; consoleLogLevel := Some "steps" |}.

(** A second session. *)
Definition other : Runner := {| runner_cid := "0-1"; runner_specs := ["form.spec.js"] |}.

(** A step with a title and an argument that prints on two lines. *)
Definition click : Step :=
  {| step_cid := "0-0"; step_title := Some "click";
     step_description := Some "click the button";
     step_arg := ArgInspected ("{ selector: '#ok'," +:+ JS.LF +:+ "  timeout: 5 }");
     step_assertion := None |}.


(** A suite with a passed test, a failed test and a test without outcome. *)
Definition mixed_suites : list (string * SuiteStats) :=
  [("Login1", {| ss_title := "Login";
                 ss_tests := [("works2", {| ts_title := "works"; ts_state := "pass" |});
                              ("fails3", {| ts_title := "fails"; ts_state := "fail" |});
                              ("later4", {| ts_title := "later"; ts_state := "" |})] |})].

End Scenario.

(** ** Rendering a session again *)

(** What [test.state = 'pending'] does to the [suites] object of the host,
    for the test [testUid] of the suite [specUid]. *)
Definition mark (specUid testUid : string) (suites : list (string * SuiteStats)) :
    list (string * SuiteStats) :=
  alist_alter
    (fun ss => {| ss_title := ss_title ss;
                  ss_tests := alist_alter
                                (fun t => {| ts_title := ts_title t; ts_state := "pending" |})
                                testUid (ss_tests ss) |})
    specUid suites.

(** The tests that a rendering of [suites] finds without outcome, in the
    order it meets them: those of the displayed suites. *)
Definition marks (suites : list (string * SuiteStats)) : list (string * string) :=
  flat_map
    (fun suite =>
       if displayed suite
       then map (fun test => (fst suite, fst test)) (List.filter unset (ss_tests (snd suite)))
       else [])
    suites.

Definition apply_marks (ms : list (string * string)) (suites : list (string * SuiteStats)) :
    list (string * SuiteStats) :=
  fold_left (fun suites m => mark (fst m) (snd m) suites) ms suites.

(** Some suite [specUid] of [suites] has a test [testUid] without outcome. *)
Definition unset_at (suites : list (string * SuiteStats)) (specUid testUid : string) : Prop :=
  exists suite test,
    In suite suites /\ fst suite = specUid /\
    In test (ss_tests (snd suite)) /\ fst test = testUid /\ unset test = true.

(** * Properties *)

(** ** Frame reasoning *)

Section Frame.

Context (R : relation reporter) `{!PreOrder R}.

Lemma preserves_ret {A} (a : A) : preserves R (ret a).
Proof. intros r. reflexivity. Qed.

Lemma preserves_throw {A} e : preserves R (@throw A e).
Proof. intros r. reflexivity. Qed.

Lemma preserves_get : preserves R get.
Proof. intros r. reflexivity. Qed.

Lemma preserves_lift {A} (c : completion A) : preserves R (lift c).
Proof. intros r. reflexivity. Qed.

Lemma preserves_modify f : (forall r, R r (f r)) -> preserves R (modify f).
Proof. intros H r. apply H. Qed.

Lemma preserves_bind {A B} (m : M A) (k : A -> M B) :
  preserves R m -> (forall a, preserves R (k a)) -> preserves R (bind m k).
Proof.
  intros Hm Hk r. unfold bind. specialize (Hm r).
  destruct (m r) as [[a|e] r']; simpl in *; [|exact Hm].
  etransitivity; [exact Hm|apply Hk].
Qed.

Lemma preserves_forEach {A} (a : list A) (body : A -> M unit) :
  (forall x, preserves R (body x)) -> preserves R (forEach a body).
Proof.
  intros H. induction a as [|x a IH]; simpl.
  - apply preserves_ret.
  - apply preserves_bind; auto.
Qed.

Lemma preserves_mapM {A B} (f : A -> M B) (a : list A) :
  (forall x, preserves R (f x)) -> preserves R (mapM f a).
Proof.
  intros H. induction a as [|x a IH]; simpl.
  - apply preserves_ret.
  - apply preserves_bind; [apply H|]. intros y.
    apply preserves_bind; [apply IH|]. intros ys. apply preserves_ret.
Qed.

End Frame.

Create HintDb frame.

(** A write to a field that [R] ignores. *)
Ltac ignored :=
  match goal with
  | H : Ignores ?R |- ?R _ (set_errorCount _ _) => apply (ig_errorCount R H)
  | H : Ignores ?R |- ?R _ (set_failureCount _ _) => apply (ig_failureCount R H)
  | H : Ignores ?R |- ?R _ (set_stepIndents _ _) => apply (ig_stepIndents R H)
  | H : Ignores ?R |- ?R _ (set_specs _ _) => apply (ig_specs R H)
  | H : Ignores ?R |- ?R _ (set_retryCount _ _) => apply (ig_retryCount R H)
  | H : Ignores ?R |- ?R _ (set_currentTest _ _) => apply (ig_currentTest R H)
  | H : Ignores ?R |- ?R _ (set_currentSuite _ _) => apply (ig_currentSuite R H)
  | H : Ignores ?R |- ?R _ (set_stats _ _) => apply (ig_stats R H)
  | H : Ignores ?R |- ?R _ (set_console _ _) => apply (ig_console R H)
  end.

(** Walks down a method body: binds, branches and writes. *)
Ltac frame_step :=
  lazymatch goal with
  | |- PreOrder _ => typeclasses eauto
  | |- forall _, _ => intros ?
  | |- preserves _ (ret _) => apply preserves_ret
  | |- preserves _ (throw _) => apply preserves_throw
  | |- preserves _ get => apply preserves_get
  | |- preserves _ (lift _) => apply preserves_lift
  | |- preserves _ (modify _) => apply preserves_modify; intros ?; ignored
  | |- preserves _ (bind _ _) => apply preserves_bind
  | |- preserves _ (forEach _ _) => apply preserves_forEach
  | |- preserves _ (mapM _ _) => apply preserves_mapM
  | |- preserves _ (match ?x with _ => _ end) => destruct x
  | |- preserves _ _ => solve [eauto with frame typeclass_instances]
  end.

Ltac frame := repeat frame_step.

Section MethodFrames.

Context (v : variant) (baseReporter : BaseReporter) (config : Config).

Context (R : relation reporter) `{!PreOrder R} (HI : Ignores R).

Lemma preserves_bump_result c g : tol_results R c -> preserves R (bump_result c g).
Proof.
  intros Hc. unfold bump_result. frame.
  apply preserves_modify. intros r. apply Hc.
Qed.

Lemma preserves_indent cid uid : preserves R (indent cid uid).
Proof. unfold indent. frame. Qed.

Lemma preserves_stepIndent cid inline : preserves R (stepIndent cid inline).
Proof. unfold stepIndent. frame. Qed.

Lemma preserves_getPhase : preserves R getPhase.
Proof. unfold getPhase. frame. Qed.

Lemma preserves_getSymbol state : preserves R (getSymbol baseReporter state).
Proof. unfold getSymbol, nextErrorSymbol. frame. Qed.

Lemma preserves_console_log text : preserves R (console_log text).
Proof. unfold console_log. frame. Qed.

Lemma preserves_reporter_log text : preserves R (reporter_log text).
Proof. unfold reporter_log. frame. Qed.

Lemma preserves_log text : preserves R (log v text).
Proof. unfold log. destruct v; [apply preserves_console_log|apply preserves_reporter_log]. Qed.

Lemma preserves_printSuitesSummary : preserves R printSuitesSummary.
Proof. unfold printSuitesSummary. frame. Qed.

#[local] Hint Resolve preserves_bump_result preserves_indent preserves_stepIndent
  preserves_getPhase preserves_getSymbol preserves_console_log
  preserves_reporter_log preserves_log preserves_printSuitesSummary : frame.

Lemma preserves_renderTests cid ref specUid preface indentation tests output :
  tol_results R cid ->
  preserves R (renderTests v baseReporter cid ref specUid preface indentation tests output).
Proof.
  intros Hc. revert output.
  induction tests as [|[testUid test] rest IH]; intros output; simpl; frame.
Qed.

#[local] Hint Resolve preserves_renderTests : frame.

Lemma preserves_renderSuites cid ref preface suites output :
  tol_results R cid ->
  preserves R (renderSuites v baseReporter cid ref preface suites output).
Proof.
  intros Hc. revert output.
  induction suites as [|[specUid spec] rest IH]; intros output; simpl; frame.
Qed.

Lemma preserves_getResultList cid ref suites preface :
  tol_results R cid ->
  preserves R (getResultList v baseReporter cid ref suites preface).
Proof. apply preserves_renderSuites. Qed.

Lemma preserves_failureLoop failures i preface output :
  preserves R (failureLoop v baseReporter failures i preface output).
Proof.
  revert i output.
  induction failures as [|test rest IH]; intros i output; simpl; frame.
Qed.

Lemma preserves_getFailureList failures preface :
  preserves R (getFailureList v baseReporter failures preface).
Proof. apply preserves_failureLoop. Qed.

#[local] Hint Resolve preserves_getResultList preserves_getFailureList : frame.

Lemma preserves_printRunnerInfo runner : preserves R (printRunnerInfo v runner).
Proof. unfold printRunnerInfo. frame. Qed.

Lemma preserves_printSuiteTitle suite : preserves R (printSuiteTitle v suite).
Proof. unfold printSuiteTitle. frame. Qed.

Lemma preserves_printTestcaseTitle test retry :
  preserves R (printTestcaseTitle baseReporter config test retry).
Proof. unfold printTestcaseTitle. frame. Qed.

Lemma preserves_printTest title state : preserves R (printTest v baseReporter title state).
Proof. unfold printTest. frame. Qed.

Lemma preserves_instantReportError err errMessageColor :
  preserves R (instantReportError baseReporter err errMessageColor).
Proof. unfold instantReportError. frame. Qed.

Lemma preserves_getSuiteResult runner :
  tol_results R (runner_cid runner) ->
  preserves R (getSuiteResult v baseReporter runner).
Proof. intros Hc. unfold getSuiteResult. frame. Qed.

#[local] Hint Resolve preserves_printRunnerInfo preserves_printSuiteTitle
  preserves_printTestcaseTitle preserves_printTest preserves_instantReportError
  preserves_getSuiteResult : frame.

Lemma preserves_printSuiteResult runner :
  tol_results R (runner_cid runner) ->
  preserves R (printSuiteResult v baseReporter config runner).
Proof. intros Hc. unfold printSuiteResult. frame. Qed.

Lemma preserves_onTestState bucket state test :
  tol_results R (test_cid test) ->
  preserves R (onTestState v baseReporter config bucket state test).
Proof. intros Hc. unfold onTestState. frame. Qed.

End MethodFrames.

#[local] Hint Resolve preserves_bump_result preserves_indent preserves_stepIndent
  preserves_getPhase preserves_getSymbol preserves_console_log
  preserves_reporter_log preserves_log preserves_printSuitesSummary
  preserves_printRunnerInfo preserves_printSuiteTitle
  preserves_printTestcaseTitle preserves_printTest preserves_instantReportError
  preserves_getSuiteResult preserves_printSuiteResult preserves_onTestState : frame.

Lemma preserves_emit v baseReporter config R `{!PreOrder R} (HI : Ignores R) e :
  (forall c, writes_results e = Some c -> tol_results R c) ->
  (forall c, writes_depth e = Some c -> tol_depth R c) ->
  (writes_phase e = true -> tol_phase R) ->
  preserves R (emit v baseReporter config e).
Proof.
  intros Hres Hdepth Hphase.
  assert (Hres' := fun c H => Hres c H).
  destruct e; simpl in *;
    try specialize (Hres _ eq_refl);
    try (destruct (Hdepth _ eq_refl) as [Hind Hsui]);
    try specialize (Hphase eq_refl);
    destruct v; simpl;
    unfold onStartSpecs, onRunnerStart, onRunnerInit, onSuiteStart, onTestSetCurrentId,
      onTestBroken, onValidateFailure, onSuiteEnd, onRunnerEnd, onEnd, onStepStart,
      onRetryFailed, onRetryBroken, onRetryValidateFailure, onStepEnd, reprintTestcase,
      reset_stepIndents;
    frame;
    try (apply preserves_modify; intros ?;
         first [apply Hres | apply Hind | apply Hsui | apply Hphase]).
Qed.

(** ** Reading a run *)

(** A method that returns hands its value and its state to what follows. *)
Lemma bind_normal {A B} (m : M A) (k : A -> M B) r a r' :
  m r = (Normal a, r') -> bind m k r = k a r'.
Proof. unfold bind. intros ->. reflexivity. Qed.

(** The separator rule has 66 dashes. *)
Lemma separator_length : String.length separator = 66%nat.
Proof. reflexivity. Qed.

(** A session in buffered mode, from ['runner:start'] to ['runner:end'], as
    [src/lib/reporter.js] prints it: banner, suite, test, summary. *)
Lemma buffered_session_block :
  let suites := [("Login1", {| ss_title := "Login";
                               ss_tests := [("works2", {| ts_title := "works";
                                                          ts_state := "pass" |})] |})] in
  console (run LibReporter Sample.theme Sample.buffered
             [Emit (RunnerStart Sample.runner); Emit (SuiteStart Sample.login);
              Emit (TestPass Sample.works); Emit (SuiteEnd Sample.login);
              Emit (RunnerEnd Sample.runner)]
             (init (Sample.stats_with suites)))
  = [ConsoleLog
       (separator +:+ JS.LF
        +:+ "[TESTCASE] Testcase File: login.spec.js" +:+ JS.LF
        +:+ "[TESTCASE] Running: chrome[TESTCASE] " +:+ JS.LF
        +:+ "[TESTCASE]  Login" +:+ JS.LF
        +:+ "[TESTCASE]    ok works" +:+ JS.LF
        +:+ "[TESTCASE]" +:+ JS.LF
        +:+ "[TESTCASE] " +:+ JS.LF
        +:+ "[TESTCASE]  1 passing (1s)" +:+ JS.LF
        +:+ "[TESTCASE] " +:+ JS.LF)].
Proof. vm_compute. reflexivity. Qed.

Lemma run_app v baseReporter config (pre post : list action) r :
  run v baseReporter config (pre ++ post) r
  = run v baseReporter config post (run v baseReporter config pre r).
Proof. revert r. induction pre as [|a pre IH]; intros r; simpl; [reflexivity|apply IH]. Qed.

#[local] Instance same_preorder {X} (f : reporter -> X) : PreOrder (same f).
Proof.
  split.
  - intros r. reflexivity.
  - intros r1 r2 r3 H12 H23. unfold same in *. congruence.
Qed.

(** ** The phase flag: C10 *)

Lemma phase_ignores : Ignores (same startedSpecs).
Proof. split; intros; reflexivity. Qed.

Lemma step_keeps_phase v baseReporter config a r :
  is_startSpecs a = false ->
  startedSpecs (step v baseReporter config a r) = startedSpecs r.
Proof.
  intros Ha. destruct a as [e|s]; [|reflexivity].
  apply (preserves_emit v baseReporter config (same startedSpecs) phase_ignores e).
  - intros c _ t r'. reflexivity.
  - intros c _. split; intros; reflexivity.
  - intros He. destruct e; simpl in *; congruence.
Qed.

Lemma startSpecs_sets_phase v baseReporter config runner r :
  startedSpecs (step v baseReporter config (Emit (StartSpecs runner)) r) = true.
Proof.
  unfold step, exec, emit, onStartSpecs, bind, get. simpl.
  destruct (startedSpecs r) eqn:E; simpl; [exact E|].
  destruct v; reflexivity.
Qed.

Lemma startSpecs_again_noop v baseReporter config runner r :
  startedSpecs r = true ->
  step v baseReporter config (Emit (StartSpecs runner)) r = r.
Proof.
  intros E. unfold step, exec, emit, onStartSpecs, bind, get. simpl.
  rewrite E. reflexivity.
Qed.

Lemma run_phase v baseReporter config actions r :
  startedSpecs (run v baseReporter config actions r)
  = startedSpecs r || emits_startSpecs actions.
Proof.
  revert r. induction actions as [|a actions IH]; intros r; simpl.
  - rewrite orb_false_r. reflexivity.
  - rewrite IH. destruct (is_startSpecs a) eqn:Ha.
    + destruct a as [[]|]; simpl in Ha; try discriminate.
      rewrite startSpecs_sets_phase. rewrite orb_true_r. reflexivity.
    + rewrite (step_keeps_phase _ _ _ _ _ Ha). reflexivity.
Qed.

(** C10.  The phase flag [startedSpecs] is monotonic.  It is [false] in the
    reporter the constructor builds; after any run it is [true] exactly when
    it was [true] before or a [startSpecs] event was among the actions, so a
    step never takes it back to [false]; [getPhase] answers ["[TESTCASE] "]
    as long as no [startSpecs] event was emitted and ["[SPEC] "] ever after;
    once the flag is set, a further [startSpecs] event leaves the whole
    reporter (tallies and failure counters included) as it is. *)
Theorem startedSpecs_monotonic v baseReporter config (actions : list action)
    (r : reporter) (s : Stats) (runner : Runner) :
  startedSpecs (init s) = false /\
  startedSpecs (run v baseReporter config actions r)
    = startedSpecs r || emits_startSpecs actions /\
  getPhase (run v baseReporter config actions (init s))
    = (Normal (if emits_startSpecs actions then "[SPEC] " else "[TESTCASE] "),
       run v baseReporter config actions (init s)) /\
  (startedSpecs r = true ->
   step v baseReporter config (Emit (StartSpecs runner)) r = r).
Proof.
  split; [reflexivity|]. split; [apply run_phase|]. split.
  - unfold getPhase, bind, get. rewrite run_phase. simpl.
    destruct (emits_startSpecs actions); reflexivity.
  - apply startSpecs_again_noop.
Qed.

(** ** Suite nesting and the indent depth: C3 *)

Lemma same_depth_ignores cid : Ignores (same_depth cid).
Proof. split; intros; reflexivity. Qed.

Lemma same_depth_tol cid c : c <> cid -> tol_depth (same_depth cid) c.
Proof.
  intros Hc. split; intros x r; unfold same_depth, same; simpl;
    rewrite lookup_insert_ne by exact Hc; reflexivity.
Qed.

Lemma step_keeps_depth v baseReporter config cid a r :
  match a with
  | Emit e => writes_depth e <> Some cid
  | HostStats _ => True
  end ->
  indents (step v baseReporter config a r) !! cid = indents r !! cid /\
  suiteIndents (step v baseReporter config a r) !! cid = suiteIndents r !! cid.
Proof.
  intros Ha. destruct a as [e|s]; [|split; reflexivity].
  assert (H : same_depth cid r (step v baseReporter config (Emit e) r)).
  { apply (preserves_emit v baseReporter config (same_depth cid) (same_depth_ignores cid) e).
    - intros c _ t r'. reflexivity.
    - intros c Hc. apply same_depth_tol. congruence.
    - intros _ x r'. reflexivity. }
  unfold same_depth, same in H. inversion H. split; congruence.
Qed.

Lemma suiteStart_depth v baseReporter config suite r :
  let r' := step v baseReporter config (Emit (SuiteStart suite)) r in
  indents r' = indents (suiteStart_writes suite r) /\
  suiteIndents r' = suiteIndents (suiteStart_writes suite r).
Proof.
  unfold step, exec, emit. simpl.
  replace (emit v baseReporter config (SuiteStart suite)) with (onSuiteStart v config suite)
    by (destruct v; reflexivity).
  unfold onSuiteStart, suiteStart_writes, bind, get, modify, throw. simpl.
  destruct (suiteIndents r !! suite_cid suite) as [depths|]; simpl; [|split; reflexivity].
  destruct (instantReport config); [|split; reflexivity].
  set (r2 := set_currentSuite _ _).
  assert (H : same (fun r => (indents r, suiteIndents r)) r2 (snd (printSuiteTitle v suite r2))).
  { apply preserves_printSuiteTitle; [typeclasses eauto|]. split; intros; reflexivity. }
  unfold same in H. inversion H as [[H1 H2]]. rewrite H1, H2. split; reflexivity.
Qed.

Lemma suiteEnd_depth v baseReporter config suite r :
  indents (step v baseReporter config (Emit (SuiteEnd suite)) r)
  = <[suite_cid suite := JS.num_add (JS.to_number (indents r !! suite_cid suite)) (-1)]> (indents r).
Proof.
  unfold step, exec, emit. simpl.
  replace (emit v baseReporter config (SuiteEnd suite)) with (onSuiteEnd v config suite)
    by (destruct v; reflexivity).
  unfold onSuiteEnd, bind, get, modify. simpl.
  destruct v; simpl; [reflexivity|].
  destruct (logTestcases config && negb (startedSpecs r)); reflexivity.
Qed.

Lemma suiteStart_writes_indents suite r :
  indents (suiteStart_writes suite r)
  = <[suite_cid suite := JS.num_add (JS.to_number (indents r !! suite_cid suite)) 1]> (indents r).
Proof.
  unfold suiteStart_writes.
  destruct (suiteIndents r !! suite_cid suite); reflexivity.
Qed.

Lemma nesting_depth v baseReporter config cid actions :
  forall r n open open',
    indents r !! cid = Some (JNum n) ->
    nesting cid open actions = Some open' ->
    indents (run v baseReporter config actions r) !! cid
    = Some (JNum (n + Z.of_nat open' - Z.of_nat open)).
Proof.
  induction actions as [|a actions IH]; intros r n open open' Hn Hnest; simpl in *.
  - inversion Hnest; subst. rewrite Hn. do 2 f_equal. lia.
  - assert (Hother :
      match a with Emit e => writes_depth e <> Some cid | HostStats _ => True end ->
      nesting cid open actions = Some open' ->
      indents (run v baseReporter config actions (step v baseReporter config a r)) !! cid
      = Some (JNum (n + Z.of_nat open' - Z.of_nat open))).
    { intros Ha Hrest. apply IH; [|exact Hrest].
      destruct (step_keeps_depth v baseReporter config cid a r Ha) as [-> _]. exact Hn. }
    destruct a as [e|s]; [|apply Hother; [exact I|exact Hnest]].
    destruct e; try (apply Hother; [simpl; congruence|exact Hnest]); simpl in Hnest.
    + (* runner:start *)
      case_bool_decide as Hc; [discriminate|].
      apply Hother; [simpl; congruence|exact Hnest].
    + (* suite:start *)
      case_bool_decide as Hc; [|apply Hother; [simpl; congruence|exact Hnest]].
      subst cid.
      rewrite (IH _ (n + 1) (S open) open'); [do 2 f_equal; lia| |exact Hnest].
      destruct (suiteStart_depth v baseReporter config suite r) as [-> _].
      rewrite suiteStart_writes_indents, lookup_insert_eq, Hn. reflexivity.
    + (* suite:end *)
      case_bool_decide as Hc; [|apply Hother; [simpl; congruence|exact Hnest]].
      subst cid. destruct open as [|open0]; [discriminate|].
      rewrite (IH _ (n - 1) open0 open'); [do 2 f_equal; lia| |exact Hnest].
      rewrite suiteEnd_depth, lookup_insert_eq, Hn. reflexivity.
Qed.

(** C3.  For a session [cid] that has its depth counter [indents[cid] = n]
    and its depth map [suiteIndents[cid]]: after any sequence of actions in
    which the [suite:start] and [suite:end] events of the session are
    balanced, [indents[cid]] is [n] again; a [suite:start] of the session
    makes the counter [n + 1] and records [n + 1] as the depth of the suite's
    uid; a [suite:end] of the session makes the counter [n - 1]. *)
Theorem balanced_suites_restore_depth v baseReporter config (cid : string)
    (r : reporter) (n : Z) (depths : gmap string jsnum)
    (actions : list action) (started ended : Suite) :
  indents r !! cid = Some (JNum n) ->
  suiteIndents r !! cid = Some depths ->
  (balanced cid actions ->
   indents (run v baseReporter config actions r) !! cid = Some (JNum n)) /\
  (suite_cid started = cid ->
   indents (step v baseReporter config (Emit (SuiteStart started)) r) !! cid
     = Some (JNum (n + 1)) /\
   suiteIndents (step v baseReporter config (Emit (SuiteStart started)) r) !! cid
     = Some (<[suite_uid started := JNum (n + 1)]> depths)) /\
  (suite_cid ended = cid ->
   indents (step v baseReporter config (Emit (SuiteEnd ended)) r) !! cid
     = Some (JNum (n - 1))).
Proof.
  intros Hn Hd. split; [|split].
  - intros Hbal.
    rewrite (nesting_depth v baseReporter config cid actions r n 0 0 Hn Hbal).
    do 2 f_equal. lia.
  - intros <-.
    destruct (suiteStart_depth v baseReporter config started r) as [-> ->].
    rewrite suiteStart_writes_indents. unfold suiteStart_writes.
    rewrite Hd, Hn. simpl. rewrite !lookup_insert_eq. split; reflexivity.
  - intros <-. rewrite suiteEnd_depth, lookup_insert_eq, Hn. reflexivity.
Qed.

(** ** Strings *)

Lemma append_nil_r (s : string) : s +:+ "" = s.
Proof. induction s as [|c s IH]; [reflexivity|]. unfold String.append; fold String.append. f_equal. exact IH. Qed.

Lemma append_assoc (a b c : string) : (a +:+ b) +:+ c = a +:+ b +:+ c.
Proof.
  induction a as [|x a IH]; [reflexivity|].
  unfold String.append; fold String.append. f_equal. exact IH.
Qed.

(** ** The indentation of a suite: C5 *)

Lemma spaces_length n : String.length (spaces n) = n.
Proof. induction n as [|n IH]; simpl; [reflexivity|]. f_equal. exact IH. Qed.

Lemma join_holes_spaces n : JS.join_holes (S n) "    " = spaces (4 * n).
Proof.
  induction n as [|n IH]; [reflexivity|].
  change (JS.join_holes (S (S n)) "    ") with ("    " +:+ JS.join_holes (S n) "    ").
  rewrite IH. replace (4 * S n)%nat with (S (S (S (S (4 * n)))))%nat by lia.
  reflexivity.
Qed.

(** C5.  For a suite whose depth [d] is recorded in [suiteIndents[cid]],
    [indent (cid, uid)] returns the empty string when [d] is 0 or 1, and a
    string of exactly [4 * (d - 1)] spaces when [d >= 1]; the reporter is not
    changed. *)
Theorem indent_spaces (r : reporter) (cid uid : string)
    (depths : gmap string jsnum) (d : Z) :
  suiteIndents r !! cid = Some depths ->
  depths !! uid = Some (JNum d) ->
  (d = 0 \/ d = 1 -> indent cid uid r = (Normal "", r)) /\
  (1 <= d ->
   indent cid uid r = (Normal (spaces (Z.to_nat (4 * (d - 1)))), r) /\
   String.length (spaces (Z.to_nat (4 * (d - 1)))) = Z.to_nat (4 * (d - 1))).
Proof.
  intros Hc Hu.
  assert (Hpos : 1 <= d ->
    indent cid uid r = (Normal (spaces (Z.to_nat (4 * (d - 1)))), r)).
  { intros Hd. unfold indent, bind, get. simpl. rewrite Hc, Hu.
    destruct d as [|p|p]; try lia.
    unfold lift, JS.Array_join.
    change (Z.pos p <? 0) with false. cbv iota.
    destruct (Z.to_nat (Z.pos p)) as [|n] eqn:En; [lia|].
    rewrite join_holes_spaces. do 3 f_equal. lia. }
  split.
  - intros [-> | ->].
    + unfold indent, bind, get. simpl. rewrite Hc, Hu. reflexivity.
    + rewrite Hpos by lia. reflexivity.
  - intros Hd. split; [apply Hpos, Hd|apply spaces_length].
Qed.

(** ** The failure-numbering counter: C2 *)

Lemma set_errorCount_same r : set_errorCount (errorCount r) r = r.
Proof. destruct r. reflexivity. Qed.

Lemma set_errorCount_twice x y r : set_errorCount x (set_errorCount y r) = set_errorCount x r.
Proof. reflexivity. Qed.

Lemma getSymbol_numbered baseReporter state r :
  numbered state = true ->
  getSymbol baseReporter state r
  = (Normal (pretty (errorCount r + 1) +:+ ")"), set_errorCount (errorCount r + 1) r).
Proof.
  unfold numbered, getSymbol. intros H.
  destruct (String.eqb state "pass"); [discriminate|].
  destruct (String.eqb state "pending"); [discriminate|].
  destruct (String.eqb state "fail"); [reflexivity|].
  destruct (String.eqb state "broken"); reflexivity.
Qed.

Lemma getSymbol_sequence baseReporter states :
  forall r,
    mapM (getSymbol baseReporter) states r
    = (Normal (expected_symbols baseReporter (errorCount r) states),
       set_errorCount (errorCount r + count_numbered states) r).
Proof.
  unfold count_numbered.
  induction states as [|state rest IH]; intros r; simpl.
  - rewrite Z.add_0_r, set_errorCount_same. reflexivity.
  - destruct (numbered state) eqn:Enum.
    + rewrite (bind_normal _ _ _ _ _ (getSymbol_numbered baseReporter state r Enum)).
      cbv beta. unfold bind. rewrite IH. unfold numbered in Enum.
      destruct (String.eqb state "pass"); [discriminate|].
      destruct (String.eqb state "pending"); [discriminate|].
      simpl. rewrite set_errorCount_twice. unfold ret. do 2 f_equal. lia.
    + unfold numbered in Enum. unfold bind at 1. unfold getSymbol at 1.
      destruct (String.eqb state "pass"); simpl.
      * unfold bind. rewrite IH. reflexivity.
      * destruct (String.eqb state "pending"); [|discriminate]. simpl.
        unfold bind. rewrite IH. reflexivity.
Qed.

(** C2.  [getSymbol] with state ['pass'] returns the theme's ok glyph and
    with ['pending'] returns ["-"], both without touching [errorCount]; with
    ['fail'], ['broken'] or any other state it adds one to [errorCount] and
    returns the new value followed by [")"].  Over any sequence of calls,
    whatever the sessions of the tests, the counter ends up higher by the
    number of calls with such a state, and the numbers handed out go up by
    one per such call in call order. *)
Theorem getSymbol_numbering (baseReporter : BaseReporter) (state : string)
    (states : list string) (r : reporter) :
  getSymbol baseReporter "pass" r = (Normal (symbols_ok baseReporter), r) /\
  getSymbol baseReporter "pending" r = (Normal "-", r) /\
  getSymbol baseReporter "fail" r
    = (Normal (pretty (errorCount r + 1) +:+ ")"), set_errorCount (errorCount r + 1) r) /\
  getSymbol baseReporter "broken" r
    = (Normal (pretty (errorCount r + 1) +:+ ")"), set_errorCount (errorCount r + 1) r) /\
  (state <> "pass" -> state <> "pending" ->
   getSymbol baseReporter state r
     = (Normal (pretty (errorCount r + 1) +:+ ")"), set_errorCount (errorCount r + 1) r)) /\
  mapM (getSymbol baseReporter) states r
    = (Normal (expected_symbols baseReporter (errorCount r) states),
       set_errorCount (errorCount r + count_numbered states) r).
Proof.
  repeat split; try reflexivity.
  - intros Hpass Hpending. apply getSymbol_numbered. unfold numbered.
    destruct (String.eqb_spec state "pass"); [contradiction|].
    destruct (String.eqb_spec state "pending"); [contradiction|]. reflexivity.
  - apply getSymbol_sequence.
Qed.

(** ** A session without suites: C6 *)

(** C6.  For a runner whose session has statistics with an empty suite map
    for the runner's spec, [getSuiteResult] returns the empty string: no
    separator, no banner, and nothing else changes in the reporter. *)
Theorem getSuiteResult_no_suites v baseReporter (runner : Runner) (r : reporter)
    (runnerStats : RunnerStats) (spec : SpecStats) :
  runners (stats r) !! runner_cid runner = Some runnerStats ->
  rs_specs runnerStats !! getSpecHash baseReporter runner = Some spec ->
  spec_suites spec = [] ->
  getSuiteResult v baseReporter runner r = (Normal "", r).
Proof.
  intros Hr Hs He. unfold getSuiteResult, getPhase, bind, get. simpl.
  rewrite Hr, Hs, He. destruct (startedSpecs r); reflexivity.
Qed.

(** ** The summary block: C7 and C8 *)

Lemma summaryLoop_lines v baseReporter duration preface states :
  forall output displayedDuration,
    summaryLoop v baseReporter states duration preface output displayedDuration
    = output +:+ text_of (lines_after v baseReporter duration preface displayedDuration
                            (List.filter nonzero states)).
Proof.
  induction states as [|[state testCount] rest IH]; intros output displayed; simpl.
  - symmetry. apply append_nil_r.
  - unfold nonzero at 1. simpl. destruct (testCount =? 0) eqn:E; simpl.
    + apply IH.
    + rewrite IH.
      change (output +:+ preface +:+ " "
              +:+ color baseReporter (getColor v state) (pretty testCount)
              +:+ " " +:+ color baseReporter (getColor v state) (printed_label v state)
              +:+ (if negb displayed then duration_suffix baseReporter duration else "")
              +:+ JS.LF)
        with (output +:+ summary_line v baseReporter preface
                (if negb displayed then duration_suffix baseReporter duration else "")
                (state, testCount)).
      rewrite append_assoc. f_equal.
      destruct (List.filter nonzero rest) as [|e es]; destruct displayed; reflexivity.
Qed.

Lemma filter_nonzero_idem states :
  List.filter nonzero (List.filter nonzero states) = List.filter nonzero states.
Proof.
  induction states as [|e rest IH]; simpl; [reflexivity|].
  destruct (nonzero e) eqn:E; simpl; [rewrite E|]; congruence.
Qed.

(** C7.  The summary block of [getSummary] has one line per state with a
    non-zero count and none for a state with count zero (the block of
    [states] is the block of [states] without its zero-count entries); the
    humanized duration is appended to the first of these lines and to no
    other; when no state has a non-zero count the block is empty. *)
Theorem getSummary_duration_on_first_line v baseReporter
    (states : list (string * Z)) (duration : Z) (preface : string) :
  getSummary v baseReporter states duration preface
    = text_of (summary_lines v baseReporter states duration preface) /\
  getSummary v baseReporter states duration preface
    = getSummary v baseReporter (List.filter nonzero states) duration preface /\
  (forallb (fun entry => snd entry =? 0) states = true ->
   getSummary v baseReporter states duration preface = "").
Proof.
  unfold getSummary, summary_lines. rewrite !summaryLoop_lines. simpl.
  split; [reflexivity|]. split.
  - rewrite filter_nonzero_idem. reflexivity.
  - intros Hz. replace (List.filter nonzero states) with (@nil (string * Z)); [reflexivity|].
    induction states as [|e rest IH]; [reflexivity|]. simpl in *.
    apply andb_true_iff in Hz as [He Hrest]. unfold nonzero at 1. rewrite He. simpl.
    apply IH, Hrest.
Qed.

Lemma text_of_app (l1 l2 : list string) : text_of (l1 ++ l2) = text_of l1 +:+ text_of l2.
Proof.
  induction l1 as [|x l1 IH]; simpl; [reflexivity|].
  rewrite IH. symmetry. apply append_assoc.
Qed.

Lemma lines_after_app v baseReporter duration preface displayed l1 entry l2 :
  text_of (lines_after v baseReporter duration preface displayed (l1 ++ entry :: l2))
  = text_of (lines_after v baseReporter duration preface displayed l1)
    +:+ summary_line v baseReporter preface
          (match l1 with
           | [] => if displayed then "" else duration_suffix baseReporter duration
           | _ :: _ => ""
           end) entry
    +:+ text_of (map (summary_line v baseReporter preface "") l2).
Proof.
  destruct l1 as [|first others]; [reflexivity|]. simpl.
  rewrite map_app, text_of_app. simpl. rewrite !append_assoc. reflexivity.
Qed.

(** The line of the state [state] with count [n] inside a block: the block
    of the states before it, the line, and the lines of the states after it;
    the line carries the duration when no state before it was displayed. *)
Lemma getSummary_line v baseReporter pre state n post duration preface :
  n <> 0 ->
  getSummary v baseReporter (pre ++ (state, n) :: post) duration preface
  = getSummary v baseReporter pre duration preface
    +:+ summary_line v baseReporter preface
          (if existsb nonzero pre then "" else duration_suffix baseReporter duration)
          (state, n)
    +:+ summaryLoop v baseReporter post duration preface "" true.
Proof.
  intros Hn. unfold getSummary. rewrite !summaryLoop_lines.
  assert (Hnil : forall s : string, "" +:+ s = s) by reflexivity.
  rewrite !Hnil. clear Hnil.
  rewrite List.filter_app.
  assert (Hkeep : List.filter nonzero ((state, n) :: post)
                  = (state, n) :: List.filter nonzero post).
  { simpl. unfold nonzero at 1. simpl.
    destruct (Z.eqb_spec n 0) as [|_]; [contradiction|]. reflexivity. }
  rewrite Hkeep, lines_after_app. f_equal. f_equal.
  - f_equal. clear. induction pre as [|e pre IH]; simpl; [reflexivity|].
    destruct (nonzero e); simpl; [reflexivity|apply IH].
  - destruct (List.filter nonzero post); reflexivity.
Qed.

(** The summary of [src/lib/reporter.js] shows the pending bucket under its
    own name, not as ["skipped"]. *)
Lemma getSummary_lib_shows_pending :
  getSummary LibReporter Sample.theme
    (tally_entries LibReporter
       {| passing := 0; pending := 2; failing := 0; broken := 0; unverified := 0 |})
    1200 "[SPEC] "
  = "[SPEC]  2 pending (1s)" +:+ JS.LF
  /\ "[SPEC]  2 pending (1s)" +:+ JS.LF <> "[SPEC]  2 skipped (1s)" +:+ JS.LF.
Proof. split; [vm_compute; reflexivity|discriminate]. Qed.

(** C8, amended.  In a summary block of [getSummary] of
    [src/unnamed/part_000] the line of the ['pending'] bucket, when its count
    is not zero, shows the label ["skipped"] (in the colour of ['pending']);
    in a block of [getSummary] of [src/lib/reporter.js] it shows
    ["pending"]; in both, the line of any other state shows the name of the
    state. *)
Theorem getSummary_pending_label (baseReporter : BaseReporter)
    (pre post : list (string * Z)) (n duration : Z) (preface : string) :
  n <> 0 ->
  let suffix := if existsb nonzero pre then "" else duration_suffix baseReporter duration in
  let line colour label :=
    preface +:+ " " +:+ color baseReporter colour (pretty n)
    +:+ " " +:+ color baseReporter colour label +:+ suffix +:+ JS.LF in
  getSummary Part000 baseReporter (pre ++ ("pending", n) :: post) duration preface
    = getSummary Part000 baseReporter pre duration preface
      +:+ line (Some "pending") "skipped"
      +:+ summaryLoop Part000 baseReporter post duration preface "" true /\
  getSummary LibReporter baseReporter (pre ++ ("pending", n) :: post) duration preface
    = getSummary LibReporter baseReporter pre duration preface
      +:+ line (Some "pending") "pending"
      +:+ summaryLoop LibReporter baseReporter post duration preface "" true /\
  (forall v state, state <> "pending" ->
   getSummary v baseReporter (pre ++ (state, n) :: post) duration preface
     = getSummary v baseReporter pre duration preface
       +:+ line (getColor v state) state
       +:+ summaryLoop v baseReporter post duration preface "" true).
Proof.
  intros Hn suffix line. split; [|split].
  - rewrite getSummary_line by exact Hn. reflexivity.
  - rewrite getSummary_line by exact Hn. reflexivity.
  - intros v state Hstate. rewrite getSummary_line by exact Hn.
    unfold summary_line, line, printed_label. simpl.
    destruct v; [reflexivity|].
    destruct (String.eqb_spec state "pending"); [contradiction|reflexivity].
Qed.

(** ** The tally of a session: C1 *)

Lemma one_bucket_up_total t t' : one_bucket_up t t' -> tally_total t' = tally_total t + 1.
Proof.
  unfold one_bucket_up, tally_total.
  intros [-> | [-> | [-> | [-> | ->]]]]; simpl; lia.
Qed.

Lemma results_ignores : Ignores (same results).
Proof. split; intros; reflexivity. Qed.

Lemma bump_result_defined cid bucket r t :
  results r !! cid = Some t ->
  bump_result cid bucket r = (Normal tt, set_results (<[cid := bucket t]> (results r)) r).
Proof. intros H. unfold bump_result, bind, get. simpl. rewrite H. reflexivity. Qed.

Lemma onTestState_results v baseReporter config bucket state test r t :
  results r !! test_cid test = Some t ->
  results (exec (onTestState v baseReporter config bucket state test) r)
  = <[test_cid test := bucket t]> (results r).
Proof.
  intros H. unfold exec, onTestState.
  rewrite (bind_normal _ _ _ _ _ (bump_result_defined _ bucket _ _ H)).
  pose proof results_ignores as HI.
  match goal with
  | |- results (snd (?m ?r1)) = _ =>
      assert (P : preserves (same results) m) by frame; apply (P r1)
  end.
Qed.

Lemma onTestBroken_results v baseReporter config test r t :
  results r !! test_cid test = Some t ->
  results (exec (onTestBroken v baseReporter config test) r)
  = <[test_cid test := incr_broken t]> (results r).
Proof.
  intros H. unfold exec, onTestBroken, bind.
  pose proof (onTestState_results v baseReporter config incr_broken "broken" test r t H) as Hs.
  unfold exec in Hs.
  destruct (onTestState v baseReporter config incr_broken "broken" test r) as [[[]|e] r1];
    simpl in *; [|exact Hs].
  rewrite <- Hs. pose proof results_ignores as HI.
  match goal with
  | |- results (snd (?m ?r1)) = _ =>
      assert (P : preserves (same results) m) by (destruct v; frame); apply (P r1)
  end.
Qed.

(** A terminal test-state event of a session that has a tally moves the
    bucket of the event, and only that one, up by one. *)
Lemma terminal_step v baseReporter config cid e r t :
  results r !! cid = Some t ->
  terminal v cid (Emit e) = true ->
  results (step v baseReporter config (Emit e) r) !! cid = Some (bucket_of e t)
  /\ one_bucket_up t (bucket_of e t).
Proof.
  intros Ht He. unfold one_bucket_up.
  destruct e; simpl in He; try discriminate;
    try (destruct v; try discriminate);
    apply bool_decide_eq_true in He; subst cid; simpl;
    first [ rewrite (onTestState_results _ _ _ _ _ _ _ _ Ht)
          | rewrite (onTestBroken_results _ _ _ _ _ _ Ht) ];
    rewrite lookup_insert_eq; split; try reflexivity; tauto.
Qed.

Lemma same_tally_ignores cid : Ignores (same_tally cid).
Proof. split; intros; reflexivity. Qed.

Lemma same_tally_tol cid c : c <> cid -> tol_results (same_tally cid) c.
Proof.
  intros Hc t r. unfold same_tally, same. simpl.
  rewrite lookup_insert_ne by exact Hc. reflexivity.
Qed.

(** An action that is neither a terminal event of the session nor one that
    resets or renders it leaves the tally of the session alone. *)
Lemma other_step v baseReporter config cid a r :
  terminal v cid a = false ->
  resets_tally config cid a = false ->
  results (step v baseReporter config a r) !! cid = results r !! cid.
Proof.
  intros Hterm Hreset. destruct a as [e|s]; [|reflexivity].
  assert (Hnone : emit v baseReporter config e = ret tt \/
                  forall c, writes_results e = Some c -> c <> cid).
  { destruct e; simpl in *;
      try (destruct (instantReport config) eqn:Einstant; simpl in Hreset;
           [left; destruct v; unfold onRunnerEnd, printSuiteResult;
            rewrite Einstant; reflexivity|]);
      try (right; intros c Hc; inversion Hc; subst c;
           first [ apply bool_decide_eq_false in Hreset; exact Hreset
                 | apply bool_decide_eq_false in Hterm; exact Hterm ]);
      try (right; intros c Hc; discriminate Hc).
    - destruct v; [|left; reflexivity].
      right. intros c Hc. inversion Hc; subst c.
      apply bool_decide_eq_false in Hterm. exact Hterm.
    - destruct v; [left; reflexivity|].
      right. intros c Hc. inversion Hc; subst c.
      apply bool_decide_eq_false in Hterm. exact Hterm. }
  destruct Hnone as [Hnoop | Hwrites].
  - unfold step, exec. rewrite Hnoop. reflexivity.
  - apply (preserves_emit v baseReporter config (same_tally cid) (same_tally_ignores cid) e).
    + intros c Hc. apply same_tally_tol, Hwrites, Hc.
    + intros c _. split; intros; reflexivity.
    + intros _ x r'. reflexivity.
Qed.

Lemma runnerStart_results v baseReporter config runner r :
  results (step v baseReporter config (Emit (RunnerStart runner)) r) !! runner_cid runner
  = Some zero_tally.
Proof.
  unfold step, exec. simpl.
  replace (emit v baseReporter config (RunnerStart runner))
    with (onRunnerStart v config runner) by (destruct v; reflexivity).
  unfold onRunnerStart, bind, modify, get. simpl.
  destruct (startedSpecs r); simpl; [|apply lookup_insert_eq].
  destruct (instantReport config); simpl; [|apply lookup_insert_eq].
  match goal with
  | |- results (snd (printRunnerInfo v runner ?r1)) !! _ = _ =>
      pose proof (preserves_printRunnerInfo v (same results) results_ignores runner r1) as P
  end.
  unfold same in P. rewrite P. apply lookup_insert_eq.
Qed.

Lemma run_counts v baseReporter config cid post :
  forall r t,
    results r !! cid = Some t ->
    forallb (fun a => negb (resets_tally config cid a)) post = true ->
    exists t', results (run v baseReporter config post r) !! cid = Some t'
               /\ tally_total t' = tally_total t + count_terminal v cid post.
Proof.
  unfold count_terminal.
  induction post as [|a post IH]; intros r t Ht Hquiet; simpl in *.
  - exists t. split; [exact Ht|lia].
  - apply andb_true_iff in Hquiet as [Ha Hpost]. apply negb_true_iff in Ha.
    destruct (terminal v cid a) eqn:Hterm.
    + destruct a as [e|s]; [|discriminate].
      destruct (terminal_step v baseReporter config cid e r t Ht Hterm) as (Ht1 & Hup).
      destruct (IH _ _ Ht1 Hpost) as (t' & Ht' & Htotal).
      exists t'. split; [exact Ht'|].
      rewrite Htotal, (one_bucket_up_total _ _ Hup). simpl length. lia.
    + rewrite <- (other_step v baseReporter config cid a r Hterm Ha) in Ht.
      destruct (IH _ _ Ht Hpost) as (t' & Ht' & Htotal).
      exists t'. split; [exact Ht'|exact Htotal].
Qed.

(** C1 as it is stated fails on two designed paths.  In buffered mode
    ['runner:end'] renders the session and counts a test without outcome as
    pending: one is tallied with no terminal event received.  The first
    ['startSpecs'] sets the tally of its runner to zero: a passed test is
    forgotten with no ['runner:start'] in between. *)
Lemma tally_differs_from_terminal_events :
  (let actions := [Emit (RunnerStart Sample.runner); Emit (SuiteStart Sample.login);
                   Emit (SuiteEnd Sample.login); Emit (RunnerEnd Sample.runner)] in
   results (run LibReporter Sample.theme Sample.buffered actions
              (init (Sample.stats_with Sample.login_suites))) !! "0-0"
   = Some {| passing := 0; pending := 1; failing := 0; broken := 0; unverified := 0 |}
   /\ terminal_since_start LibReporter "0-0" 0 actions = 0) /\
  (let actions := [Emit (RunnerStart Sample.runner); Emit (TestPass Sample.works);
                   Emit (StartSpecs Sample.runner)] in
   results (run LibReporter Sample.theme Sample.buffered actions
              (init (Sample.stats_with []))) !! "0-0"
   = Some zero_tally
   /\ terminal_since_start LibReporter "0-0" 0 actions = 1).
Proof. split; split; vm_compute; reflexivity. Qed.

(** C1, amended.  After the ['runner:start'] of a session, and as long as
    no later event starts the session anew, resets its tally (['startSpecs']
    naming the session) or, in buffered mode, ends it (['runner:end'], which
    then counts the tests without outcome as pending), the session has a tally
    whose total [passing + pending + failing + broken + unverified] is the
    number of terminal test-state events received for the session since;
    each such event moves its own bucket, and no other, up by exactly one, a
    retried test counting once per event. *)
Theorem tally_counts_terminal_events v baseReporter config (cid : string)
    (pre post : list action) (runner : Runner) (s : Stats) :
  runner_cid runner = cid ->
  forallb (fun a => negb (resets_tally config cid a)) post = true ->
  (exists t,
     results (run v baseReporter config (pre ++ Emit (RunnerStart runner) :: post) (init s)) !! cid
       = Some t
     /\ tally_total t = count_terminal v cid post) /\
  (forall e r t,
     results r !! cid = Some t ->
     terminal v cid (Emit e) = true ->
     results (step v baseReporter config (Emit e) r) !! cid = Some (bucket_of e t)
     /\ one_bucket_up t (bucket_of e t)).
Proof.
  intros Hcid Hquiet. split.
  - rewrite run_app. simpl.
    set (r0 := run v baseReporter config pre (init s)).
    pose proof (runnerStart_results v baseReporter config runner r0) as Hstart.
    rewrite Hcid in Hstart.
    destruct (run_counts v baseReporter config cid post _ _ Hstart Hquiet) as (t & Ht & Htotal).
    exists t. split; [exact Ht|]. rewrite Htotal. reflexivity.
  - intros e r t. apply terminal_step.
Qed.

(** ** The synthetic "before all" suite: C4 *)

Lemma add_pending_0 t : add_pending 0 t = t.
Proof. destruct t. unfold add_pending. simpl. f_equal. lia. Qed.

Lemma add_pending_incr n t : add_pending n (incr_pending t) = add_pending (1 + n) t.
Proof. unfold add_pending, incr_pending. simpl. f_equal. lia. Qed.

Lemma add_pending_add n m t : add_pending n (add_pending m t) = add_pending (m + n) t.
Proof. unfold add_pending. simpl. f_equal. lia. Qed.

Lemma getSymbol_returns baseReporter state r :
  exists symbol r',
    getSymbol baseReporter state r = (Normal symbol, r') /\ results r' = results r.
Proof.
  unfold getSymbol.
  destruct (String.eqb state "pass"); [eexists _, _; split; reflexivity|].
  destruct (String.eqb state "pending"); [eexists _, _; split; reflexivity|].
  destruct (String.eqb state "fail"); [eexists _, _; split; reflexivity|].
  destruct (String.eqb state "broken"); eexists _, _; split; reflexivity.
Qed.

Lemma indent_state cid uid r : snd (indent cid uid r) = r.
Proof.
  unfold indent, bind, get. simpl.
  destruct (suiteIndents r !! cid) as [depths|]; [|reflexivity].
  destruct (depths !! uid) as [[[| |]|]|]; reflexivity.
Qed.

(** With a tally for the session, the inner loop of [getResultList] returns,
    and it has counted the tests without outcome as pending. *)
Lemma renderTests_results v baseReporter cid ref specUid preface indentation tests :
  forall output r t,
    results r !! cid = Some t ->
    exists text r',
      renderTests v baseReporter cid ref specUid preface indentation tests output r
        = (Normal text, r')
      /\ results r' !! cid = Some (add_pending (count_unset tests) t).
Proof.
  unfold count_unset.
  induction tests as [|[testUid test] rest IH]; intros output r t Ht.
  - exists output, r. split; [reflexivity|]. simpl. rewrite add_pending_0. exact Ht.
  - simpl. unfold unset at 1. simpl.
    destruct (String.eqb (ts_state test) "") eqn:Estate.
    + rewrite (bind_normal _ _ r "pending"
                 (match v with
                  | LibReporter => set_stats (set_test_state ref specUid testUid "pending" (stats (set_results (<[cid := incr_pending t]> (results r)) r))) (set_results (<[cid := incr_pending t]> (results r)) r)
                  | Part000 => set_stats (incr_counts_pending (set_test_state ref specUid testUid "pending" (stats (set_results (<[cid := incr_pending t]> (results r)) r)))) (set_results (<[cid := incr_pending t]> (results r)) r)
                  end)).
      2:{ rewrite (bind_normal _ _ _ _ _ (bump_result_defined cid incr_pending r t Ht)).
          destruct v; reflexivity. }
      rewrite (bind_normal _ _ _ "-" _ eq_refl). cbv beta.
      set (r1 := match v with LibReporter => _ | Part000 => _ end).
      assert (Hr1 : results r1 !! cid = Some (incr_pending t)).
      { subst r1. destruct v; simpl; apply lookup_insert_eq. }
      destruct (IH (output +:+ preface +:+ "   " +:+ indentation
                    +:+ color baseReporter (getColor v "pending") "-"
                    +:+ " " +:+ ts_title test +:+ JS.LF) r1 (incr_pending t) Hr1)
        as (text & r' & Hrun & Hres).
      exists text, r'. split; [exact Hrun|].
      rewrite Hres, add_pending_incr. simpl length. do 2 f_equal. lia.
    + rewrite (bind_normal _ _ r (ts_state test) r eq_refl).
      destruct (getSymbol_returns baseReporter (ts_state test) r) as (symbol & r1 & Hsym & Hsame).
      rewrite (bind_normal _ _ _ _ _ Hsym). cbv beta.
      apply IH. rewrite Hsame. exact Ht.
Qed.

Lemma renderSuites_results v baseReporter cid ref preface suites :
  forall output r t text r',
    results r !! cid = Some t ->
    renderSuites v baseReporter cid ref preface suites output r = (Normal text, r') ->
    results r' !! cid = Some (add_pending (displayed_unset suites) t).
Proof.
  induction suites as [|[specUid spec] rest IH]; intros output r t text r' Ht Hrun.
  - simpl in *. inversion Hrun; subst. rewrite add_pending_0. exact Ht.
  - simpl in *. unfold displayed. simpl.
    destruct (is_before_all specUid) eqn:Ebefore; simpl.
    + apply (IH _ _ _ _ _ Ht Hrun).
    + unfold bind at 1 in Hrun.
      pose proof (indent_state cid specUid r) as Hstate.
      destruct (indent cid specUid r) as [[indentation|e] r1]; simpl in Hstate; subst r1;
        [|discriminate].
      match type of Hrun with
      | context [renderTests _ _ _ _ _ _ _ _ ?o] =>
          destruct (renderTests_results v baseReporter cid ref specUid preface indentation
                      (ss_tests spec) o r t Ht) as (text1 & r1 & Htests & Hres)
      end.
      rewrite (bind_normal _ _ _ _ _ Htests) in Hrun. cbv beta in Hrun.
      rewrite (IH _ _ _ _ _ Hres Hrun), add_pending_add. reflexivity.
Qed.

Lemma renderSuites_displayed v baseReporter cid ref preface suites :
  forall output r,
    renderSuites v baseReporter cid ref preface suites output r
    = renderSuites v baseReporter cid ref preface (List.filter displayed suites) output r.
Proof.
  induction suites as [|[specUid spec] rest IH]; intros output r; [reflexivity|].
  simpl. unfold displayed at 1. simpl.
  destruct (is_before_all specUid) eqn:Ebefore; simpl; [apply IH|].
  rewrite Ebefore. simpl. unfold bind.
  destruct (indent cid specUid r) as [[indentation|e] r1]; [|reflexivity].
  destruct (renderTests _ _ _ _ _ _ _ _ _ r1) as [[text|e] r2]; [|reflexivity].
  apply IH.
Qed.

(** C4 as it is stated fails: a test without outcome in a synthetic
    "before all" suite is not counted.  The loop of [getResultList] leaves
    such a suite with [continue] before it looks at its tests: on a session
    whose only suite is synthetic the method returns no text and changes
    nothing, the pending tally stays 0 and the test stays without outcome;
    the same test in a displayed suite is counted. *)
Lemma before_all_tests_not_counted :
  (let r0 := run LibReporter Sample.theme Sample.buffered [Emit (RunnerStart Sample.runner)]
               (init (Sample.stats_with Sample.hook_suites)) in
   getResultList LibReporter Sample.theme "0-0" {| ref_cid := "0-0"; ref_hash := "spec1" |}
     Sample.hook_suites "[SPEC] " r0 = (Normal "", r0)
   /\ results r0 !! "0-0" = Some zero_tally) /\
  (let r0 := run LibReporter Sample.theme Sample.buffered [Emit (RunnerStart Sample.runner)]
               (init (Sample.stats_with Sample.login_suites)) in
   results (exec (getResultList LibReporter Sample.theme "0-0"
                    {| ref_cid := "0-0"; ref_hash := "spec1" |}
                    Sample.login_suites "[SPEC] ") r0) !! "0-0"
   = Some (add_pending 1 zero_tally)).
Proof. split; [split|]; vm_compute; reflexivity. Qed.

(** C4, amended.  [getResultList] skips every suite whose uid starts with
    ["before all"] (quotes included) as a whole: the text it returns and the
    reporter it leaves, tally and statistics included, are those of the
    suites without the synthetic ones, so such a suite is not rendered and
    its tests are not counted.  A test without outcome is counted as pending
    in a displayed suite only: when [getResultList] returns, the pending
    bucket of the session has gone up by the number of such tests in the
    displayed suites, and no other bucket has changed. *)
Theorem before_all_suites_skipped v baseReporter (cid : string) (ref : SuitesRef)
    (suites : list (string * SuiteStats)) (preface : string) (r : reporter)
    (t : Tally) (text : string) (r' : reporter) :
  getResultList v baseReporter cid ref suites preface r
    = getResultList v baseReporter cid ref (List.filter displayed suites) preface r /\
  (results r !! cid = Some t ->
   getResultList v baseReporter cid ref suites preface r = (Normal text, r') ->
   results r' !! cid = Some (add_pending (displayed_unset suites) t)).
Proof.
  split.
  - apply renderSuites_displayed.
  - intros Ht Hrun. exact (renderSuites_results _ _ _ _ _ _ _ _ _ _ _ Ht Hrun).
Qed.

(** ** The stack filter: C9 *)

Lemma mas_seq_void r s : Regex.matches_at_start (Regex.Seq Regex.Void r) s = false.
Proof. induction s as [|c s IH]; simpl; [reflexivity|exact IH]. Qed.

Lemma mas_seq_alt_void r s :
  Regex.matches_at_start (Regex.Seq (Regex.Alt Regex.Void Regex.Void) r) s = false.
Proof. induction s as [|c s IH]; simpl; [reflexivity|exact IH]. Qed.

Lemma mas_alt a b s :
  Regex.matches_at_start (Regex.Alt a b) s
  = Regex.matches_at_start a s || Regex.matches_at_start b s.
Proof.
  revert a b. induction s as [|c s IH]; intros a b; simpl.
  - rewrite !orb_false_r. reflexivity.
  - rewrite IH.
    destruct (Regex.nullable a), (Regex.nullable b),
      (Regex.matches_at_start (Regex.deriv c a) s); reflexivity.
Qed.

Lemma mas_eps s : Regex.matches_at_start Regex.Eps s = true.
Proof. destruct s; reflexivity. Qed.

Lemma mas_seq_eps r s :
  Regex.matches_at_start (Regex.Seq Regex.Eps r) s = Regex.matches_at_start r s.
Proof.
  destruct s as [|c s]; simpl; [reflexivity|].
  rewrite mas_alt, mas_seq_void. reflexivity.
Qed.

Lemma mas_seq_chr a r s :
  Regex.matches_at_start (Regex.Seq (Regex.Chr a) r) s
  = match s with
    | EmptyString => false
    | String c s' => Ascii.eqb c a && Regex.matches_at_start r s'
    end.
Proof.
  destruct s as [|c s]; simpl; [reflexivity|].
  destruct (Ascii.eqb c a); simpl; [apply mas_seq_eps|apply mas_seq_void].
Qed.

Lemma mas_lit p k s :
  Regex.matches_at_start (Regex.lit p k) s
  = match strip p s with
    | Some rest => Regex.matches_at_start k rest
    | None => false
    end.
Proof.
  revert s. induction p as [|a p IH]; intros s; [reflexivity|].
  cbn [Regex.lit strip]. rewrite mas_seq_chr.
  destruct s as [|c s]; [reflexivity|].
  destruct (Ascii.eqb c a); simpl; [apply IH|reflexivity].
Qed.

Lemma startsWith_strip p s :
  JS.startsWith p s = match strip p s with Some _ => true | None => false end.
Proof.
  unfold JS.startsWith. revert s.
  induction p as [|a p IH]; intros s; [destruct s; reflexivity|].
  destruct s as [|c s]; [reflexivity|]. simpl.
  destruct (ascii_dec a c) as [->|Hne].
  - rewrite Ascii.eqb_refl. apply IH.
  - destruct (Ascii.eqb_spec c a) as [->|_]; [contradiction|reflexivity].
Qed.

Lemma startsWith_snoc p a s :
  JS.startsWith (p +:+ String a "") s
  = match strip p s with
    | Some (String c _) => Ascii.eqb c a
    | _ => false
    end.
Proof.
  rewrite startsWith_strip. revert s. induction p as [|b p IH]; intros s.
  - simpl. destruct s as [|c s]; [reflexivity|]. destruct (Ascii.eqb c a); reflexivity.
  - change (String b p +:+ String a "") with (String b (p +:+ String a "")).
    cbn [strip]. destruct s as [|c s]; [reflexivity|].
    destruct (Ascii.eqb c b); [apply IH|reflexivity].
Qed.

(** Where the separator part of the filter matches: at a slash or a
    backslash. *)
Lemma mas_separator r s :
  Regex.matches_at_start
    (Regex.Seq (Regex.Alt (Regex.Chr "/") (Regex.Chr (ascii_of_nat 92))) (Regex.Star r)) s
  = match s with
    | EmptyString => false
    | String c _ => Ascii.eqb c "/" || Ascii.eqb c (ascii_of_nat 92)
    end.
Proof.
  destruct s as [|c s]; [reflexivity|].
  cbn [Regex.matches_at_start Regex.nullable Regex.deriv andb orb].
  destruct (Ascii.eqb c "/"); [destruct s; reflexivity|].
  destruct (Ascii.eqb c (ascii_of_nat 92)); [destruct s; reflexivity|].
  apply mas_seq_alt_void.
Qed.

(** [STACKTRACE_FILTER] matches at the start of [s] exactly when one of its
    four literal openings is there. *)
Lemma filter_at_start s :
  Regex.matches_at_start STACKTRACE_FILTER s
  = JS.startsWith "node_modules/" s
    || JS.startsWith ("node_modules" +:+ JS.backslash) s
    || JS.startsWith "wdio-sync/build" s
    || JS.startsWith "- - - - -" s.
Proof.
  unfold STACKTRACE_FILTER. rewrite !mas_alt, !mas_lit.
  change "node_modules/" with ("node_modules" +:+ String "/" "").
  change ("node_modules" +:+ JS.backslash)
    with ("node_modules" +:+ String (ascii_of_nat 92) "").
  rewrite !startsWith_snoc, (startsWith_strip "wdio-sync/build"),
    (startsWith_strip "- - - - -").
  destruct (strip "node_modules" s) as [[|c rest]|];
    destruct (strip "wdio-sync/build" s), (strip "- - - - -" s);
    rewrite ?mas_separator, ?mas_eps;
    repeat match goal with
           | |- context [Ascii.eqb ?x ?a] => destruct (Ascii.eqb x a)
           end;
    reflexivity.
Qed.

Lemma search_unfold r s :
  Regex.search r s
  = Regex.matches_at_start r s
    || match s with EmptyString => false | String _ s' => Regex.search r s' end.
Proof. destruct s; reflexivity. Qed.

Lemma includes_unfold p s :
  JS.includes p s
  = JS.startsWith p s
    || match s with EmptyString => false | String _ s' => JS.includes p s' end.
Proof. destruct s; reflexivity. Qed.

(** [line.match (STACKTRACE_FILTER)] finds a match exactly on the lines of
    internal tooling. *)
Lemma search_filter line :
  Regex.search STACKTRACE_FILTER line = internal_tooling line.
Proof.
  unfold internal_tooling.
  induction line as [|c line IH].
  - rewrite search_unfold, !(includes_unfold _ ""), filter_at_start, !orb_false_r.
    reflexivity.
  - rewrite search_unfold, !(includes_unfold _ (String c line)), IH, filter_at_start.
    destruct (JS.startsWith "node_modules/" (String c line)),
      (JS.startsWith ("node_modules" +:+ JS.backslash) (String c line)),
      (JS.startsWith "wdio-sync/build" (String c line)),
      (JS.startsWith "- - - - -" (String c line)),
      (JS.includes "node_modules/" line),
      (JS.includes ("node_modules" +:+ JS.backslash) line),
      (JS.includes "wdio-sync/build" line),
      (JS.includes "- - - - -" line); reflexivity.
Qed.

Lemma split_lines_single s : single_line s = true -> JS.split_lines s = [s].
Proof.
  induction s as [|c s IH]; intros H; [reflexivity|].
  simpl in *. apply andb_true_iff in H as [Hc Hs]. apply negb_true_iff in Hc.
  rewrite Hc, (IH Hs). reflexivity.
Qed.

Lemma split_lines_line a s :
  single_line a = true ->
  JS.split_lines (a +:+ JS.LF +:+ s) = a :: JS.split_lines s.
Proof.
  induction a as [|c a IH]; intros H; [reflexivity|].
  change (String c a +:+ JS.LF +:+ s) with (String c (a +:+ JS.LF +:+ s)).
  simpl in *. apply andb_true_iff in H as [Hc Ha]. apply negb_true_iff in Hc.
  rewrite Hc, (IH Ha). reflexivity.
Qed.

Lemma cleanStack_filter error text :
  stack error = Some text ->
  cleanStack (Some error)
  = Normal {| message := message error;
              stack := Some (JS.join JS.LF (List.filter kept (JS.split_lines text)));
              matcherName := matcherName error |}.
Proof.
  intros H. unfold cleanStack. rewrite H. do 4 f_equal.
  apply List.filter_ext. intros line. unfold kept, call_frame.
  rewrite search_filter. apply andb_comm.
Qed.

(** C9.  For an error object with a stack string, [cleanStack] replaces the
    stack by those of its lines that start with ["    at "] and are not lines
    of internal tooling (no [node_modules] path, no [wdio-sync/build], no
    [- - - - -] marker), joined by line feeds, and leaves the message and
    the matcher name as they are.  In particular a stack of one
    internal-tooling frame followed by one ordinary call frame becomes the
    ordinary frame alone. *)
Theorem cleanStack_keeps_call_frames (error : ErrorObj) (text tooling frame : string) :
  stack error = Some text ->
  cleanStack (Some error)
    = Normal {| message := message error;
                stack := Some (JS.join JS.LF (List.filter kept (JS.split_lines text)));
                matcherName := matcherName error |} /\
  (text = tooling +:+ JS.LF +:+ frame ->
   single_line tooling = true -> internal_tooling tooling = true ->
   single_line frame = true -> call_frame frame = true -> internal_tooling frame = false ->
   cleanStack (Some error)
     = Normal {| message := message error; stack := Some frame;
                 matcherName := matcherName error |}).
Proof.
  intros H. split; [apply cleanStack_filter, H|].
  intros -> Hline Htool Hframe Hcall Hplain.
  rewrite (cleanStack_filter _ _ H), (split_lines_line _ _ Hline),
    (split_lines_single _ Hframe).
  simpl. unfold kept. rewrite Htool, Hcall, Hplain, andb_false_r. reflexivity.
Qed.

(** ** The statements at sample inputs *)

Lemma tally_counts_terminal_events_witness :
  let post := [Emit (SuiteStart Sample.login); Emit (TestPass Sample.works);
               Emit (TestFail Sample.works); Emit (RetryFailed
                 {| step_cid := "0-0"; step_title := None; step_description := None;
                    step_arg := ArgNoKeys; step_assertion := None |});
               Emit (TestPass Sample.works); Emit (SuiteEnd Sample.login)] in
  runner_cid Sample.runner = "0-0" /\
  forallb (fun a => negb (resets_tally Sample.buffered "0-0" a)) post = true /\
  exists t,
    results (run Part000 Sample.theme Sample.buffered
               ([Emit (StartSpecs Sample.runner)] ++ Emit (RunnerStart Sample.runner) :: post)
               (init (Sample.stats_with Sample.login_suites))) !! "0-0" = Some t
    /\ tally_total t = count_terminal Part000 "0-0" post.
Proof.
  intros post. split; [reflexivity|]. split; [reflexivity|].
  exact (proj1 (tally_counts_terminal_events Part000 Sample.theme Sample.buffered "0-0"
                  [Emit (StartSpecs Sample.runner)] post Sample.runner
                  (Sample.stats_with Sample.login_suites) eq_refl eq_refl)).
Defined.

Lemma getSymbol_numbering_witness :
  let r := init (Sample.stats_with []) in
  "unverified" <> "pass" /\ "unverified" <> "pending" /\
  getSymbol Sample.theme "unverified" r
  = (Normal (pretty (errorCount r + 1) +:+ ")"), set_errorCount (errorCount r + 1) r).
Proof.
  intros r.
  assert (H1 : "unverified" <> "pass") by discriminate.
  assert (H2 : "unverified" <> "pending") by discriminate.
  split; [exact H1|]. split; [exact H2|].
  exact (proj1 (proj2 (proj2 (proj2 (proj2
           (getSymbol_numbering Sample.theme "unverified" [] r))))) H1 H2).
Defined.

Lemma balanced_suites_restore_depth_witness :
  let r := run LibReporter Sample.theme Sample.instant [Emit (RunnerStart Sample.runner)]
             (init (Sample.stats_with Sample.login_suites)) in
  let actions := [Emit (SuiteStart Sample.login); Emit (TestPass Sample.works);
                  Emit (SuiteStart Sample.form); Emit (SuiteEnd Sample.form);
                  Emit (SuiteEnd Sample.login)] in
  indents r !! "0-0" = Some (JNum 0) /\
  suiteIndents r !! "0-0" = Some ∅ /\
  balanced "0-0" actions /\
  indents (run LibReporter Sample.theme Sample.instant actions r) !! "0-0" = Some (JNum 0).
Proof.
  intros r actions.
  assert (H1 : indents r !! "0-0" = Some (JNum 0)) by reflexivity.
  assert (H2 : suiteIndents r !! "0-0" = Some ∅) by reflexivity.
  assert (H3 : balanced "0-0" actions) by reflexivity.
  split; [exact H1|]. split; [exact H2|]. split; [exact H3|].
  exact (proj1 (balanced_suites_restore_depth LibReporter Sample.theme Sample.instant "0-0"
                  r 0 ∅ actions Sample.login Sample.login H1 H2) H3).
Defined.

Lemma before_all_suites_skipped_witness :
  let r := run LibReporter Sample.theme Sample.buffered [Emit (RunnerStart Sample.runner)]
             (init (Sample.stats_with (Sample.hook_suites ++ Sample.login_suites))) in
  let ref := {| ref_cid := "0-0"; ref_hash := "spec1" |} in
  let result := getResultList LibReporter Sample.theme "0-0" ref
                  (Sample.hook_suites ++ Sample.login_suites) "[SPEC] " r in
  let text := "[SPEC]  Login" +:+ JS.LF +:+ "[SPEC]    - later" +:+ JS.LF
              +:+ "[SPEC]" +:+ JS.LF in
  results r !! "0-0" = Some zero_tally /\
  result = (Normal text, snd result) /\
  results (snd result) !! "0-0" = Some (add_pending 1 zero_tally).
Proof.
  intros r ref result text.
  assert (H1 : results r !! "0-0" = Some zero_tally) by reflexivity.
  assert (H2 : result = (Normal text, snd result)) by (vm_compute; reflexivity).
  split; [exact H1|]. split; [exact H2|].
  exact (proj2 (before_all_suites_skipped LibReporter Sample.theme "0-0" ref
                  (Sample.hook_suites ++ Sample.login_suites) "[SPEC] " r
                  zero_tally text (snd result)) H1 H2).
Defined.

Lemma indent_spaces_witness :
  let depths : gmap string jsnum := {[ "Form5" := JNum 3 ]} in
  let r := set_suiteIndents {[ "0-0" := depths ]} (init (Sample.stats_with [])) in
  suiteIndents r !! "0-0" = Some depths /\
  depths !! "Form5" = Some (JNum 3) /\
  1 <= 3 /\
  indent "0-0" "Form5" r = (Normal "        ", r).
Proof.
  intros depths r.
  assert (H1 : suiteIndents r !! "0-0" = Some depths) by reflexivity.
  assert (H2 : depths !! "Form5" = Some (JNum 3)) by reflexivity.
  assert (H3 : 1 <= 3) by lia.
  split; [exact H1|]. split; [exact H2|]. split; [exact H3|].
  exact (proj1 (proj2 (indent_spaces r "0-0" "Form5" depths 3 H1 H2) H3)).
Defined.

Lemma getSuiteResult_no_suites_witness :
  let spec := {| spec_suites := []; spec_duration := 1200 |} in
  let runnerStats := {| capabilities := Sample.chrome; sessionID := None;
                        rs_specs := {[ "spec1" := spec ]}; config_host := None |} in
  let r := run Part000 Sample.theme Sample.buffered [Emit (RunnerStart Sample.runner)]
             (init (Sample.stats_with [])) in
  runners (stats r) !! runner_cid Sample.runner = Some runnerStats /\
  rs_specs runnerStats !! getSpecHash Sample.theme Sample.runner = Some spec /\
  spec_suites spec = [] /\
  getSuiteResult Part000 Sample.theme Sample.runner r = (Normal "", r).
Proof.
  intros spec runnerStats r.
  assert (H1 : runners (stats r) !! runner_cid Sample.runner = Some runnerStats)
    by reflexivity.
  assert (H2 : rs_specs runnerStats !! getSpecHash Sample.theme Sample.runner = Some spec)
    by reflexivity.
  split; [exact H1|]. split; [exact H2|]. split; [reflexivity|].
  exact (getSuiteResult_no_suites Part000 Sample.theme Sample.runner r runnerStats spec
           H1 H2 eq_refl).
Defined.

Lemma getSummary_duration_on_first_line_witness :
  let states := tally_entries Part000 zero_tally in
  forallb (fun entry => snd entry =? 0) states = true /\
  getSummary Part000 Sample.theme states 1200 "[SPEC] " = "".
Proof.
  intros states.
  assert (H : forallb (fun entry => snd entry =? 0) states = true) by reflexivity.
  split; [exact H|].
  exact (proj2 (proj2 (getSummary_duration_on_first_line Part000 Sample.theme states
                         1200 "[SPEC] ")) H).
Defined.

Lemma getSummary_pending_label_witness :
  2 <> 0 /\
  getSummary Part000 Sample.theme ([("passing", 0)] ++ ("pending", 2) :: [("failing", 1)])
    1200 "[SPEC] "
  = getSummary Part000 Sample.theme [("passing", 0)] 1200 "[SPEC] "
    +:+ ("[SPEC] " +:+ " " +:+ color Sample.theme (Some "pending") (pretty 2)
         +:+ " " +:+ color Sample.theme (Some "pending") "skipped"
         +:+ duration_suffix Sample.theme 1200 +:+ JS.LF)
    +:+ summaryLoop Part000 Sample.theme [("failing", 1)] 1200 "[SPEC] " "" true.
Proof.
  assert (H : 2 <> 0) by lia.
  split; [exact H|].
  exact (proj1 (getSummary_pending_label Sample.theme [("passing", 0)] [("failing", 1)]
                  2 1200 "[SPEC] " H)).
Defined.

Lemma cleanStack_keeps_call_frames_witness :
  stack Sample.boom = Some (Sample.tooling_frame +:+ JS.LF +:+ Sample.spec_frame) /\
  single_line Sample.tooling_frame = true /\
  internal_tooling Sample.tooling_frame = true /\
  single_line Sample.spec_frame = true /\
  call_frame Sample.spec_frame = true /\
  internal_tooling Sample.spec_frame = false /\
  cleanStack (Some Sample.boom)
  = Normal {| message := "boom"; stack := Some Sample.spec_frame; matcherName := None |}.
Proof.
  repeat (split; [reflexivity|]).
  exact (proj2 (cleanStack_keeps_call_frames Sample.boom
                  (Sample.tooling_frame +:+ JS.LF +:+ Sample.spec_frame)
                  Sample.tooling_frame Sample.spec_frame eq_refl)
           eq_refl eq_refl eq_refl eq_refl eq_refl eq_refl).
Defined.

Lemma startedSpecs_monotonic_witness :
  let r := run LibReporter Sample.theme Sample.buffered
             [Emit (RunnerStart Sample.runner); Emit (TestPass Sample.works);
              Emit (StartSpecs Sample.runner); Emit (RunnerStart Sample.runner);
              Emit (TestFail Sample.works)]
             (init (Sample.stats_with [])) in
  startedSpecs r = true /\
  step LibReporter Sample.theme Sample.buffered (Emit (StartSpecs Sample.runner)) r = r.
Proof.
  intros r.
  assert (H : startedSpecs r = true) by reflexivity.
  split; [exact H|].
  exact (proj2 (proj2 (proj2 (startedSpecs_monotonic LibReporter Sample.theme Sample.buffered
                                [] r (Sample.stats_with []) Sample.runner))) H).
Defined.

(** * Further properties of the two classes *)

(** ** Footprints of the methods *)

Create HintDb writes.

(** A write that [R] is known to allow. *)
Ltac allowed :=
  match goal with
  | H : allows ?R ?set |- ?R _ (?set _ _) => apply H
  | H : allows_next_errorCount ?R |- ?R _ (set_errorCount _ _) => apply H
  | H : allows_next_failureCount ?R |- ?R _ (set_failureCount _ _) => apply H
  | H : allows_output ?R |- ?R _ (set_console (_ ++ [_]) _) => apply H
  | H : tol_results ?R ?c |- ?R _ (set_results (<[?c := _]> _) _) => apply H
  | H : tol_specs ?R ?c |- ?R _ (set_specs (<[?c := _]> _) _) => apply H
  | H : tol_stepIndents ?R ?c |- ?R _ (set_stepIndents (<[?c := _]> _) _) => apply H
  | H : tol_depth ?R ?c |- ?R _ (set_indents (<[?c := _]> _) _) => apply (proj1 H)
  | H : tol_depth ?R ?c |- ?R _ (set_suiteIndents (<[?c := _]> _) _) => apply (proj2 H)
  end.

(** Walks down a method body and checks every write against what [R]
    allows. *)
Ltac walk_step :=
  lazymatch goal with
  | |- PreOrder _ => typeclasses eauto
  | |- forall _, _ => intros ?
  | |- preserves _ (ret _) => apply preserves_ret
  | |- preserves _ (throw _) => apply preserves_throw
  | |- preserves _ get => apply preserves_get
  | |- preserves _ (lift _) => apply preserves_lift
  | |- preserves _ (modify _) => apply preserves_modify; intros ?; allowed
  | |- preserves _ (bind _ _) => apply preserves_bind
  | |- preserves _ (forEach _ _) => apply preserves_forEach
  | |- preserves _ (mapM _ _) => apply preserves_mapM
  | |- preserves _ (match ?x with _ => _ end) => destruct x
  | |- preserves _ _ => solve [eauto with writes typeclass_instances]
  end.

Ltac walk := repeat walk_step.

Lemma tol_results_of_allows R c : allows R set_results -> tol_results R c.
Proof. intros H t r. apply H. Qed.

#[local] Hint Resolve preserves_indent preserves_stepIndent preserves_getPhase
  preserves_bump_result tol_results_of_allows : writes.

Section Writes.

Context (v : variant) (baseReporter : BaseReporter) (config : Config).
Context (R : relation reporter) `{!PreOrder R}.

Lemma getSymbol_writes state :
  allows_next_errorCount R -> preserves R (getSymbol baseReporter state).
Proof. intros He. unfold getSymbol, nextErrorSymbol. walk. Qed.

Lemma console_log_writes text : allows_output R -> preserves R (console_log text).
Proof. intros Hc. unfold console_log. walk. Qed.

Lemma reporter_log_writes text : allows_output R -> preserves R (reporter_log text).
Proof. intros Hc. unfold reporter_log. walk. Qed.

Lemma log_writes text : allows_output R -> preserves R (log v text).
Proof.
  intros Hc. unfold log. destruct v; [apply console_log_writes|apply reporter_log_writes]; exact Hc.
Qed.

Lemma printSuitesSummary_writes : allows_output R -> preserves R printSuitesSummary.
Proof. intros Hc. unfold printSuitesSummary. walk. Qed.

#[local] Hint Resolve getSymbol_writes console_log_writes reporter_log_writes log_writes
  printSuitesSummary_writes : writes.

Lemma renderTests_writes cid ref specUid preface indentation tests output :
  (forall g, preserves R (bump_result cid g)) -> allows R set_stats ->
  allows_next_errorCount R ->
  preserves R (renderTests v baseReporter cid ref specUid preface indentation tests output).
Proof.
  intros Hr Hs He. revert output.
  induction tests as [|[testUid test] rest IH]; intros output; simpl; walk.
Qed.

#[local] Hint Resolve renderTests_writes : writes.

Lemma renderSuites_writes cid ref preface suites output :
  (forall g, preserves R (bump_result cid g)) -> allows R set_stats ->
  allows_next_errorCount R ->
  preserves R (renderSuites v baseReporter cid ref preface suites output).
Proof.
  intros Hr Hs He. revert output.
  induction suites as [|[specUid spec] rest IH]; intros output; simpl; walk.
Qed.

Lemma getResultList_writes cid ref suites preface :
  (forall g, preserves R (bump_result cid g)) -> allows R set_stats ->
  allows_next_errorCount R ->
  preserves R (getResultList v baseReporter cid ref suites preface).
Proof. apply renderSuites_writes. Qed.

Lemma failureLoop_writes failures i preface output :
  allows_next_failureCount R ->
  preserves R (failureLoop v baseReporter failures i preface output).
Proof.
  intros Hf. revert i output.
  induction failures as [|test rest IH]; intros i output; simpl; walk.
Qed.

Lemma getFailureList_writes failures preface :
  allows_next_failureCount R ->
  preserves R (getFailureList v baseReporter failures preface).
Proof. apply failureLoop_writes. Qed.

#[local] Hint Resolve getResultList_writes getFailureList_writes : writes.

Lemma printRunnerInfo_writes runner :
  allows_output R -> preserves R (printRunnerInfo v runner).
Proof. intros Hc. unfold printRunnerInfo. walk. Qed.

Lemma printSuiteTitle_writes suite :
  allows_output R -> preserves R (printSuiteTitle v suite).
Proof. intros Hc. unfold printSuiteTitle. walk. Qed.

Lemma printTestcaseTitle_writes test retry :
  allows_output R -> preserves R (printTestcaseTitle baseReporter config test retry).
Proof. intros Hc. unfold printTestcaseTitle. walk. Qed.

Lemma printTest_writes title state :
  allows_output R -> allows_next_errorCount R ->
  preserves R (printTest v baseReporter title state).
Proof. intros Hc He. unfold printTest. walk. Qed.

Lemma instantReportError_writes err errMessageColor :
  allows_output R -> preserves R (instantReportError baseReporter err errMessageColor).
Proof. intros Hc. unfold instantReportError. walk. Qed.

Lemma getSuiteResult_writes runner :
  (forall g, preserves R (bump_result (runner_cid runner) g)) -> allows R set_stats ->
  allows_next_errorCount R -> allows_next_failureCount R ->
  preserves R (getSuiteResult v baseReporter runner).
Proof. intros Hr Hs He Hf. unfold getSuiteResult. walk. Qed.

#[local] Hint Resolve printRunnerInfo_writes printSuiteTitle_writes printTestcaseTitle_writes
  printTest_writes instantReportError_writes getSuiteResult_writes : writes.

Lemma printSuiteResult_writes runner :
  (forall g, preserves R (bump_result (runner_cid runner) g)) -> allows R set_stats ->
  allows_next_errorCount R -> allows_next_failureCount R -> allows_output R ->
  preserves R (printSuiteResult v baseReporter config runner).
Proof. intros Hr Hs He Hf Hc. unfold printSuiteResult. walk. Qed.

Lemma onTestState_writes bucket state test :
  (forall g, preserves R (bump_result (test_cid test) g)) -> allows R set_currentTest ->
  allows_output R -> allows_next_errorCount R ->
  preserves R (onTestState v baseReporter config bucket state test).
Proof. intros Hr Ht Hc He. unfold onTestState. walk. Qed.

End Writes.

#[local] Hint Resolve getSymbol_writes console_log_writes reporter_log_writes log_writes
  printSuitesSummary_writes getResultList_writes getFailureList_writes
  printRunnerInfo_writes printSuiteTitle_writes printTestcaseTitle_writes
  printTest_writes instantReportError_writes getSuiteResult_writes
  printSuiteResult_writes onTestState_writes : writes.

(** Collects, for a relation [R], every write that [tac] shows it to
    allow. *)
Ltac collect_allowed R tac :=
  try (assert (allows R set_errorCount) by (intros ? ?; tac));
  try (assert (allows R set_failureCount) by (intros ? ?; tac));
  try (assert (allows R set_indents) by (intros ? ?; tac));
  try (assert (allows R set_stepIndents) by (intros ? ?; tac));
  try (assert (allows R set_suiteIndents) by (intros ? ?; tac));
  try (assert (allows R set_specs) by (intros ? ?; tac));
  try (assert (allows R set_results) by (intros ? ?; tac));
  try (assert (allows R set_startedSpecs) by (intros ? ?; tac));
  try (assert (allows R set_retryCount) by (intros ? ?; tac));
  try (assert (allows R set_currentTest) by (intros ? ?; tac));
  try (assert (allows R set_currentSuite) by (intros ? ?; tac));
  try (assert (allows R set_stats) by (intros ? ?; tac));
  try (assert (allows_output R) by (intros ? ?; tac));
  try (assert (allows_next_errorCount R) by (intros ?; tac));
  try (assert (allows_next_failureCount R) by (intros ?; tac)).

Ltac unfold_listeners :=
  unfold onStartSpecs, onRunnerStart, onRunnerInit, onSuiteStart, onTestSetCurrentId,
    onTestBroken, onValidateFailure, onSuiteEnd, onRunnerEnd, onEnd, onStepStart,
    onRetryFailed, onRetryBroken, onRetryValidateFailure, onStepEnd, reprintTestcase,
    reset_stepIndents.

(** ** Sessions do not interfere *)

Lemma session_view_tolerant cid c :
  c <> cid ->
  tol_results (same (session_view cid)) c /\ tol_depth (same (session_view cid)) c
  /\ tol_specs (same (session_view cid)) c /\ tol_stepIndents (same (session_view cid)) c.
Proof.
  intros Hc. unfold tol_results, tol_depth, tol_specs, tol_stepIndents, same, session_view.
  repeat split; intros; simpl; rewrite lookup_insert_ne by exact Hc; reflexivity.
Qed.

(** An event that names another session, or none, leaves everything the
    reporter keeps for session [cid] as it is: its tally, its depth counter
    and depth map, its spec files and its step depth.  This holds in both
    classes and every mode, whether the listener returns or throws. *)
Theorem other_sessions_untouched v baseReporter config (e : event) (cid : string)
    (r : reporter) :
  event_cid e <> Some cid ->
  session_view cid (step v baseReporter config (Emit e) r) = session_view cid r.
Proof.
  intros He.
  set (R := same (session_view cid)).
  collect_allowed R ltac:(unfold R, same; reflexivity).
  assert (Htol : forall c, event_cid e = Some c ->
            tol_results R c /\ tol_depth R c /\ tol_specs R c /\ tol_stepIndents R c).
  { intros c Hc. apply session_view_tolerant. congruence. }
  cut (preserves R (emit v baseReporter config e)); [intros P; apply P|].
  clear He.
  destruct e; simpl in Htol;
    try (destruct (Htol _ eq_refl) as (Hres & Hdepth & Hspecs & Hsteps));
    clear Htol; destruct v; simpl; unfold_listeners; walk.
Qed.

(** ['runner:start'] sets the session up anew whatever it held before: the
    tally is all zero, the depth counter 0, the depth map empty and the spec
    files are those of the runner; the step depth of the session is not
    touched.  This holds also when, in instant mode, printing the runner
    banner throws. *)
Theorem runnerStart_resets_session v baseReporter config (runner : Runner) (r : reporter) :
  session_view (runner_cid runner) (step v baseReporter config (Emit (RunnerStart runner)) r)
  = (Some zero_tally, Some (JNum 0), Some ∅, Some (runner_specs runner),
     stepIndents r !! runner_cid runner).
Proof.
  unfold step, exec.
  replace (emit v baseReporter config (RunnerStart runner))
    with (onRunnerStart v config runner) by (destruct v; reflexivity).
  unfold onRunnerStart, bind, modify, get. simpl.
  set (r1 := set_results _ _).
  assert (H1 : session_view (runner_cid runner) r1
               = (Some zero_tally, Some (JNum 0), Some ∅, Some (runner_specs runner),
                  stepIndents r !! runner_cid runner)).
  { unfold session_view, r1. simpl. rewrite !lookup_insert_eq. reflexivity. }
  destruct (startedSpecs r); simpl; [|exact H1].
  destruct (instantReport config); simpl; [|exact H1].
  rewrite <- H1.
  set (R := same (session_view (runner_cid runner))).
  collect_allowed R ltac:(unfold R, same; reflexivity).
  apply (printRunnerInfo_writes v R runner); assumption.
Qed.

(** ** Buffered mode is silent until the session ends *)

Lemma logSteps_off config : logTestcases config = false -> logSteps config = false.
Proof.
  unfold logTestcases, logSteps. intros H. apply orb_false_elim in H as [_ H]. exact H.
Qed.

(** In buffered mode, and in [src/unnamed/part_000] with instant errors and
    testcase titles off, no listener writes to the output except that of
    ['runner:end'], which prints the session, and those of ['end'] and (in
    [src/lib/reporter.js]) ['startSpecs'], which run the epilogue. *)
Theorem buffered_mode_silent v baseReporter config (e : event) (r : reporter) :
  buffered_quiet v config = true ->
  speaks v e = false ->
  console (step v baseReporter config (Emit e) r) = console r.
Proof.
  intros Hquiet Hspeaks.
  unfold buffered_quiet in Hquiet. apply andb_true_iff in Hquiet as [Hinst Hextra].
  apply negb_true_iff in Hinst.
  set (R := same console).
  collect_allowed R ltac:(unfold R, same; reflexivity).
  cut (preserves R (emit v baseReporter config e)); [intros P; apply P|].
  destruct v.
  - destruct e; simpl in *; try discriminate; unfold_listeners; unfold onTestState;
      repeat first [ progress (rewrite ?Hinst; cbn [andb negb orb]) | walk_step ].
  - apply andb_true_iff in Hextra as [Herr Hlog].
    apply negb_true_iff in Herr. apply negb_true_iff in Hlog.
    pose proof (logSteps_off _ Hlog) as Hsteps.
    destruct e; simpl in *; try discriminate; unfold_listeners; unfold onTestState;
      repeat first [ progress (rewrite ?Hinst, ?Herr, ?Hlog, ?Hsteps, ?andb_false_r;
                               cbn [andb negb orb])
                   | walk_step ].
Qed.

(** The reporter writes to the statistics of the host only when it renders
    a session: no listener but that of ['runner:end'] changes them, and in
    instant mode that one does not either. *)
Theorem stats_written_only_at_runnerEnd v baseReporter config (e : event) (r : reporter) :
  is_runnerEnd e = false \/ instantReport config = true ->
  stats (step v baseReporter config (Emit e) r) = stats r.
Proof.
  intros Hcase.
  set (R := same stats).
  collect_allowed R ltac:(unfold R, same; reflexivity).
  assert (Htol : forall c, tol_results R c /\ tol_depth R c /\ tol_specs R c
                           /\ tol_stepIndents R c).
  { intros c. unfold tol_results, tol_depth, tol_specs, tol_stepIndents, R, same.
    repeat split; intros; reflexivity. }
  cut (preserves R (emit v baseReporter config e)); [intros P; apply P|].
  destruct e; simpl in Hcase;
    try (destruct Hcase as [Hcase|Hinst]; [discriminate Hcase|];
         destruct v; simpl; unfold onRunnerEnd, printSuiteResult; rewrite Hinst; simpl;
         apply preserves_ret; typeclasses eauto);
    destruct v; simpl; unfold_listeners; walk.
Qed.

(** ** Events of a session that was never started *)

#[local] Instance still_no_tally_preorder cid : PreOrder (still_no_tally cid).
Proof.
  split.
  - intros r H. exact H.
  - intros r1 r2 r3 H12 H23 H. apply H23, H12, H.
Qed.

Lemma bump_result_no_tally cid c g : preserves (still_no_tally cid) (bump_result c g).
Proof.
  intros r. unfold bump_result, bind, get, still_no_tally. simpl.
  destruct (results r !! c) as [t|] eqn:E; simpl; [|tauto].
  intros Hnone. destruct (decide (c = cid)) as [->|Hne]; [congruence|].
  rewrite lookup_insert_ne by exact Hne. exact Hnone.
Qed.

Lemma step_keeps_no_tally v baseReporter config cid a r :
  starts_session cid a = false ->
  results r !! cid = None ->
  results (step v baseReporter config a r) !! cid = None.
Proof.
  intros Ha. destruct a as [e|s]; [|intros H; exact H].
  set (R := still_no_tally cid).
  collect_allowed R ltac:(unfold R, still_no_tally; simpl; tauto).
  assert (Hbump : forall c g, preserves R (bump_result c g))
    by (intros; apply bump_result_no_tally).
  assert (Htol : forall c, tol_depth R c /\ tol_specs R c /\ tol_stepIndents R c).
  { intros c. unfold tol_depth, tol_specs, tol_stepIndents, R, still_no_tally.
    repeat split; intros; simpl; assumption. }
  assert (Hother : forall c, c <> cid -> tol_results R c).
  { intros c Hc t r' Hnone. simpl. rewrite lookup_insert_ne by exact Hc. exact Hnone. }
  cut (preserves R (emit v baseReporter config e)); [intros P; apply P|].
  destruct e; simpl in Ha;
    try (apply bool_decide_eq_false in Ha; pose proof (Hother _ Ha) as Hres);
    try (destruct (Htol (runner_cid runner)) as (Hdepth & Hspecs & Hsteps));
    try (destruct (Htol (suite_cid suite)) as (Hdepth & Hspecs & Hsteps));
    try (destruct (Htol (test_cid test)) as (Hdepth & Hspecs & Hsteps));
    try (destruct (Htol (step_cid step0)) as (Hdepth & Hspecs & Hsteps));
    destruct v; simpl; unfold_listeners; walk.
Qed.

Lemma terminal_without_tally v baseReporter config cid e r :
  results r !! cid = None ->
  terminal v cid (Emit e) = true ->
  emit v baseReporter config e r = (Throw JS.TypeError, r).
Proof.
  intros Hnone He.
  destruct e; simpl in He; try discriminate;
    try (destruct v; try discriminate);
    apply bool_decide_eq_true in He; subst cid; simpl;
    unfold onTestBroken, onTestState, bump_result, bind, get; simpl;
    rewrite Hnone; reflexivity.
Qed.

(** A session has no tally until its ['runner:start'] (or a ['startSpecs']
    that names it) has come: after any run of the freshly built reporter
    without such an event, [results[cid]] is missing, and every terminal
    test-state event of the session throws a [TypeError] and leaves the
    reporter as it is. *)
Theorem unstarted_session_throws v baseReporter config (cid : string)
    (actions : list action) (s : Stats) (e : event) :
  forallb (fun a => negb (starts_session cid a)) actions = true ->
  terminal v cid (Emit e) = true ->
  let r := run v baseReporter config actions (init s) in
  results r !! cid = None /\
  emit v baseReporter config e r = (Throw JS.TypeError, r).
Proof.
  intros Hquiet He r.
  assert (Hnone : results r !! cid = None).
  { subst r. generalize (init s) (eq_refl : results (init s) !! cid = None).
    induction actions as [|a actions IH]; intros r0 H0; simpl in *; [exact H0|].
    apply andb_true_iff in Hquiet as [Ha Hrest]. apply negb_true_iff in Ha.
    apply (IH Hrest). apply step_keeps_no_tally; assumption. }
  split; [exact Hnone|]. apply (terminal_without_tally _ _ _ cid); assumption.
Qed.

(** In instant mode a test is printed under the current suite.  When no
    suite has started, a terminal test-state event of a session with a tally
    is counted first and throws a [TypeError] then: the bucket of the event
    is one up, the current test is cleared, nothing is printed and no
    failure number is used. *)
Theorem instant_test_without_suite v baseReporter config (cid : string) (e : event)
    (r : reporter) (t : Tally) :
  instantReport config = true ->
  currentSuite r = None ->
  results r !! cid = Some t ->
  terminal v cid (Emit e) = true ->
  emit v baseReporter config e r
  = (Throw JS.TypeError,
     set_currentTest None (set_results (<[cid := bucket_of e t]> (results r)) r)).
Proof.
  intros Hinst Hsuite Ht He.
  destruct e; simpl in He; try discriminate;
    try (destruct v; try discriminate);
    apply bool_decide_eq_true in He; subst cid; simpl;
    unfold onTestBroken, onTestState, printTest, bump_result, getPhase, bind, get, modify;
    simpl; rewrite Ht; simpl; rewrite Hinst; simpl;
    destruct (startedSpecs r); simpl; rewrite Hsuite; reflexivity.
Qed.

(** ** The failure counters never go down *)

#[local] Instance counters_grow_preorder : PreOrder counters_grow.
Proof.
  split.
  - intros r. unfold counters_grow. lia.
  - intros r1 r2 r3. unfold counters_grow. lia.
Qed.

Lemma step_counters_grow v baseReporter config a r :
  is_startSpecs a = false \/ startedSpecs r = true ->
  counters_grow r (step v baseReporter config a r).
Proof.
  intros Hcase. destruct a as [e|s]; [|unfold counters_grow; simpl; lia].
  destruct (is_startSpecs (Emit e)) eqn:Estart.
  - destruct Hcase as [Hcase|Hstarted]; [discriminate|].
    destruct e; simpl in Estart; try discriminate.
    rewrite startSpecs_again_noop by exact Hstarted. reflexivity.
  - clear Hcase. set (R := counters_grow).
    collect_allowed R ltac:(unfold R, counters_grow; simpl; lia).
    assert (Htol : forall c, tol_results R c /\ tol_depth R c /\ tol_specs R c
                             /\ tol_stepIndents R c).
    { intros c. unfold tol_results, tol_depth, tol_specs, tol_stepIndents, R, counters_grow.
      repeat split; intros; simpl; lia. }
    cut (preserves R (emit v baseReporter config e)); [intros P; apply P|].
    destruct e; simpl in Estart; try discriminate;
      try (destruct (Htol (runner_cid runner)) as (Hres & Hdepth & Hspecs & Hsteps));
      try (destruct (Htol (suite_cid suite)) as (Hres & Hdepth & Hspecs & Hsteps));
      try (destruct (Htol (test_cid test)) as (Hres & Hdepth & Hspecs & Hsteps));
      try (destruct (Htol (step_cid step0)) as (Hres & Hdepth & Hspecs & Hsteps));
      destruct v; simpl; unfold_listeners; walk.
Qed.

(** The two failure counters, [errorCount] for the symbols and
    [failureCount] for the failure list, never go down, whatever events come
    and whether listeners throw; the only listener that sets them back is
    that of the first ['startSpecs'].  So over a run that begins in the spec
    phase, or has no ['startSpecs'], every counter ends at least where it
    began. *)
Theorem failure_counters_never_decrease v baseReporter config
    (actions : list action) (r : reporter) :
  startedSpecs r = true \/ emits_startSpecs actions = false ->
  errorCount r <= errorCount (run v baseReporter config actions r) /\
  failureCount r <= failureCount (run v baseReporter config actions r).
Proof.
  revert r. induction actions as [|a actions IH]; intros r Hcase; simpl.
  - lia.
  - assert (Hstep : is_startSpecs a = false \/ startedSpecs r = true).
    { destruct Hcase as [H|H]; [right; exact H|].
      left. unfold emits_startSpecs in H. simpl in H.
      apply orb_false_elim in H as [H _]. exact H. }
    pose proof (step_counters_grow v baseReporter config a r Hstep) as Hgrow.
    assert (Hnext : startedSpecs (step v baseReporter config a r) = true
                    \/ emits_startSpecs actions = false).
    { destruct Hcase as [H|H].
      - left. pose proof (run_phase v baseReporter config [a] r) as Hphase.
        simpl in Hphase. rewrite Hphase, H. reflexivity.
      - right. unfold emits_startSpecs in *. simpl in H.
        apply orb_false_elim in H as [_ H]. exact H. }
    specialize (IH _ Hnext). unfold counters_grow in Hgrow. lia.
Qed.

(** ** The retry counter of [src/unnamed/part_000] *)

Lemma bind_get {B} (k : reporter -> M B) r : bind get k r = k r r.
Proof. reflexivity. Qed.

Lemma after_modify {A} (R : relation reporter) f (k : M A) r :
  preserves R k -> R (f r) (snd (bind (modify f) (fun _ => k) r)).
Proof. intros P. unfold bind, modify. simpl. apply P. Qed.

Lemma step_retryCount v baseReporter config a r :
  retryCount (step v baseReporter config a r) = retries_after v (retryCount r) [a].
Proof.
  destruct a as [e|s]; [|reflexivity].
  set (R := same retryCount).
  collect_allowed R ltac:(unfold R, same; reflexivity).
  assert (Htol : forall c, tol_results R c /\ tol_depth R c /\ tol_specs R c
                           /\ tol_stepIndents R c).
  { intros c. unfold tol_results, tol_depth, tol_specs, tol_stepIndents, R, same.
    repeat split; intros; reflexivity. }
  assert (Hother : preserves R (emit v baseReporter config e) ->
                   retryCount (step v baseReporter config (Emit e) r) = retryCount r).
  { intros P. apply P. }
  destruct e;
    try (destruct (Htol (runner_cid runner)) as (Hres & Hdepth & Hspecs & Hsteps));
    try (destruct (Htol (suite_cid suite)) as (Hres & Hdepth & Hspecs & Hsteps));
    try (destruct (Htol (test_cid test)) as (Hres & Hdepth & Hspecs & Hsteps));
    try (destruct (Htol (step_cid step0)) as (Hres & Hdepth & Hspecs & Hsteps));
    destruct v;
    try (simpl retries_after; apply Hother; simpl; unfold_listeners; walk; fail).
  - (* test:setCurrentId *)
    simpl. unfold exec, onTestSetCurrentId.
    match goal with
    | |- retryCount (snd (bind (modify ?f) (fun _ => ?k) r)) = _ =>
        assert (P : preserves R k) by walk;
        exact (after_modify R f k r P)
    end.
  - (* retry:failed *)
    simpl. unfold exec, onRetryFailed.
    match goal with
    | |- retryCount (snd (bind (modify ?f) (fun _ => ?k) r)) = _ =>
        assert (P : preserves R k) by (unfold_listeners; walk);
        exact (after_modify R f k r P)
    end.
  - (* retry:broken *)
    simpl. unfold exec, onRetryBroken.
    match goal with
    | |- retryCount (snd (bind (modify ?f) (fun _ => ?k) r)) = _ =>
        assert (P : preserves R k) by (unfold_listeners; walk);
        exact (after_modify R f k r P)
    end.
Qed.

(** In [src/unnamed/part_000] the retry counter is, after any run, the
    number of ['retry:failed'] and ['retry:broken'] events since the last
    ['test:setCurrentId'] (added to the counter before the run when there was
    none), also when a listener threw on the way; in [src/lib/reporter.js],
    which listens to none of these events, it never changes. *)
Theorem retryCount_counts_retries v baseReporter config (actions : list action)
    (r : reporter) :
  retryCount (run v baseReporter config actions r) = retries_after v (retryCount r) actions.
Proof.
  revert r. induction actions as [|a actions IH]; intros r; [reflexivity|].
  simpl run. rewrite IH, step_retryCount.
  destruct a as [[]|]; destruct v; reflexivity.
Qed.

(** ** Steps of [src/unnamed/part_000] *)

Lemma join_holes_single_spaces n : JS.join_holes (S n) " " = spaces n.
Proof.
  induction n as [|n IH]; [reflexivity|].
  change (JS.join_holes (S (S n)) " ") with (" " +:+ JS.join_holes (S n) " ").
  rewrite IH. reflexivity.
Qed.

Lemma stepIndent_at_depth cid k r :
  stepIndents r !! cid = Some (JNum k) -> 0 <= k ->
  stepIndent cid 0 r = (Normal (spaces (Z.to_nat (2 * k))), r).
Proof.
  unfold stepIndent, bind, get. simpl. intros -> Hk. simpl.
  destruct (1 + 0 + k * 2) as [|p|p] eqn:E; try lia.
  unfold lift, JS.Array_join. change (Z.pos p <? 0) with false. cbv iota.
  destruct (Z.to_nat (Z.pos p)) as [|n] eqn:En; [lia|].
  rewrite join_holes_single_spaces. do 3 f_equal. lia.
Qed.

(** [stepIndent (cid)] returns two spaces per open step: for a step depth
    [k >= 0] a string of [2 * k] spaces.  It throws a [RangeError] when the
    session has no step depth (the sum is [NaN]) or a negative one (the
    array length is negative).  It never changes the reporter. *)
Theorem stepIndent_two_spaces_per_step (cid : string) (k : Z) (r : reporter) :
  (stepIndents r !! cid = Some (JNum k) -> 0 <= k ->
   stepIndent cid 0 r = (Normal (spaces (Z.to_nat (2 * k))), r)) /\
  (stepIndents r !! cid = Some (JNum k) -> k < 0 ->
   stepIndent cid 0 r = (Throw JS.RangeError, r)) /\
  (stepIndents r !! cid = None \/ stepIndents r !! cid = Some JNaN ->
   stepIndent cid 0 r = (Throw JS.RangeError, r)).
Proof.
  split; [apply stepIndent_at_depth|].
  unfold stepIndent, bind, get. simpl. split.
  - intros -> Hk. simpl.
    destruct (1 + 0 + k * 2) as [|p|p] eqn:E; try lia. reflexivity.
  - intros [-> | ->]; reflexivity.
Qed.

Lemma stepStart_titled config step r n :
  logSteps config = true -> startedSpecs r = false ->
  JS.truthy (step_title step) = true ->
  stepIndents r !! step_cid step = Some (JNum n) ->
  forall baseReporter,
    stepIndents (exec (onStepStart baseReporter config step) r) !! step_cid step
    = Some (JNum (n + 1)).
Proof.
  intros Hlog Hphase Htitle Hn baseReporter.
  unfold exec, onStepStart. rewrite bind_get.
  rewrite Htitle, Hphase, Hlog. cbn [andb negb].
  set (R := same stepIndents).
  collect_allowed R ltac:(unfold R, same; reflexivity).
  match goal with
  | |- stepIndents (snd (bind (modify ?f) (fun _ => ?k) r)) !! _ = _ =>
      assert (P : preserves R k) by walk;
      rewrite (after_modify R f k r P)
  end.
  simpl. rewrite lookup_insert_eq, Hn. reflexivity.
Qed.

(** With the log level ['steps'], before the spec phase, a ['step:start']
    with a title raises the step depth of its session by one (also when the
    listener throws afterwards on a malformed [step.arg]) and a ['step:end']
    lowers it by one, title or not.  A ['step:start'] without a title does
    nothing at all, so a step with a title leaves the depth where it was and
    a step without one leaves it one lower. *)
Theorem step_depth_moves baseReporter config (st : Step) (r : reporter) (n : Z) :
  logSteps config = true ->
  startedSpecs r = false ->
  stepIndents r !! step_cid st = Some (JNum n) ->
  (JS.truthy (step_title st) = true ->
   stepIndents (step Part000 baseReporter config (Emit (StepStart st)) r) !! step_cid st
     = Some (JNum (n + 1)) /\
   stepIndents (run Part000 baseReporter config [Emit (StepStart st); Emit (StepEnd st)] r)
     !! step_cid st = Some (JNum n)) /\
  (JS.truthy (step_title st) = false ->
   step Part000 baseReporter config (Emit (StepStart st)) r = r /\
   stepIndents (run Part000 baseReporter config [Emit (StepStart st); Emit (StepEnd st)] r)
     !! step_cid st = Some (JNum (n - 1))) /\
  stepIndents (step Part000 baseReporter config (Emit (StepEnd st)) r) !! step_cid st
    = Some (JNum (n - 1)).
Proof.
  intros Hlog Hphase Hn.
  assert (Hend : forall r' m, startedSpecs r' = false ->
            stepIndents r' !! step_cid st = Some (JNum m) ->
            stepIndents (step Part000 baseReporter config (Emit (StepEnd st)) r')
              !! step_cid st = Some (JNum (m - 1))).
  { intros r' m Hp Hm. unfold step, exec. simpl.
    unfold onStepEnd, bind, get, modify. simpl. rewrite Hp, Hlog. simpl.
    rewrite lookup_insert_eq, Hm. reflexivity. }
  split; [|split].
  - intros Htitle.
    pose proof (stepStart_titled config st r n Hlog Hphase Htitle Hn baseReporter) as Hstart.
    split; [exact Hstart|].
    change (run Part000 baseReporter config [Emit (StepStart st); Emit (StepEnd st)] r)
      with (step Part000 baseReporter config (Emit (StepEnd st))
              (step Part000 baseReporter config (Emit (StepStart st)) r)).
    rewrite (Hend _ (n + 1)).
    + do 2 f_equal. lia.
    + rewrite (step_keeps_phase Part000 baseReporter config (Emit (StepStart st)) r eq_refl).
      exact Hphase.
    + exact Hstart.
  - intros Htitle.
    assert (Hnoop : step Part000 baseReporter config (Emit (StepStart st)) r = r).
    { unfold step, exec. simpl. unfold onStepStart, bind, get. simpl.
      rewrite Htitle. reflexivity. }
    split; [exact Hnoop|].
    change (run Part000 baseReporter config [Emit (StepStart st); Emit (StepEnd st)] r)
      with (step Part000 baseReporter config (Emit (StepEnd st))
              (step Part000 baseReporter config (Emit (StepStart st)) r)).
    rewrite Hnoop. apply Hend; assumption.
  - apply Hend; assumption.
Qed.

(** Outside the step log, step events are inert: in [src/lib/reporter.js],
    and in [src/unnamed/part_000] once the spec phase has started or when
    the log level is not ['steps'], ['step:start'] and ['step:end'] leave
    the reporter exactly as it is. *)
Theorem step_events_inert v baseReporter config (st : Step) (r : reporter) :
  v = LibReporter \/ startedSpecs r = true \/ logSteps config = false ->
  step v baseReporter config (Emit (StepStart st)) r = r /\
  step v baseReporter config (Emit (StepEnd st)) r = r.
Proof.
  intros Hcase. destruct v; [split; reflexivity|].
  destruct Hcase as [Hv|[Hphase|Hlog]]; [discriminate| |];
    unfold step, exec; simpl; unfold onStepStart, onStepEnd, bind, get; simpl;
    rewrite ?Hphase, ?Hlog, ?andb_false_r; simpl; split; reflexivity.
Qed.

(** ** [indent] on what it cannot indent *)

(** [indent (cid, uid)] throws a [TypeError] when the session has no depth
    map (no ['runner:start'] yet), returns the empty string for a uid the map
    does not hold (no ['suite:start'] for it), and throws a [RangeError] when
    the recorded depth is negative or [NaN]; in no case does it change the
    reporter. *)
Theorem indent_edge_cases (cid uid : string) (r : reporter)
    (depths : gmap string jsnum) (d : Z) :
  (suiteIndents r !! cid = None -> indent cid uid r = (Throw JS.TypeError, r)) /\
  (suiteIndents r !! cid = Some depths -> depths !! uid = None ->
   indent cid uid r = (Normal "", r)) /\
  (suiteIndents r !! cid = Some depths -> depths !! uid = Some (JNum d) -> d < 0 ->
   indent cid uid r = (Throw JS.RangeError, r)) /\
  (suiteIndents r !! cid = Some depths -> depths !! uid = Some JNaN ->
   indent cid uid r = (Throw JS.RangeError, r)).
Proof.
  unfold indent, bind, get. simpl. repeat split.
  - intros ->. reflexivity.
  - intros -> ->. reflexivity.
  - intros -> -> Hd. destruct d as [|p|p]; try lia. reflexivity.
  - intros -> ->. reflexivity.
Qed.

(** ** The failure list *)






Lemma failureLoop_lib_stateless baseReporter preface failures :
  forall i output,
  exists c, forall r,
    failureLoop LibReporter baseReporter failures i preface output r = (c, r).
Proof.
  induction failures as [|test rest IH]; intros i output.
  - exists (Normal output). reflexivity.
  - simpl. unfold bind, ret, lift.
    destruct (printFailureErrs LibReporter baseReporter test preface) as [errors|e].
    + apply IH.
    + exists (Throw e). reflexivity.
Qed.

(** In [src/lib/reporter.js] the failure list does not depend on the
    reporter and does not change it: whatever [errorCount] has reached for
    the symbols of the result list, the failures of a call are numbered by
    their position in that call, and the same failures always give the same
    text. *)
Theorem getFailureList_lib_stateless baseReporter (failures : list Failure)
    (preface : string) :
  exists c, forall r,
    getFailureList LibReporter baseReporter failures preface r = (c, r).
Proof. apply failureLoop_lib_stateless. Qed.

Lemma failureLoop_part000_index baseReporter preface failures :
  forall i j output r,
    failureLoop Part000 baseReporter failures i preface output r
    = failureLoop Part000 baseReporter failures j preface output r.
Proof.
  induction failures as [|test rest IH]; intros i j output r; [reflexivity|].
  simpl. unfold bind, ret, lift, modify, get, throw. cbv beta iota.
  destruct (f_printTitle test) as [title|]; [|reflexivity].
  destruct (printFailureErrs Part000 baseReporter test preface) as [errors|e]; [|reflexivity].
  apply IH.
Qed.

Lemma failureLoop_output v baseReporter preface failures :
  forall i output r,
    failureLoop v baseReporter failures i preface output r
    = match failureLoop v baseReporter failures i preface "" r with
      | (Normal text, r') => (Normal (output +:+ text), r')
      | (Throw e, r') => (Throw e, r')
      end.
Proof.
  induction failures as [|test rest IH]; intros i output r.
  - simpl. unfold ret. rewrite append_nil_r. reflexivity.
  - simpl. unfold bind.
    match goal with
    | |- context [match ?h r with _ => _ end] => destruct (h r) as [[header|e] r1]
    end; [|reflexivity].
    destruct (lift (printFailureErrs v baseReporter test preface) r1) as [[errors|e] r2];
      [|reflexivity].
    rewrite (IH _ (output +:+ header +:+ errors)), (IH _ ("" +:+ header +:+ errors)).
    destruct (failureLoop v baseReporter rest (i + 1) preface "" r2) as [[text|e] r3];
      [|reflexivity].
    change ("" +:+ header +:+ errors) with (header +:+ errors).
    rewrite !append_assoc. reflexivity.
Qed.

Lemma failureLoop_app v baseReporter preface l1 l2 :
  forall i output r,
    failureLoop v baseReporter (l1 ++ l2) i preface output r
    = match failureLoop v baseReporter l1 i preface output r with
      | (Normal text, r') =>
          failureLoop v baseReporter l2 (i + Z.of_nat (length l1)) preface text r'
      | (Throw e, r') => (Throw e, r')
      end.
Proof.
  induction l1 as [|test rest IH]; intros i output r.
  - simpl. unfold ret. rewrite Z.add_0_r. reflexivity.
  - cbn [app length]. simpl failureLoop. unfold bind.
    match goal with
    | |- context [match ?h r with _ => _ end] => destruct (h r) as [[header|e] r1]
    end; [|reflexivity].
    destruct (lift (printFailureErrs v baseReporter test preface) r1) as [[errors|e] r2];
      [|reflexivity].
    rewrite IH.
    replace (i + 1 + Z.of_nat (length rest)) with (i + Z.of_nat (S (length rest))) by lia.
    reflexivity.
Qed.

(** In [src/unnamed/part_000] the failure list of [l1 ++ l2] is the list of
    [l1] followed by the list of [l2] made by the reporter that the first
    call has left: the numbers of a call go on where the call before it
    stopped, and a throw in the first part stops the whole. *)
Theorem getFailureList_part000_continues baseReporter (l1 l2 : list Failure)
    (preface : string) (r : reporter) :
  getFailureList Part000 baseReporter (l1 ++ l2) preface r
  = match getFailureList Part000 baseReporter l1 preface r with
    | (Normal text1, r1) =>
        match getFailureList Part000 baseReporter l2 preface r1 with
        | (Normal text2, r2) => (Normal (text1 +:+ text2), r2)
        | (Throw e, r2) => (Throw e, r2)
        end
    | (Throw e, r1) => (Throw e, r1)
    end.
Proof.
  unfold getFailureList. rewrite failureLoop_app.
  destruct (failureLoop Part000 baseReporter l1 0 preface "" r) as [[text1|e] r1];
    [|reflexivity].
  rewrite failureLoop_output.
  rewrite (failureLoop_part000_index _ _ _ (0 + Z.of_nat (length l1)) 0).
  reflexivity.
Qed.

(** ** Rendering a session *)

Lemma count_numbered_cons state states :
  count_numbered (state :: states)
  = (if numbered state then 1 else 0) + count_numbered states.
Proof.
  unfold count_numbered. cbn [List.filter].
  destruct (numbered state); cbn [length]; lia.
Qed.

Lemma getSymbol_errorCount baseReporter state r :
  exists symbol r',
    getSymbol baseReporter state r = (Normal symbol, r')
    /\ errorCount r' = errorCount r + (if numbered state then 1 else 0).
Proof.
  unfold getSymbol, numbered, nextErrorSymbol.
  destruct (String.eqb state "pass"); simpl; [eexists _, _; split; [reflexivity|lia]|].
  destruct (String.eqb state "pending"); simpl; [eexists _, _; split; [reflexivity|lia]|].
  destruct (String.eqb state "fail"); [eexists _, _; split; reflexivity|].
  destruct (String.eqb state "broken"); eexists _, _; split; reflexivity.
Qed.

Lemma renderTests_errorCount v baseReporter cid ref specUid preface indentation tests :
  forall output r text r',
    renderTests v baseReporter cid ref specUid preface indentation tests output r
      = (Normal text, r') ->
    errorCount r' = errorCount r + count_numbered (map rendered_state tests).
Proof.
  induction tests as [|[testUid test] rest IH]; intros output r text r' Hrun.
  - simpl in Hrun. inversion Hrun; subst. unfold count_numbered. simpl. lia.
  - cbn [map]. rewrite count_numbered_cons. unfold rendered_state at 1. cbn [snd].
    simpl in Hrun. unfold bind at 1 in Hrun.
    match type of Hrun with
    | context [match ?m r with _ => _ end] =>
        assert (Hstate : forall state r1, m r = (Normal state, r1) ->
                  state = (if String.eqb (ts_state test) "" then "pending" else ts_state test)
                  /\ errorCount r1 = errorCount r);
        [|destruct (m r) as [[state|e] r1]; [|discriminate]]
    end.
    { intros state r1. destruct (String.eqb (ts_state test) "").
      - unfold bump_result, bind, get, modify, throw, ret. simpl.
        destruct (results r !! cid); [|discriminate].
        destruct v; intros H; inversion H; subst; split; reflexivity.
      - unfold ret. intros H; inversion H; subst; split; reflexivity. }
    destruct (Hstate _ _ eq_refl) as [-> Herr]. clear Hstate.
    unfold bind at 1 in Hrun.
    match type of Hrun with
    | context [getSymbol _ ?s r1] =>
        destruct (getSymbol_errorCount baseReporter s r1) as (symbol & r2 & Hsym & Herr2)
    end.
    rewrite Hsym in Hrun. apply IH in Hrun. lia.
Qed.

Lemma renderSuites_errorCount v baseReporter cid ref preface suites :
  forall output r text r',
    renderSuites v baseReporter cid ref preface suites output r = (Normal text, r') ->
    errorCount r' = errorCount r + numbered_tests suites.
Proof.
  induction suites as [|[specUid spec] rest IH]; intros output r text r' Hrun.
  - simpl in *. inversion Hrun; subst. lia.
  - simpl in *. unfold displayed. simpl.
    destruct (is_before_all specUid) eqn:Ebefore; simpl.
    + apply (IH _ _ _ _ Hrun).
    + unfold bind at 1 in Hrun.
      pose proof (indent_state cid specUid r) as Hstate.
      destruct (indent cid specUid r) as [[indentation|e] r1]; simpl in Hstate; subst r1;
        [|discriminate].
      unfold bind at 1 in Hrun.
      match type of Hrun with
      | context [renderTests ?a ?b ?c ?d ?e ?f ?g ?h ?i r] =>
          destruct (renderTests a b c d e f g h i r) as [[text1|e1] r1] eqn:Etests;
            [|discriminate]
      end.
      apply renderTests_errorCount in Etests. apply IH in Hrun. lia.
Qed.

(** When [getResultList] returns, [errorCount] has gone up by the number of
    tests of the displayed suites whose symbol is a number: those whose
    state is set and is neither ['pass'] nor ['pending'].  Tests of suites
    whose key starts with ["before all"] in double quotes, and tests without
    a state (they are rendered as pending), use no number. *)
Theorem getResultList_uses_error_numbers v baseReporter (cid : string) (ref : SuitesRef)
    (suites : list (string * SuiteStats)) (preface text : string) (r r' : reporter) :
  getResultList v baseReporter cid ref suites preface r = (Normal text, r') ->
  errorCount r' = errorCount r + numbered_tests suites.
Proof. apply renderSuites_errorCount. Qed.

(** ['runner:end'] for a session the host has no statistics for, or whose
    statistics have no entry for the spec of the runner: [getSuiteResult]
    throws a [TypeError] before it has written anything, so the listener
    leaves the reporter as it was and prints nothing, in buffered and in
    instant mode. *)
Theorem runnerEnd_without_statistics v baseReporter config (runner : Runner)
    (r : reporter) :
  (runners (stats r) !! runner_cid runner = None \/
   exists runnerStats,
     runners (stats r) !! runner_cid runner = Some runnerStats /\
     rs_specs runnerStats !! getSpecHash baseReporter runner = None) ->
  getSuiteResult v baseReporter runner r = (Throw JS.TypeError, r) /\
  step v baseReporter config (Emit (RunnerEnd runner)) r = r.
Proof.
  intros Hcase.
  assert (Hthrow : getSuiteResult v baseReporter runner r = (Throw JS.TypeError, r)).
  { unfold getSuiteResult, getPhase, bind, get, throw, ret. simpl.
    destruct Hcase as [Hnone|(runnerStats & Hsome & Hspec)].
    - rewrite Hnone. destruct (startedSpecs r); reflexivity.
    - rewrite Hsome. destruct (startedSpecs r); simpl; rewrite Hspec; reflexivity. }
  split; [exact Hthrow|].
  destruct v; simpl; unfold exec, onRunnerEnd, printSuiteResult;
    (destruct (instantReport config); simpl; [reflexivity|]);
    unfold bind; rewrite Hthrow; reflexivity.
Qed.

(** In buffered mode ['runner:end'] writes to the output exactly once when
    [getSuiteResult] returns, namely the text it returned (the empty text
    too), through the write primitive of the class; when [getSuiteResult]
    throws, nothing is written.  Rendering itself writes nothing. *)
Theorem runnerEnd_logs_once v baseReporter config (runner : Runner) (r : reporter) :
  instantReport config = false ->
  console (step v baseReporter config (Emit (RunnerEnd runner)) r)
  = (console r ++ match fst (getSuiteResult v baseReporter runner r) with
                  | Normal text => [log_entry v text]
                  | Throw _ => []
                  end)%list.
Proof.
  intros Hinst.
  set (R := same console).
  collect_allowed R ltac:(unfold R, same; reflexivity).
  assert (Hres : forall g, preserves R (bump_result (runner_cid runner) g)).
  { intros g. apply preserves_bump_result; [typeclasses eauto|].
    intros t r0. reflexivity. }
  assert (P : preserves R (getSuiteResult v baseReporter runner))
    by (apply getSuiteResult_writes; assumption || typeclasses eauto).
  specialize (P r). unfold R, same in P.
  assert (Hstep : step v baseReporter config (Emit (RunnerEnd runner)) r
                  = snd (bind (getSuiteResult v baseReporter runner) (log v) r)).
  { destruct v; simpl; unfold exec, onRunnerEnd, printSuiteResult; rewrite Hinst;
      reflexivity. }
  rewrite Hstep. unfold bind.
  destruct (getSuiteResult v baseReporter runner r) as [[text|e] r1]; simpl in *.
  - destruct v; simpl; rewrite P; reflexivity.
  - rewrite app_nil_r. exact P.
Qed.

(** ** What a logged step prints *)

Lemma mapM_stepIndent cid k lines r :
  stepIndents r !! cid = Some (JNum k) -> 0 <= k ->
  mapM (fun line => let! indentation := stepIndent cid 0 in ret (indentation +:+ line))
       lines r
  = (Normal (map (fun line => spaces (Z.to_nat (2 * k)) +:+ line) lines), r).
Proof.
  intros Hk Hpos. induction lines as [|line lines IH]; [reflexivity|].
  simpl. unfold bind at 1. unfold bind at 1.
  rewrite (stepIndent_at_depth cid k r Hk Hpos). unfold ret at 1. cbv beta iota.
  unfold bind at 1. rewrite IH. reflexivity.
Qed.

Lemma forEach_console_log (f : string -> string) lines :
  forall r,
    console (snd (forEach lines (fun line => console_log (f line)) r))
    = (console r ++ map (fun line => ConsoleLog (f line)) lines)%list.
Proof.
  induction lines as [|line lines IH]; intros r; simpl.
  - rewrite app_nil_r. reflexivity.
  - unfold bind, console_log at 1, modify at 1. cbv beta iota.
    rewrite IH. simpl. rewrite <- app_assoc. reflexivity.
Qed.

(** With the log level ['steps'], before the spec phase, the ['step:start']
    of a step that [logStep] accepts prints one line for the step, indented
    by two spaces per open step (the step itself included), and then the
    inspected argument, one output entry per line, each with the same
    indentation; nothing follows when the argument has no keys, or when
    parsing it throws, which happens after the step line is out. *)
Theorem stepStart_prints_step_and_argument baseReporter config (st : Step)
    (r : reporter) (n : Z) :
  logSteps config = true ->
  startedSpecs r = false ->
  logStep st = true ->
  stepIndents r !! step_cid st = Some (JNum n) ->
  0 <= n + 1 ->
  let pad := spaces (Z.to_nat (2 * (n + 1))) in
  console (step Part000 baseReporter config (Emit (StepStart st)) r)
  = (console r
     ++ ConsoleLog (pad +:+ "STEP: " +:+ JS.dquote
                    +:+ JS.to_string (step_description st) +:+ JS.dquote)
        :: match step_arg st with
           | ArgInspected argStr =>
               map (fun line => ConsoleLog (color baseReporter (Some "error stack")
                                              (pad +:+ line)))
                   (JS.split_lines argStr)
           | _ => []
           end)%list.
Proof.
  intros Hlog Hphase Hstep Hn Hpos pad.
  assert (Htitle : JS.truthy (step_title st) = true).
  { unfold logStep in Hstep. destruct (step_title st); [|discriminate].
    apply andb_true_iff in Hstep as [H _]. apply andb_true_iff in H as [H _]. exact H. }
  unfold step, exec.
  change (emit Part000 baseReporter config (StepStart st))
    with (onStepStart baseReporter config st).
  unfold onStepStart. rewrite bind_get. rewrite Htitle, Hphase, Hlog, Hstep.
  cbn [andb negb]. unfold bind at 1. unfold modify at 1. cbv beta iota.
  match goal with
  | |- context [bind (stepIndent _ 0) _ ?r0] => set (r1 := r0)
  end.
  assert (H1 : stepIndents r1 !! step_cid st = Some (JNum (n + 1))).
  { unfold r1. simpl. rewrite lookup_insert_eq, Hn. reflexivity. }
  rewrite (bind_normal _ _ r1 _ r1 (stepIndent_at_depth _ _ _ H1 Hpos)). cbv beta.
  unfold bind at 1. unfold console_log at 1, modify at 1. cbv beta iota.
  match goal with
  | |- context [set_console ?c r1] => set (r2 := set_console c r1)
  end.
  assert (H2 : stepIndents r2 !! step_cid st = Some (JNum (n + 1))) by exact H1.
  destruct (step_arg st) as [| |argStr].
  - reflexivity.
  - reflexivity.
  - rewrite (bind_normal _ _ r2 _ r2 (mapM_stepIndent _ _ _ _ H2 Hpos)). cbv beta.
    rewrite forEach_console_log. unfold r2, r1. simpl.
    rewrite map_map, <- app_assoc. reflexivity.
Qed.

(** ** A retry needs a current test *)

Lemma after_bind {A B} (R : relation reporter) `{!PreOrder R} (m : M A) (k : A -> M B) r :
  (forall a, preserves R (k a)) -> R (snd (m r)) (snd (bind m k r)).
Proof.
  intros P. unfold bind. destruct (m r) as [[a|e] r1]; simpl; [apply P|reflexivity].
Qed.

Lemma onTestState_clears v baseReporter config bucket state test r t :
  results r !! test_cid test = Some t ->
  currentTest (exec (onTestState v baseReporter config bucket state test) r) = None.
Proof.
  intros Ht. unfold exec, onTestState.
  rewrite (bind_normal _ _ _ _ _ (bump_result_defined _ bucket _ _ Ht)).
  set (R := same currentTest).
  collect_allowed R ltac:(unfold R, same; reflexivity).
  match goal with
  | |- currentTest (snd (bind (modify ?f) (fun _ => ?k) ?r1)) = _ =>
      assert (P : preserves R k) by walk;
      pose proof (after_modify R f k r1 P) as Hafter
  end.
  unfold R, same in Hafter. rewrite Hafter. reflexivity.
Qed.

Lemma terminal_clears_current v baseReporter config cid e r t :
  results r !! cid = Some t ->
  terminal v cid (Emit e) = true ->
  currentTest (step v baseReporter config (Emit e) r) = None.
Proof.
  intros Ht He.
  set (R := same currentTest).
  collect_allowed R ltac:(unfold R, same; reflexivity).
  destruct e; simpl in He; try discriminate;
    try (destruct v; try discriminate);
    apply bool_decide_eq_true in He; subst cid; simpl;
    try (apply (onTestState_clears _ _ _ _ _ _ _ _ Ht));
    unfold exec, onTestBroken;
    match goal with
    | |- currentTest (snd (bind ?m ?k r)) = _ =>
        assert (P : forall a, preserves R (k a)) by walk;
        pose proof (after_bind R m k r P) as Hafter
    end;
    unfold R, same in Hafter; rewrite Hafter;
    apply (onTestState_clears _ _ _ _ _ _ _ _ Ht).
Qed.

(** In [src/unnamed/part_000], with testcase titles on and before the spec
    phase, a ['retry:failed'] that comes right after a test outcome event
    throws a [TypeError]: the outcome listener has cleared [currentTest],
    and the retry listener reads the id of the current test.  By then it
    has counted the retry and set the step depth of the session to zero; it
    has printed nothing. *)
Theorem retry_after_outcome_throws baseReporter config (cid : string) (e : event)
    (st : Step) (r : reporter) (t : Tally) :
  logTestcases config = true ->
  startedSpecs r = false ->
  results r !! cid = Some t ->
  terminal Part000 cid (Emit e) = true ->
  let r1 := step Part000 baseReporter config (Emit e) r in
  emit Part000 baseReporter config (RetryFailed st) r1
  = (Throw JS.TypeError,
     set_stepIndents (<[step_cid st := JNum 0]> (stepIndents r1))
       (set_retryCount (retryCount r1 + 1) r1)).
Proof.
  intros Hlog Hphase Ht He r1.
  assert (Hcur : currentTest r1 = None)
    by exact (terminal_clears_current Part000 baseReporter config cid e r t Ht He).
  assert (Hph : startedSpecs r1 = false).
  { unfold r1. rewrite step_keeps_phase; [exact Hphase|].
    destruct e; simpl in He; try discriminate; reflexivity. }
  clearbody r1.
  change (emit Part000 baseReporter config (RetryFailed st))
    with (onRetryFailed baseReporter config st).
  unfold onRetryFailed, reprintTestcase, reset_stepIndents, printTestcaseTitle,
    bind, modify, get, throw.
  simpl. rewrite Hlog, Hph, Hcur. reflexivity.
Qed.

(** ** [cleanStack] twice *)

Lemma split_lines_lines s : Forall (fun line => single_line line = true) (JS.split_lines s).
Proof.
  induction s as [|c s IH]; simpl.
  - constructor; [reflexivity|constructor].
  - destruct (Ascii.eqb c (ascii_of_nat 10)) eqn:E.
    + constructor; [reflexivity|exact IH].
    + destruct (JS.split_lines s) as [|l ls].
      * constructor; [simpl; rewrite E; reflexivity|constructor].
      * inversion IH; subst. constructor; [|assumption].
        simpl. rewrite E. assumption.
Qed.

Lemma split_lines_join lines :
  lines <> [] ->
  Forall (fun line => single_line line = true) lines ->
  JS.split_lines (JS.join JS.LF lines) = lines.
Proof.
  induction lines as [|a [|b rest] IH]; intros Hne Hall; [congruence| |].
  - inversion Hall; subst. apply split_lines_single. assumption.
  - inversion Hall; subst.
    change (JS.join JS.LF (a :: b :: rest))
      with (a +:+ JS.LF +:+ JS.join JS.LF (b :: rest)).
    rewrite split_lines_line by assumption.
    rewrite IH; [reflexivity|discriminate|assumption].
Qed.

Lemma filter_lines_kept (f : string -> bool) lines :
  Forall (fun line => single_line line = true) lines ->
  Forall (fun line => single_line line = true) (List.filter f lines).
Proof.
  induction 1 as [|a l Ha Hl IH]; simpl; [constructor|].
  destruct (f a); [constructor; assumption|assumption].
Qed.

Lemma filter_twice {A} (f : A -> bool) l : List.filter f (List.filter f l) = List.filter f l.
Proof.
  induction l as [|a l IH]; [reflexivity|]. simpl.
  destruct (f a) eqn:E; simpl; rewrite ?E, IH; reflexivity.
Qed.

(** [cleanStack] is idempotent: on an error it has cleaned it changes
    nothing.  The lines it keeps hold no line feed, so joining and splitting
    gives them back, and each of them passes the filter again; a stack that
    was emptied stays the empty string. *)
Theorem cleanStack_idempotent (error cleaned : ErrorObj) :
  cleanStack (Some error) = Normal cleaned ->
  cleanStack (Some cleaned) = Normal cleaned.
Proof.
  destruct (stack error) as [text|] eqn:E;
    [|unfold cleanStack; rewrite E; discriminate].
  rewrite (cleanStack_filter _ _ E). intros H. injection H as <-.
  match goal with
  | |- cleanStack (Some ?c) = _ =>
      rewrite (cleanStack_filter c
                 (JS.join JS.LF (List.filter kept (JS.split_lines text))) eq_refl)
  end.
  simpl. do 3 f_equal.
  pose proof (filter_lines_kept kept _ (split_lines_lines text)) as Hall.
  destruct (List.filter kept (JS.split_lines text)) as [|a l] eqn:EL.
  - reflexivity.
  - rewrite split_lines_join by (assumption || discriminate).
    rewrite <- EL, filter_twice. reflexivity.
Qed.

(** ** The output only grows *)

#[local] Instance output_extends_preorder : PreOrder output_extends.
Proof.
  split.
  - intros r. exists []. rewrite app_nil_r. reflexivity.
  - intros r1 r2 r3 [a Ha] [b Hb]. exists (a ++ b)%list.
    rewrite Hb, Ha, app_assoc. reflexivity.
Qed.



(** ** The colours of the summary *)

(** Every label of the tally that [getSummary] walks has a colour: for the
    five keys of [this.results[cid]], in each class with its own fifth key,
    [getColor] does not return [null]. *)
Theorem tally_labels_have_colours v (t : Tally) :
  Forall (fun entry => getColor v (fst entry) <> None) (tally_entries v t).
Proof. destruct v; repeat constructor; discriminate. Qed.

(** ** Instant mode prints as the events come *)



Lemma indent_at_depth cid uid r depths d :
  suiteIndents r !! cid = Some depths ->
  depths !! uid = Some (JNum d) ->
  1 <= d ->
  indent cid uid r = (Normal (spaces (Z.to_nat (4 * (d - 1)))), r).
Proof.
  intros Hc Hu Hd. unfold indent, bind, get. simpl. rewrite Hc, Hu.
  destruct d as [|p|p]; try lia.
  unfold lift, JS.Array_join.
  change (Z.pos p <? 0) with false. cbv iota.
  destruct (Z.to_nat (Z.pos p)) as [|n] eqn:En; [lia|].
  rewrite join_holes_spaces. do 3 f_equal. lia.
Qed.

Lemma getPhase_returns r : getPhase r = (Normal (phase_of r), r).
Proof. unfold getPhase, phase_of, bind, get. simpl. destruct (startedSpecs r); reflexivity. Qed.

(** In instant mode the ['suite:start'] of a session with a depth counter
    [n >= 0] and a depth map prints the title of the suite, after a line
    that holds the phase prefix alone, indented by four spaces for every
    suite that was open before it, and makes the suite the current one. *)
Theorem instant_suiteStart_prints_title v baseReporter config (suite : Suite)
    (r : reporter) (n : Z) (depths : gmap string jsnum) :
  instantReport config = true ->
  indents r !! suite_cid suite = Some (JNum n) ->
  0 <= n ->
  suiteIndents r !! suite_cid suite = Some depths ->
  let r' := step v baseReporter config (Emit (SuiteStart suite)) r in
  console r'
  = (console r
     ++ [log_entry v (phase_of r +:+ JS.LF +:+ phase_of r
                      +:+ spaces (Z.to_nat (4 * n)) +:+ suite_title suite)])%list
  /\ currentSuite r' = Some suite.
Proof.
  intros Hinst Hn Hpos Hd r'.
  set (r3 := set_currentSuite (Some suite)
               (set_suiteIndents
                  (<[suite_cid suite := <[suite_uid suite := JNum (n + 1)]> depths]>
                     (suiteIndents r))
                  (set_indents (<[suite_cid suite := JNum (n + 1)]> (indents r)) r))).
  assert (Hind : indent (suite_cid suite) (suite_uid suite) r3
                 = (Normal (spaces (Z.to_nat (4 * n))), r3)).
  { replace (4 * n) with (4 * (n + 1 - 1)) by lia.
    apply (indent_at_depth _ _ r3 (<[suite_uid suite := JNum (n + 1)]> depths)).
    - unfold r3. simpl. apply lookup_insert_eq.
    - apply lookup_insert_eq.
    - lia. }
  assert (Hrun : emit v baseReporter config (SuiteStart suite) r
                 = (Normal tt,
                    set_console
                      (console r3
                       ++ [log_entry v (phase_of r +:+ JS.LF +:+ phase_of r
                                        +:+ spaces (Z.to_nat (4 * n))
                                        +:+ suite_title suite)]) r3)).
  { destruct v; simpl emit; unfold onSuiteStart; rewrite bind_get; rewrite Hn, Hd, Hinst;
      cbn [JS.to_number JS.num_add];
      do 3 (unfold bind at 1; unfold modify at 1; cbv beta iota);
      fold r3; unfold printSuiteTitle;
      rewrite (bind_normal _ _ r3 _ r3 (getPhase_returns r3)); cbv beta;
      rewrite (bind_normal _ _ r3 _ r3 (getPhase_returns r3)); cbv beta;
      rewrite (bind_normal _ _ r3 _ r3 Hind); cbv beta;
      reflexivity. }
  unfold r', step, exec. rewrite Hrun. split; reflexivity.
Qed.

(** ** Rendering a session again *)

Lemma unset_at_mark suites a b c d :
  unset_at (mark a b suites) c d -> unset_at suites c d /\ (c, d) <> (a, b).
Proof.
  unfold unset_at, mark, alist_alter.
  intros (suite' & test' & Hin & Hc & Hint & Hd & Hu).
  apply in_map_iff in Hin as (suite & Heq & Hin).
  destruct (decide (fst suite = a)) as [Ha|Ha]; subst suite'; simpl in *.
  - apply in_map_iff in Hint as (test & Heqt & Hint).
    destruct (decide (fst test = b)) as [Hb|Hb]; subst test'; simpl in *.
    + discriminate Hu.
    + split; [exists suite, test; repeat split; assumption|].
      intros Heq. injection Heq as Hca Hdb. congruence.
  - split; [exists suite, test'; repeat split; assumption|].
    intros Heq. injection Heq as Hca Hdb. congruence.
Qed.

Lemma unset_at_apply_marks ms :
  forall suites c d,
    unset_at (apply_marks ms suites) c d -> unset_at suites c d /\ ~ In (c, d) ms.
Proof.
  induction ms as [|m ms IH]; intros suites c d H; simpl in *.
  - split; [exact H|tauto].
  - apply IH in H as [H Hms]. apply unset_at_mark in H as [H Hm].
    split; [exact H|]. intros [Heq|Hin]; [|tauto].
    apply Hm. rewrite <- Heq. destruct m; reflexivity.
Qed.

Lemma unset_at_marks suites c d :
  unset_at suites c d -> is_before_all c = false -> In (c, d) (marks suites).
Proof.
  intros (suite & test & Hin & Hc & Hint & Hd & Hu) Hshown.
  unfold marks. apply in_flat_map. exists suite. split; [exact Hin|].
  unfold displayed. rewrite Hc, Hshown. simpl.
  apply in_map_iff. exists test. split; [congruence|].
  apply filter_In. split; assumption.
Qed.

Lemma displayed_unset_none suites :
  (forall c d, unset_at suites c d -> is_before_all c = true) ->
  displayed_unset suites = 0.
Proof.
  induction suites as [|suite rest IH]; intros H; simpl; [reflexivity|].
  rewrite IH.
  - destruct (displayed suite) eqn:Eshown; [|reflexivity].
    unfold count_unset.
    destruct (List.filter unset (ss_tests (snd suite))) as [|test l] eqn:Ef; [reflexivity|].
    assert (Hin : In test (List.filter unset (ss_tests (snd suite))))
      by (rewrite Ef; left; reflexivity).
    apply filter_In in Hin as [Hin Hu].
    assert (Hb : is_before_all (fst suite) = true).
    { apply (H (fst suite) (fst test)). exists suite, test.
      repeat split; try assumption. left. reflexivity. }
    unfold displayed in Eshown. rewrite Hb in Eshown. discriminate.
  - intros c d (suite' & test & Hin & Hrest). apply (H c d).
    exists suite', test. split; [right; exact Hin|exact Hrest].
Qed.

Lemma marks_settle suites : displayed_unset (apply_marks (marks suites) suites) = 0.
Proof.
  apply displayed_unset_none. intros c d H.
  apply unset_at_apply_marks in H as [H Hnot].
  destruct (is_before_all c) eqn:E; [reflexivity|].
  exfalso. apply Hnot. apply unset_at_marks; assumption.
Qed.

Lemma lookup_suites_marked ref a b s :
  lookup_suites ref (set_test_state ref a b "pending" s)
  = mark a b <$> lookup_suites ref s.
Proof.
  unfold lookup_suites, set_test_state. simpl. rewrite lookup_alter_eq.
  destruct (runners s !! ref_cid ref) as [rs|]; simpl; [|reflexivity].
  rewrite lookup_alter_eq.
  destruct (rs_specs rs !! ref_hash ref) as [sp|]; reflexivity.
Qed.

Lemma getSymbol_stats baseReporter state r :
  exists symbol r',
    getSymbol baseReporter state r = (Normal symbol, r') /\ stats r' = stats r.
Proof.
  unfold getSymbol.
  destruct (String.eqb state "pass"); [eexists _, _; split; reflexivity|].
  destruct (String.eqb state "pending"); [eexists _, _; split; reflexivity|].
  destruct (String.eqb state "fail"); [eexists _, _; split; reflexivity|].
  destruct (String.eqb state "broken"); eexists _, _; split; reflexivity.
Qed.

Lemma apply_marks_app ms1 ms2 (o : option (list (string * SuiteStats))) :
  apply_marks (ms1 ++ ms2) <$> o = apply_marks ms2 <$> (apply_marks ms1 <$> o).
Proof.
  destruct o as [suites|]; [|reflexivity]. simpl. f_equal. apply fold_left_app.
Qed.

Lemma renderTests_marks v baseReporter cid ref specUid preface indentation tests :
  forall output r text r',
    renderTests v baseReporter cid ref specUid preface indentation tests output r
      = (Normal text, r') ->
    lookup_suites ref (stats r')
    = apply_marks (map (fun test => (specUid, fst test)) (List.filter unset tests))
        <$> lookup_suites ref (stats r).
Proof.
  induction tests as [|[testUid test] rest IH]; intros output r text r' Hrun.
  - simpl in Hrun. inversion Hrun; subst. simpl.
    destruct (lookup_suites ref (stats r')); reflexivity.
  - simpl in Hrun. unfold bind at 1 in Hrun.
    cbn [List.filter]. unfold unset at 1. cbn [snd fst].
    match type of Hrun with
    | context [match ?m r with _ => _ end] =>
        assert (Hstate : forall state r1, m r = (Normal state, r1) ->
                  lookup_suites ref (stats r1)
                  = apply_marks (if String.eqb (ts_state test) "" then [(specUid, testUid)]
                                 else [])
                      <$> lookup_suites ref (stats r));
        [|destruct (m r) as [[state|e] r1]; [|discriminate]]
    end.
    { intros state r1. destruct (String.eqb (ts_state test) "").
      - unfold bump_result, bind, get, modify, throw, ret. simpl.
        destruct (results r !! cid); [|discriminate].
        destruct v; intros H; inversion H; subst; simpl;
          apply lookup_suites_marked.
      - unfold ret. intros H; inversion H; subst. simpl.
        destruct (lookup_suites ref (stats r1)); reflexivity. }
    specialize (Hstate _ _ eq_refl).
    unfold bind at 1 in Hrun.
    match type of Hrun with
    | context [getSymbol _ ?s r1] =>
        destruct (getSymbol_stats baseReporter s r1) as (symbol & r2 & Hsym & Hstats)
    end.
    rewrite Hsym in Hrun. apply IH in Hrun. rewrite Hrun, Hstats, Hstate.
    destruct (String.eqb (ts_state test) ""); cbn [map].
    + exact (eq_sym (apply_marks_app [(specUid, testUid)] _ _)).
    + destruct (lookup_suites ref (stats r)); reflexivity.
Qed.

Lemma renderSuites_marks v baseReporter cid ref preface suites :
  forall output r text r',
    renderSuites v baseReporter cid ref preface suites output r = (Normal text, r') ->
    lookup_suites ref (stats r') = apply_marks (marks suites) <$> lookup_suites ref (stats r).
Proof.
  induction suites as [|[specUid spec] rest IH]; intros output r text r' Hrun.
  - simpl in *. inversion Hrun; subst. destruct (lookup_suites ref (stats r')); reflexivity.
  - simpl in Hrun. unfold marks. cbn [flat_map]. fold (marks rest).
    unfold displayed at 1. cbn [fst snd].
    destruct (is_before_all specUid) eqn:Ebefore; simpl negb; cbv iota.
    + apply (IH _ _ _ _ Hrun).
    + unfold bind at 1 in Hrun.
      pose proof (indent_state cid specUid r) as Hstate.
      destruct (indent cid specUid r) as [[indentation|e] r1]; simpl in Hstate; subst r1;
        [|discriminate].
      unfold bind at 1 in Hrun.
      match type of Hrun with
      | context [renderTests ?a ?b ?c ?d ?e ?f ?g ?h ?i r] =>
          destruct (renderTests a b c d e f g h i r) as [[text1|e1] r1] eqn:Etests;
            [|discriminate]
      end.
      apply renderTests_marks in Etests. apply IH in Hrun.
      rewrite Hrun, Etests. symmetry. apply apply_marks_app.
Qed.

Lemma count_unset_cons_zero test tests :
  count_unset (test :: tests) = 0 -> unset test = false /\ count_unset tests = 0.
Proof.
  unfold count_unset. cbn [List.filter].
  destruct (unset test); cbn [length]; [lia|]. intros H. split; [reflexivity|exact H].
Qed.

Lemma displayed_unset_cons_zero suite suites :
  displayed_unset (suite :: suites) = 0 ->
  (displayed suite = true -> count_unset (ss_tests (snd suite)) = 0)
  /\ displayed_unset suites = 0.
Proof.
  assert (Hpos : forall l, 0 <= displayed_unset l).
  { induction l as [|s l IH]; simpl; [lia|].
    destruct (displayed s); unfold count_unset; lia. }
  simpl. specialize (Hpos suites).
  destruct (displayed suite); unfold count_unset in *; intros H; split; intros; lia.
Qed.

Lemma renderTests_settled v baseReporter (R : relation reporter) `{!PreOrder R}
    cid ref specUid preface indentation tests :
  allows_next_errorCount R ->
  count_unset tests = 0 ->
  forall output,
    preserves R (renderTests v baseReporter cid ref specUid preface indentation tests output).
Proof.
  intros He. induction tests as [|[testUid test] rest IH]; intros Hzero output; simpl.
  - walk.
  - apply count_unset_cons_zero in Hzero as [Hu Hzero]. unfold unset in Hu. simpl in Hu.
    rewrite Hu. specialize (IH Hzero). walk.
Qed.

Lemma renderSuites_settled v baseReporter (R : relation reporter) `{!PreOrder R}
    cid ref preface suites :
  allows_next_errorCount R ->
  displayed_unset suites = 0 ->
  forall output, preserves R (renderSuites v baseReporter cid ref preface suites output).
Proof.
  intros He. induction suites as [|[specUid spec] rest IH]; intros Hzero output; simpl.
  - walk.
  - apply displayed_unset_cons_zero in Hzero as [Hhere Hzero]. specialize (IH Hzero).
    unfold displayed in Hhere. simpl in Hhere.
    destruct (is_before_all specUid); [apply IH|].
    specialize (Hhere eq_refl).
    pose proof (renderTests_settled v baseReporter R cid ref specUid preface) as Htests.
    walk.
Qed.

(** The head of [getSuiteResult] up to the result list reads the reporter
    and leaves it alone. *)
Ltac banner_returns :=
  match goal with
  | |- exists out, _ ?r = (Normal out, ?r) =>
      destruct (startedSpecs r) eqn:?;
      repeat (rewrite (bind_normal _ _ r _ r (getPhase_returns r)); cbv beta);
      eexists; reflexivity
  end.

(** Rendering a session a second time counts nothing: when [getSuiteResult]
    has returned for a ['runner:end'], it has written ['pending'] into the
    statistics of the host for every test it counted as pending, so that a
    second ['runner:end'] of the same runner finds no test without outcome
    in a displayed suite and leaves every tally as it is. *)
Theorem second_rendering_counts_nothing v baseReporter config (runner : Runner)
    (text : string) (r r1 : reporter) :
  getSuiteResult v baseReporter runner r = (Normal text, r1) ->
  let once := step v baseReporter config (Emit (RunnerEnd runner)) r in
  results (step v baseReporter config (Emit (RunnerEnd runner)) once) = results once.
Proof.
  intros Hrun once.
  assert (Hstep : forall r0,
            step v baseReporter config (Emit (RunnerEnd runner)) r0
            = snd (printSuiteResult v baseReporter config runner r0))
    by (intros r0; destruct v; reflexivity).
  destruct (instantReport config) eqn:Hinst.
  { rewrite Hstep. unfold printSuiteResult. rewrite Hinst. reflexivity. }
  set (ref := {| ref_cid := runner_cid runner; ref_hash := getSpecHash baseReporter runner |}).
  (* the first rendering has marked every test it counted *)
  assert (Hmarked : exists suites',
            lookup_suites ref (stats r1) = Some suites' /\ displayed_unset suites' = 0).
  { unfold getSuiteResult in Hrun. cbv zeta in Hrun. rewrite bind_get in Hrun.
    rewrite (bind_normal _ _ r _ r (getPhase_returns r)) in Hrun. cbv beta in Hrun.
    destruct (runners (stats r) !! runner_cid runner) as [rs|] eqn:Ers; [|discriminate].
    destruct (rs_specs rs !! getSpecHash baseReporter runner) as [spec|] eqn:Espec;
      [|discriminate].
    assert (Hlook : lookup_suites ref (stats r) = Some (spec_suites spec)).
    { unfold lookup_suites. simpl. rewrite Ers, Espec. reflexivity. }
    destruct (spec_suites spec) as [|s ss] eqn:Esuites.
    - unfold ret in Hrun. injection Hrun as _ <-. exists []. split; [exact Hlook|reflexivity].
    - match type of Hrun with
      | bind ?X ?K r = _ =>
          assert (HX : exists out, X r = (Normal out, r)) by banner_returns;
          destruct HX as [out HX];
          rewrite (bind_normal X K r out r HX) in Hrun
      end.
      cbv beta in Hrun. unfold bind at 1 in Hrun.
      match type of Hrun with
      | context [getResultList ?a ?b ?c ?d ?e ?f r] =>
          destruct (getResultList a b c d e f r) as [[resultList|e1] ra] eqn:Elist;
            [|discriminate]
      end.
      set (R := same stats).
      collect_allowed R ltac:(unfold R, same; reflexivity).
      match type of Hrun with
      | ?m ra = _ => assert (P : preserves R m) by walk
      end.
      specialize (P ra). rewrite Hrun in P. unfold R, same in P. simpl in P.
      apply renderSuites_marks in Elist. fold ref in Elist.
      rewrite Hlook in Elist.
      change (lookup_suites ref (stats ra)
              = Some (apply_marks (marks (s :: ss)) (s :: ss))) in Elist.
      eexists. split; [rewrite P; exact Elist|apply marks_settle]. }
  destruct Hmarked as (suites' & Hlook & Hzero).
  (* the second rendering *)
  assert (Honce : once = snd (log v text r1)).
  { unfold once. rewrite Hstep. unfold printSuiteResult. rewrite Hinst. simpl.
    unfold bind. rewrite Hrun. reflexivity. }
  assert (Hstats : stats once = stats r1) by (rewrite Honce; destruct v; reflexivity).
  rewrite <- Hstats in Hlook. clearbody once. clear Honce Hstats Hrun r r1 text.
  set (R := same results).
  collect_allowed R ltac:(unfold R, same; reflexivity).
  rewrite Hstep. unfold printSuiteResult. rewrite Hinst. simpl negb. cbv iota.
  assert (Plog : forall text, preserves R (log v text))
    by (intros; apply log_writes; assumption).
  change (negb false) with true. cbv iota.
  match goal with
  | |- results (snd (bind ?m ?k once)) = _ =>
      pose proof (after_bind R m k once Plog) as Hlog
  end.
  unfold R at 1, same in Hlog. rewrite Hlog. clear Hlog.
  unfold lookup_suites in Hlook. simpl in Hlook.
  destruct (runners (stats once) !! runner_cid runner) as [rs|] eqn:Ers; [|discriminate].
  destruct (rs_specs rs !! getSpecHash baseReporter runner) as [spec|] eqn:Espec;
    [|discriminate].
  injection Hlook as Hsuites.
  unfold getSuiteResult. cbv zeta. rewrite bind_get.
  rewrite (bind_normal _ _ once _ once (getPhase_returns once)). cbv beta.
  rewrite Ers, Espec.
  destruct (spec_suites spec) as [|s ss] eqn:Esuites; [reflexivity|].
  match goal with
  | |- results (snd (bind ?X ?K once)) = _ =>
      assert (HX : exists out, X once = (Normal out, once)) by banner_returns;
      destruct HX as [out HX];
      rewrite (bind_normal X K once out once HX)
  end.
  cbv beta.
  match goal with
  | |- results (snd (bind ?m ?k once)) = _ =>
      assert (P : forall a, preserves R (k a)) by walk;
      pose proof (after_bind R m k once P) as Hafter;
      assert (Hlist : R once (snd (m once)))
  end.
  { assert (He : allows_next_errorCount R) by assumption.
    assert (Hz : displayed_unset (s :: ss) = 0) by (rewrite Hsuites; exact Hzero).
    exact (renderSuites_settled v baseReporter R _ _ _ (s :: ss) He Hz "" once). }
  unfold R, same in Hafter, Hlist. rewrite Hafter. exact Hlist.
Qed.

(** ** The further properties at sample inputs *)

Lemma other_sessions_untouched_witness :
  let r := run LibReporter Sample.theme Sample.buffered [Emit (RunnerStart Sample.runner)]
             (init (Sample.stats_with [])) in
  event_cid (RunnerStart Scenario.other) <> Some "0-0" /\
  session_view "0-0"
    (step LibReporter Sample.theme Sample.buffered (Emit (RunnerStart Scenario.other)) r)
  = session_view "0-0" r.
Proof.
  intros r.
  assert (H : event_cid (RunnerStart Scenario.other) <> Some "0-0") by discriminate.
  split; [exact H|].
  exact (other_sessions_untouched LibReporter Sample.theme Sample.buffered
           (RunnerStart Scenario.other) "0-0" r H).
Defined.

Lemma buffered_mode_silent_witness :
  let r := run Part000 Sample.theme Sample.buffered [Emit (RunnerStart Sample.runner)]
             (init (Sample.stats_with [])) in
  buffered_quiet Part000 Sample.buffered = true /\
  speaks Part000 (TestPass Sample.works) = false /\
  console (step Part000 Sample.theme Sample.buffered (Emit (TestPass Sample.works)) r)
  = console r.
Proof.
  intros r.
  assert (H1 : buffered_quiet Part000 Sample.buffered = true) by reflexivity.
  assert (H2 : speaks Part000 (TestPass Sample.works) = false) by reflexivity.
  split; [exact H1|]. split; [exact H2|].
  exact (buffered_mode_silent Part000 Sample.theme Sample.buffered
           (TestPass Sample.works) r H1 H2).
Defined.

Lemma stats_written_only_at_runnerEnd_witness :
  let r := run LibReporter Sample.theme Sample.buffered [Emit (RunnerStart Sample.runner)]
             (init (Sample.stats_with Sample.login_suites)) in
  (is_runnerEnd (TestPass Sample.works) = false \/ instantReport Sample.buffered = true) /\
  stats (step LibReporter Sample.theme Sample.buffered (Emit (TestPass Sample.works)) r)
  = stats r.
Proof.
  intros r.
  assert (H : is_runnerEnd (TestPass Sample.works) = false
              \/ instantReport Sample.buffered = true) by (left; reflexivity).
  split; [exact H|].
  exact (stats_written_only_at_runnerEnd LibReporter Sample.theme Sample.buffered
           (TestPass Sample.works) r H).
Defined.

Lemma unstarted_session_throws_witness :
  let actions := [Emit (RunnerStart Scenario.other)] in
  let r := run LibReporter Sample.theme Sample.buffered actions
             (init (Sample.stats_with [])) in
  forallb (fun a => negb (starts_session "0-0" a)) actions = true /\
  terminal LibReporter "0-0" (Emit (TestPass Sample.works)) = true /\
  results r !! "0-0" = None /\
  emit LibReporter Sample.theme Sample.buffered (TestPass Sample.works) r
  = (Throw JS.TypeError, r).
Proof.
  intros actions r.
  assert (H1 : forallb (fun a => negb (starts_session "0-0" a)) actions = true)
    by reflexivity.
  assert (H2 : terminal LibReporter "0-0" (Emit (TestPass Sample.works)) = true)
    by reflexivity.
  split; [exact H1|]. split; [exact H2|].
  exact (unstarted_session_throws LibReporter Sample.theme Sample.buffered "0-0" actions
           (Sample.stats_with []) (TestPass Sample.works) H1 H2).
Defined.

Lemma instant_test_without_suite_witness :
  let r := run LibReporter Sample.theme Sample.instant [Emit (RunnerStart Sample.runner)]
             (init (Sample.stats_with [])) in
  instantReport Sample.instant = true /\
  currentSuite r = None /\
  results r !! "0-0" = Some zero_tally /\
  terminal LibReporter "0-0" (Emit (TestFail Sample.works)) = true /\
  emit LibReporter Sample.theme Sample.instant (TestFail Sample.works) r
  = (Throw JS.TypeError,
     set_currentTest None
       (set_results (<["0-0" := incr_failing zero_tally]> (results r)) r)).
Proof.
  intros r.
  assert (H1 : instantReport Sample.instant = true) by reflexivity.
  assert (H2 : currentSuite r = None) by reflexivity.
  assert (H3 : results r !! "0-0" = Some zero_tally) by reflexivity.
  assert (H4 : terminal LibReporter "0-0" (Emit (TestFail Sample.works)) = true)
    by reflexivity.
  split; [exact H1|]. split; [exact H2|]. split; [exact H3|]. split; [exact H4|].
  exact (instant_test_without_suite LibReporter Sample.theme Sample.instant "0-0"
           (TestFail Sample.works) r zero_tally H1 H2 H3 H4).
Defined.

Lemma failure_counters_never_decrease_witness :
  let actions := [Emit (RunnerStart Sample.runner); Emit (SuiteStart Sample.login);
                  Emit (TestFail Sample.works); Emit (RunnerEnd Sample.runner)] in
  let r := init (Sample.stats_with Sample.login_suites) in
  (startedSpecs r = true \/ emits_startSpecs actions = false) /\
  errorCount r <= errorCount (run Part000 Sample.theme Sample.instant actions r) /\
  failureCount r <= failureCount (run Part000 Sample.theme Sample.instant actions r).
Proof.
  intros actions r.
  assert (H : startedSpecs r = true \/ emits_startSpecs actions = false)
    by (right; reflexivity).
  split; [exact H|].
  exact (failure_counters_never_decrease Part000 Sample.theme Sample.instant actions r H).
Defined.

Lemma stepIndent_two_spaces_per_step_witness :
  let r := set_stepIndents {[ "0-0" := JNum 2 ]} (init (Sample.stats_with [])) in
  stepIndents r !! "0-0" = Some (JNum 2) /\
  0 <= 2 /\
  stepIndent "0-0" 0 r = (Normal "    ", r).
Proof.
  intros r.
  assert (H1 : stepIndents r !! "0-0" = Some (JNum 2)) by reflexivity.
  assert (H2 : 0 <= 2) by lia.
  split; [exact H1|]. split; [exact H2|].
  exact (proj1 (stepIndent_two_spaces_per_step "0-0" 2 r) H1 H2).
Defined.

Lemma step_depth_moves_witness :
  let r := set_stepIndents {[ "0-0" := JNum 0 ]} (init (Sample.stats_with [])) in
  logSteps Scenario.steps = true /\
  startedSpecs r = false /\
  stepIndents r !! step_cid Scenario.click = Some (JNum 0) /\
  JS.truthy (step_title Scenario.click) = true /\
  stepIndents (step Part000 Sample.theme Scenario.steps (Emit (StepStart Scenario.click)) r)
    !! step_cid Scenario.click = Some (JNum (0 + 1)) /\
  stepIndents (run Part000 Sample.theme Scenario.steps
                 [Emit (StepStart Scenario.click); Emit (StepEnd Scenario.click)] r)
    !! step_cid Scenario.click = Some (JNum 0).
Proof.
  intros r.
  assert (H1 : logSteps Scenario.steps = true) by reflexivity.
  assert (H2 : startedSpecs r = false) by reflexivity.
  assert (H3 : stepIndents r !! step_cid Scenario.click = Some (JNum 0)) by reflexivity.
  assert (H4 : JS.truthy (step_title Scenario.click) = true) by reflexivity.
  split; [exact H1|]. split; [exact H2|]. split; [exact H3|]. split; [exact H4|].
  exact (proj1 (step_depth_moves Sample.theme Scenario.steps Scenario.click r 0 H1 H2 H3)
           H4).
Defined.

Lemma step_events_inert_witness :
  let r := init (Sample.stats_with []) in
  (LibReporter = LibReporter \/ startedSpecs r = true \/ logSteps Scenario.steps = false) /\
  step LibReporter Sample.theme Scenario.steps (Emit (StepStart Scenario.click)) r = r /\
  step LibReporter Sample.theme Scenario.steps (Emit (StepEnd Scenario.click)) r = r.
Proof.
  intros r.
  assert (H : LibReporter = LibReporter \/ startedSpecs r = true
              \/ logSteps Scenario.steps = false) by (left; reflexivity).
  split; [exact H|].
  exact (step_events_inert LibReporter Sample.theme Scenario.steps Scenario.click r H).
Defined.

Lemma indent_edge_cases_witness :
  let r := init (Sample.stats_with []) in
  suiteIndents r !! "0-0" = None /\
  indent "0-0" "Login1" r = (Throw JS.TypeError, r).
Proof.
  intros r.
  assert (H : suiteIndents r !! "0-0" = None) by reflexivity.
  split; [exact H|].
  exact (proj1 (indent_edge_cases "0-0" "Login1" r ∅ 0) H).
Defined.


Lemma getResultList_uses_error_numbers_witness :
  let r := run LibReporter Sample.theme Sample.buffered [Emit (RunnerStart Sample.runner)]
             (init (Sample.stats_with Scenario.mixed_suites)) in
  let ref := {| ref_cid := "0-0"; ref_hash := "spec1" |} in
  let result := getResultList LibReporter Sample.theme "0-0" ref Scenario.mixed_suites
                  "[SPEC] " r in
  let text := "[SPEC]  Login" +:+ JS.LF +:+ "[SPEC]    ok works" +:+ JS.LF
              +:+ "[SPEC]    1) fails" +:+ JS.LF +:+ "[SPEC]    - later" +:+ JS.LF
              +:+ "[SPEC]" +:+ JS.LF in
  result = (Normal text, snd result) /\
  errorCount (snd result) = errorCount r + numbered_tests Scenario.mixed_suites.
Proof.
  intros r ref result text.
  assert (H : result = (Normal text, snd result)) by (vm_compute; reflexivity).
  split; [exact H|].
  exact (getResultList_uses_error_numbers LibReporter Sample.theme "0-0" ref
           Scenario.mixed_suites "[SPEC] " text r (snd result) H).
Defined.

Lemma runnerEnd_without_statistics_witness :
  let r := init (Sample.stats_with Sample.login_suites) in
  (runners (stats r) !! runner_cid Scenario.other = None \/
   exists runnerStats,
     runners (stats r) !! runner_cid Scenario.other = Some runnerStats /\
     rs_specs runnerStats !! getSpecHash Sample.theme Scenario.other = None) /\
  getSuiteResult Part000 Sample.theme Scenario.other r = (Throw JS.TypeError, r) /\
  step Part000 Sample.theme Sample.buffered (Emit (RunnerEnd Scenario.other)) r = r.
Proof.
  intros r.
  assert (H : runners (stats r) !! runner_cid Scenario.other = None \/
              exists runnerStats,
                runners (stats r) !! runner_cid Scenario.other = Some runnerStats /\
                rs_specs runnerStats !! getSpecHash Sample.theme Scenario.other = None)
    by (left; reflexivity).
  split; [exact H|].
  exact (runnerEnd_without_statistics Part000 Sample.theme Sample.buffered
           Scenario.other r H).
Defined.

Lemma runnerEnd_logs_once_witness :
  let r := run LibReporter Sample.theme Sample.buffered [Emit (RunnerStart Sample.runner)]
             (init (Sample.stats_with Sample.login_suites)) in
  instantReport Sample.buffered = false /\
  console (step LibReporter Sample.theme Sample.buffered (Emit (RunnerEnd Sample.runner)) r)
  = (console r
     ++ match fst (getSuiteResult LibReporter Sample.theme Sample.runner r) with
        | Normal text => [log_entry LibReporter text]
        | Throw _ => []
        end)%list.
Proof.
  intros r.
  assert (H : instantReport Sample.buffered = false) by reflexivity.
  split; [exact H|].
  exact (runnerEnd_logs_once LibReporter Sample.theme Sample.buffered Sample.runner r H).
Defined.

Lemma stepStart_prints_step_and_argument_witness :
  let r := set_stepIndents {[ "0-0" := JNum 0 ]} (init (Sample.stats_with [])) in
  logSteps Scenario.steps = true /\
  startedSpecs r = false /\
  logStep Scenario.click = true /\
  stepIndents r !! step_cid Scenario.click = Some (JNum 0) /\
  0 <= 0 + 1 /\
  console (step Part000 Sample.theme Scenario.steps (Emit (StepStart Scenario.click)) r)
  = [ConsoleLog ("  STEP: " +:+ JS.dquote +:+ "click the button" +:+ JS.dquote);
     ConsoleLog "  { selector: '#ok',";
     ConsoleLog "    timeout: 5 }"].
Proof.
  intros r.
  assert (H1 : logSteps Scenario.steps = true) by reflexivity.
  assert (H2 : startedSpecs r = false) by reflexivity.
  assert (H3 : logStep Scenario.click = true) by reflexivity.
  assert (H4 : stepIndents r !! step_cid Scenario.click = Some (JNum 0)) by reflexivity.
  assert (H5 : 0 <= 0 + 1) by lia.
  split; [exact H1|]. split; [exact H2|]. split; [exact H3|]. split; [exact H4|].
  split; [exact H5|].
  exact (stepStart_prints_step_and_argument Sample.theme Scenario.steps Scenario.click
           r 0 H1 H2 H3 H4 H5).
Defined.

Lemma retry_after_outcome_throws_witness :
  let r := run Part000 Sample.theme Scenario.steps [Emit (RunnerStart Sample.runner)]
             (init (Sample.stats_with [])) in
  let r1 := step Part000 Sample.theme Scenario.steps (Emit (TestFail Sample.works)) r in
  logTestcases Scenario.steps = true /\
  startedSpecs r = false /\
  results r !! "0-0" = Some zero_tally /\
  terminal Part000 "0-0" (Emit (TestFail Sample.works)) = true /\
  emit Part000 Sample.theme Scenario.steps (RetryFailed Scenario.click) r1
  = (Throw JS.TypeError,
     set_stepIndents (<["0-0" := JNum 0]> (stepIndents r1))
       (set_retryCount (retryCount r1 + 1) r1)).
Proof.
  intros r r1.
  assert (H1 : logTestcases Scenario.steps = true) by reflexivity.
  assert (H2 : startedSpecs r = false) by reflexivity.
  assert (H3 : results r !! "0-0" = Some zero_tally) by reflexivity.
  assert (H4 : terminal Part000 "0-0" (Emit (TestFail Sample.works)) = true)
    by reflexivity.
  split; [exact H1|]. split; [exact H2|]. split; [exact H3|]. split; [exact H4|].
  exact (retry_after_outcome_throws Sample.theme Scenario.steps "0-0"
           (TestFail Sample.works) Scenario.click r zero_tally H1 H2 H3 H4).
Defined.

Lemma cleanStack_idempotent_witness :
  let cleaned := {| message := "boom"; stack := Some Sample.spec_frame;
                    matcherName := None |} in
  cleanStack (Some Sample.boom) = Normal cleaned /\
  cleanStack (Some cleaned) = Normal cleaned.
Proof.
  intros cleaned.
  assert (H : cleanStack (Some Sample.boom) = Normal cleaned) by reflexivity.
  split; [exact H|].
  exact (cleanStack_idempotent Sample.boom cleaned H).
Defined.


Lemma instant_suiteStart_prints_title_witness :
  let r := run Part000 Sample.theme Sample.instant
             [Emit (RunnerStart Sample.runner); Emit (SuiteStart Sample.login)]
             (init (Sample.stats_with [])) in
  let r' := step Part000 Sample.theme Sample.instant (Emit (SuiteStart Sample.form)) r in
  instantReport Sample.instant = true /\
  indents r !! suite_cid Sample.form = Some (JNum 1) /\
  0 <= 1 /\
  suiteIndents r !! suite_cid Sample.form = Some {[ "Login1" := JNum 1 ]} /\
  console r'
  = (console r
     ++ [ReporterLog ("[TESTCASE] " +:+ JS.LF +:+ "[TESTCASE]     Form")])%list /\
  currentSuite r' = Some Sample.form.
Proof.
  intros r r'.
  assert (H1 : instantReport Sample.instant = true) by reflexivity.
  assert (H2 : indents r !! suite_cid Sample.form = Some (JNum 1)) by reflexivity.
  assert (H3 : 0 <= 1) by lia.
  assert (H4 : suiteIndents r !! suite_cid Sample.form = Some {[ "Login1" := JNum 1 ]})
    by reflexivity.
  split; [exact H1|]. split; [exact H2|]. split; [exact H3|]. split; [exact H4|].
  exact (instant_suiteStart_prints_title Part000 Sample.theme Sample.instant Sample.form
           r 1 {[ "Login1" := JNum 1 ]} H1 H2 H3 H4).
Defined.

Lemma second_rendering_counts_nothing_witness :
  let r := run LibReporter Sample.theme Sample.buffered [Emit (RunnerStart Sample.runner)]
             (init (Sample.stats_with Sample.login_suites)) in
  let result := getSuiteResult LibReporter Sample.theme Sample.runner r in
  let text := match fst result with Normal text => text | Throw _ => "" end in
  let once := step LibReporter Sample.theme Sample.buffered
                (Emit (RunnerEnd Sample.runner)) r in
  result = (Normal text, snd result) /\
  results once !! "0-0" = Some (add_pending 1 zero_tally) /\
  results (step LibReporter Sample.theme Sample.buffered
             (Emit (RunnerEnd Sample.runner)) once)
  = results once.
Proof.
  intros r result text once.
  assert (H : result = (Normal text, snd result)) by (vm_compute; reflexivity).
  split; [exact H|]. split; [reflexivity|].
  exact (second_rendering_counts_nothing LibReporter Sample.theme Sample.buffered
           Sample.runner text r (snd result) H).
Defined.
